(** * FileDock Suite: the file organisation and integrity engine

    A shallow embedding of the engine of [FileDock-Suite.py]: the category
    resolver [find_category], the collision-safe move [safe_move], the undo
    journal ([save_undo], [load_undo], [undo_last_operation]), the organiser
    [organize_folder], the duplicate detector [find_duplicates], the
    metadata queries [top_n_large], [recent_files], [preview_counts] and
    the history of folders ([save_history], [load_history]), with the
    deletion of the duplicates selected in the view, [delete_selected].

    The program is written against [pathlib] and the operating system.  The
    model of that environment is the following.
    - A path is the list of its components, root first.  All paths are
      absolute and canonical, so [Path.resolve] and the round trip through
      [str] are the identity.  [p </> c] appends one component.  File
      names are single components, and so are the category names that
      are plain names ([plain_name]); what [pathlib] makes of any other
      category name (an empty one, [..], one with a slash) is not
      modelled, and the statements that depend on where a category folder
      lies carry the proviso that the names are plain.
    - The file system is a finite map from paths to nodes, a node being a
      regular file (content, modification time, read permission) or a
      directory.  The root always exists.  A call on a path that cannot
      be reached fails with [NotADirectoryError] below a regular file and
      with [FileNotFoundError] otherwise ([unreachable]).  The order in
      which [iterdir] yields the entries of a directory is the order of
      the map's listing; no proof depends on which order that is.
    - [undo_log.json] is a slot of its own beside the file system: it lives
      in the application directory, which is not the directory being
      organised.  Its content is absent, unparseable, a journal as
      [save_undo] writes it, or any other JSON value.
    - Strings are byte strings, in UTF-8 where Python has text.
      [str.lower] and the reading of a string as a path are parameters
      ([Python]): nothing is assumed of them.
    - Time stamps are doubles, held as whole multiples of [2^-1074]
      seconds, and the clock is read, not advanced.  [days] is an [int].
    - Writing and removing the journal file succeed.
    - [history.json] is a slot of the same kind, kept apart from the
      world since nothing else reads it: absent, unparseable, or a list
      of strings, as [save_history] writes it.  Writing it succeeds.
    - What the user does in a dialog is an input: the rows selected in
      the duplicates view and the answer to the confirmation.
    - [log_error] only appends to [error.log] and the progress callback is
      advisory; neither is modelled. *)

From Stdlib Require Import ZArith Ascii Sorting.Sorted Sorting.Permutation.
From stdpp Require Import gmap strings list fin_maps pretty sorting.


(** ** Paths *)

Definition path := list string.

Definition parent (p : path) : path := removelast p.

Definition name (p : path) : string := List.last p EmptyString.

Definition joinpath (p : path) (c : string) : path := p ++ [c].

Infix "</>" := joinpath (at level 40, left associativity).

(** [str.rfind(".")]: the index of the last dot. *)
Fixpoint rfind_dot (s : string) : option nat :=
  match s with
  | EmptyString => None
  | String c s' =>
      match rfind_dot s' with
      | Some i => Some (S i)
      | None => if Ascii.eqb c "."%char then Some 0 else None
      end
  end.

(** [PurePath.suffix] and [PurePath.stem] of a file name: the name is split
    at its last dot when that dot is neither its first nor its last
    character. *)
Definition name_suffix (nm : string) : string :=
  match rfind_dot nm with
  | Some i =>
      if (0 <? i) && (S i <? String.length nm)
      then String.substring i (String.length nm - i) nm
      else EmptyString
  | None => EmptyString
  end.

Definition name_stem (nm : string) : string :=
  match rfind_dot nm with
  | Some i =>
      if (0 <? i) && (S i <? String.length nm)
      then String.substring 0 i nm
      else nm
  | None => nm
  end.

Definition suffix (p : path) : string := name_suffix (name p).
Definition stem (p : path) : string := name_stem (name p).

(** ** What the engine takes from Python

    [str.lower] folds the letters of all of Unicode, and [Path(s)] reads
    a string as a path, relative to the working directory of the process
    when the string is a relative path.  Neither is spelled out: the
    engine is verified for whatever functions they are. *)
Class Python := {
  lower : string -> string;
  Path : string -> path
}.

(** ** The world: file system, journal file, clock *)

Record file := mkFile {
  content : string;
  mtime : Z;
  readable : bool
}.

Inductive node :=
  | File (f : file)
  | Dir.

#[global] Instance file_eq_dec : EqDecision file.
Proof. solve_decision. Defined.

#[global] Instance node_eq_dec : EqDecision node.
Proof. solve_decision. Defined.

(** A move record, [{'orig': ..., 'new': ...}]. *)
Record move := mkMove {
  orig : path;
  new : path
}.

(** A JSON value as [json.loads] returns it: [None], a [bool], an [int],
    a [float] (held as the time stamps are, see below), a [str], a
    [list], or a [dict], given by its items in the order of the text. *)
#[local] Unset Elimination Schemes.
Inductive json :=
  | JNull
  | JBool (b : bool)
  | JInt (n : Z)
  | JFloat (x : Z)
  | JStr (s : string)
  | JArr (items : list json)
  | JObj (fields : list (string * json)).
#[local] Set Elimination Schemes.

(** [undo_log.json]: absent; there, but not JSON; the journal as
    [save_undo] writes it, held as its time stamp and its records, the
    strings of a record being held as the paths they were made from; or
    any other JSON value. *)
Inductive journal_file :=
  | Absent
  | Corrupt
  | Journal (timestamp : Z) (moves : list move)
  | Other (j : json).

Record world := mkWorld {
  fs : gmap path node;
  undo_file : journal_file;
  clock : Z
}.

Definition set_fs (m : gmap path node) (w : world) : world :=
  mkWorld m (undo_file w) (clock w).

Definition set_undo_file (j : journal_file) (w : world) : world :=
  mkWorld (fs w) j (clock w).

(** The node at a path; the root is always a directory. *)
Definition node_at (m : gmap path node) (p : path) : option node :=
  match p with
  | [] => Some Dir
  | _ => m !! p
  end.

Definition is_file_node (o : option node) : bool :=
  match o with Some (File _) => true | _ => false end.

Definition is_dir_node (o : option node) : bool :=
  match o with Some Dir => true | _ => false end.

(** ** Exceptions and the program monad *)

(** The exceptions of the operating system name the path at fault. *)
Inductive exn :=
  | FileNotFoundError (p : path)
  | FileExistsError (p : path)
  | NotADirectoryError (p : path)
  | IsADirectoryError (p : path)
  | PermissionError (p : path)
  | OSError (p : path)
  | ValueError
  | TypeError
  | AttributeError
  | KeyError (k : string)
  | OverflowError.

(** [Diverge] is a loop that did not finish within its budget of
    iterations; no handler catches it. *)
Inductive outcome (A : Type) :=
  | Ok (a : A)
  | Raise (e : exn)
  | Diverge.

Arguments Ok {A} a.
Arguments Raise {A} e.
Arguments Diverge {A}.

Definition M (A : Type) : Type := world -> outcome A * world.

Definition ret {A} (a : A) : M A := fun w => (Ok a, w).

Definition bind {A B} (m : M A) (k : A -> M B) : M B :=
  fun w =>
    match m w with
    | (Ok a, w') => k a w'
    | (Raise e, w') => (Raise e, w')
    | (Diverge, w') => (Diverge, w')
    end.

Definition raise {A} (e : exn) : M A := fun w => (Raise e, w).

Definition diverge {A} : M A := fun w => (Diverge, w).

(** [try: m  except Exception as e: h e]. *)
Definition try_except {A} (m : M A) (h : exn -> M A) : M A :=
  fun w =>
    match m w with
    | (Raise e, w') => h e w'
    | r => r
    end.

Definition gets {A} (f : world -> A) : M A := fun w => (Ok (f w), w).

Definition modify (f : world -> world) : M unit := fun w => (Ok tt, f w).

Declare Scope prog_scope.
Delimit Scope prog_scope with prog.

Notation "'let*' x ':=' m 'in' k" := (bind m (fun x => k))
  (at level 10, x pattern, m at level 100, k at level 200) : prog_scope.

Notation "m1 '>>' m2" := (bind m1 (fun _ => m2))
  (at level 100, m2 at level 200, right associativity) : prog_scope.

Open Scope prog_scope.

(** A [for] loop that threads the local variables [s] through its body. *)
Fixpoint for_each {A S} (body : S -> A -> M S) (l : list A) (s : S) : M S :=
  match l with
  | [] => ret s
  | x :: l' => let* s' := body s x in for_each body l' s'
  end.

(** ** The file system calls *)

Definition path_exists (p : path) : M bool :=
  gets (fun w => bool_decide (is_Some (node_at (fs w) p))).

Definition is_file (p : path) : M bool :=
  gets (fun w => is_file_node (node_at (fs w) p)).

Definition is_dir (p : path) : M bool :=
  gets (fun w => is_dir_node (node_at (fs w) p)).

(** A path is looked up component by component from the root, and the
    first component that is not a directory decides how a call on a path
    that cannot be reached fails: [file_above m above rest] tells whether,
    going down [rest] from the directory [above], a regular file is met
    while components remain. *)
Fixpoint file_above (m : gmap path node) (above : path) (rest : list string)
  : bool :=
  match rest with
  | [] => false
  | c :: rest' =>
      match node_at m (above ++ [c]) with
      | Some Dir => file_above m (above ++ [c]) rest'
      | Some (File _) => match rest' with [] => false | _ => true end
      | None => false
      end
  end.

(** [ENOTDIR] when a regular file stands where a directory is needed,
    [ENOENT] when a component is missing. *)
Definition unreachable (m : gmap path node) (p : path) : exn :=
  if file_above m [] p then NotADirectoryError p else FileNotFoundError p.

(** [os.mkdir]. *)
Definition os_mkdir (p : path) : M unit :=
  fun w =>
    match node_at (fs w) p with
    | Some _ => (Raise (FileExistsError p), w)
    | None =>
        match node_at (fs w) (parent p) with
        | Some Dir => (Ok tt, set_fs (<[p := Dir]> (fs w)) w)
        | _ => (Raise (unreachable (fs w) p), w)
        end
    end.

(** [Path.mkdir(exist_ok=True)]. *)
Definition mkdir_exist_ok (p : path) : M unit :=
  try_except (os_mkdir p)
    (fun e =>
       match e with
       | FileNotFoundError _ => raise e
       | _ => let* d := is_dir p in if d then ret tt else raise e
       end).

(** [Path.mkdir(parents=True, exist_ok=True)], by recursion on the reversed
    path: a missing parent is created first. *)
Fixpoint mkdir_parents_rev (rp : list string) : M unit :=
  try_except (os_mkdir (rev rp))
    (fun e =>
       match e with
       | FileNotFoundError _ =>
           match rp with
           | [] => raise e
           | _ :: rp' => mkdir_parents_rev rp' >> mkdir_exist_ok (rev rp)
           end
       | _ => let* d := is_dir (rev rp) in if d then ret tt else raise e
       end).

Definition mkdir_parents (p : path) : M unit := mkdir_parents_rev (rev p).

(** Renaming a directory moves everything below it. *)
Definition rebase (src dst p : path) : path :=
  if bool_decide (src `prefix_of` p) then dst ++ drop (length src) p else p.

Definition move_tree (src dst : path) (m : gmap path node) : gmap path node :=
  list_to_map (prod_map (rebase src dst) id <$> map_to_list m).

Definition has_entries (m : gmap path node) (d : path) : bool :=
  bool_decide (Exists (fun p => p <> [] /\ parent p = d) (map_to_list m).*1).

(** [os.rename] (POSIX): the source must exist and the parent of the target
    must be a directory; a regular file replaces an existing regular
    file. *)
Definition os_rename (src dst : path) : M unit :=
  fun w =>
    match node_at (fs w) src with
    | None => (Raise (unreachable (fs w) src), w)
    | Some n =>
        if bool_decide (src = dst) then (Ok tt, w) else
        match node_at (fs w) (parent dst) with
        | None | Some (File _) => (Raise (unreachable (fs w) dst), w)
        | Some Dir =>
            match n, node_at (fs w) dst with
            | File f, None | File f, Some (File _) =>
                (Ok tt, set_fs (<[dst := File f]> (delete src (fs w))) w)
            | File _, Some Dir => (Raise (IsADirectoryError dst), w)
            | Dir, Some (File _) => (Raise (NotADirectoryError dst), w)
            | Dir, _ =>
                if bool_decide (src `prefix_of` dst) || has_entries (fs w) dst
                then (Raise (OSError dst), w)
                else (Ok tt, set_fs (move_tree src dst (delete dst (fs w))) w)
            end
        end
    end.

(** The entries of a directory, in listing order. *)
Definition children (m : gmap path node) (d : path) : list path :=
  filter (fun p => p <> [] /\ parent p = d) (map_to_list m).*1.

(** [Path.iterdir]. *)
Definition iterdir (d : path) : M (list path) :=
  fun w =>
    match node_at (fs w) d with
    | Some Dir => (Ok (children (fs w) d), w)
    | Some (File _) => (Raise (NotADirectoryError d), w)
    | None => (Raise (unreachable (fs w) d), w)
    end.

(** [Path.stat]: size and modification time; only regular files are ever
    asked for theirs. *)
Definition stat (p : path) : M (Z * Z) :=
  fun w =>
    match node_at (fs w) p with
    | Some (File f) => (Ok (Z.of_nat (String.length (content f)), mtime f), w)
    | Some Dir => (Ok (0%Z, 0%Z), w)
    | None => (Raise (unreachable (fs w) p), w)
    end.

Definition st_size (s : Z * Z) : Z := fst s.
Definition st_mtime (s : Z * Z) : Z := snd s.

(** [Path.with_name]. *)
Definition with_name (p : path) (nm : string) : M path :=
  match p with
  | [] => raise ValueError
  | _ => ret (parent p </> nm)
  end.

(** [[p for p in items if p.is_file()]]. *)
Fixpoint only_files (l : list path) : M (list path) :=
  match l with
  | [] => ret []
  | p :: l' =>
      let* b := is_file p in
      let* r := only_files l' in
      ret (if b then p :: r else r)
  end.

(** [Path.open("rb")] followed by reading the file to its end. *)
Definition read_bytes (p : path) : M string :=
  fun w =>
    match node_at (fs w) p with
    | Some (File f) =>
        if readable f then (Ok (content f), w)
        else (Raise (PermissionError p), w)
    | Some Dir => (Raise (IsADirectoryError p), w)
    | None => (Raise (unreachable (fs w) p), w)
    end.

(** [Path.unlink]: a regular file goes; a directory cannot be unlinked. *)
Definition unlink (p : path) : M unit :=
  fun w =>
    match node_at (fs w) p with
    | Some (File _) => (Ok tt, set_fs (delete p (fs w)) w)
    | Some Dir => (Raise (IsADirectoryError p), w)
    | None => (Raise (unreachable (fs w) p), w)
    end.

(** ** Sorting and slicing

    [list.sort(key=..., reverse=True)] is a stable sort into descending
    order of the keys, and it compares keys with [<] only.  The stable
    descending arrangement of a list is unique; insertion computes it. *)
Section Sort.
Context {A : Type} (key : A -> Z).

Fixpoint insert_desc (x : A) (l : list A) : list A :=
  match l with
  | [] => [x]
  | y :: l' =>
      if (key x <? key y)%Z then y :: insert_desc x l' else x :: l
  end.

Definition sort_desc (l : list A) : list A := foldr insert_desc [] l.
End Sort.

(** The slice [l[:n]]: a negative [n] counts from the end. *)
Definition slice_to {A} (n : Z) (l : list A) : list A :=
  if (0 <=? n)%Z then take (Z.to_nat n) l
  else take (length l - Z.to_nat (- n)) l.

(** ** Time stamps

    A time stamp is a double.  Every finite double is a whole multiple of
    [2^-1074] seconds, and a time stamp is held as that whole number, so
    that stamps compare as integers do; [seconds n] is the stamp of [n]
    whole seconds.  A number beyond the largest double stands for an
    infinity: it compares with every double as the infinity does. *)
Definition seconds (n : Z) : Z := (n * 2 ^ 1074)%Z.

(** Rounding to the nearest double, ties to even: what has more than 53
    significant bits loses the bits beyond them. *)
Definition round53 (z : Z) : Z :=
  let a := Z.abs z in
  if (a <? 2 ^ 53)%Z then z
  else
    let e := (Z.log2 a - 52)%Z in
    let q := (a / 2 ^ e)%Z in
    let r := (a mod 2 ^ e)%Z in
    let half := (2 ^ (e - 1))%Z in
    let q' :=
      if (r <? half)%Z then q
      else if (half <? r)%Z then (q + 1)%Z
      else if Z.even q then q else (q + 1)%Z in
    (Z.sgn z * (q' * 2 ^ e))%Z.

(** The largest double, [(2^53 - 1) * 2^971]. *)
Definition max_double : Z := seconds ((2 ^ 53 - 1) * 2 ^ 971).

(** An [int] used where a double is needed is converted to the nearest
    double; one too large for that raises [OverflowError]. *)
Definition float_of_int (n : Z) : M Z :=
  let x := round53 (seconds n) in
  if (Z.abs x <=? max_double)%Z then ret x else raise OverflowError.

(** [a - b] on doubles. *)
Definition float_sub (a b : Z) : Z := round53 (a - b).

(** ** The program *)

(** An entry of the error lists: [f"Failed {p}: {e}"], [str(e)] and
    [f"Failed to restore {m}: {e}"], the latter for a record and for any
    other JSON value met where a record was expected. *)
Inductive error_desc :=
  | Failed (p : path) (e : exn)
  | Error (e : exn)
  | FailedRestore (m : move) (e : exn)
  | FailedRestoreOf (m : json) (e : exn).

(** *** Python on JSON values *)

(** [bool(j)]. *)
Definition truthy (j : json) : bool :=
  match j with
  | JNull => false
  | JBool b => b
  | JInt n => negb (n =? 0)%Z
  | JFloat x => negb (x =? 0)%Z
  | JStr s => negb (bool_decide (s = EmptyString))
  | JArr items => match items with [] => false | _ => true end
  | JObj fields => match fields with [] => false | _ => true end
  end.

(** The value of a key of a [dict]: where the text of an object repeats a
    key, [json.loads] keeps the last value. *)
Fixpoint obj_lookup (k : string) (fields : list (string * json))
  : option json :=
  match fields with
  | [] => None
  | (k', v) :: rest =>
      match obj_lookup k rest with
      | Some v' => Some v'
      | None => if bool_decide (k' = k) then Some v else None
      end
  end.

(** The keys of a [dict], each at the place where it came first. *)
Fixpoint obj_keys (fields : list (string * json)) : list string :=
  match fields with
  | [] => []
  | (k, _) :: rest => k :: filter (fun k' => k' <> k) (obj_keys rest)
  end.

(** The characters of a [str], which is held in UTF-8: a byte
    [10xxxxxx] continues the character before it. *)
Definition continues (c : ascii) : bool :=
  let n := nat_of_ascii c in (128 <=? n) && (n <? 192).

Fixpoint characters (s : string) : list string :=
  match s with
  | EmptyString => []
  | String c s' =>
      let chs := characters s' in
      match s', chs with
      | String c' _, ch :: rest =>
          if continues c' then String c ch :: rest
          else String c EmptyString :: chs
      | _, _ => String c EmptyString :: chs
      end
  end.

(** [j.get(k, dflt)]: only a [dict] has the method. *)
Definition dict_get (j : json) (k : string) (dflt : json) : M json :=
  match j with
  | JObj fields => ret (default dflt (obj_lookup k fields))
  | _ => raise AttributeError
  end.

(** [reversed(j)], run to its end: of a [list] its items, of a [str] its
    characters, of a [dict] its keys, last first; nothing else is
    reversible. *)
Definition reversed (j : json) : M (list json) :=
  match j with
  | JArr items => ret (rev items)
  | JStr s => ret (rev (JStr <$> characters s))
  | JObj fields => ret (rev (JStr <$> obj_keys fields))
  | _ => raise TypeError
  end.

(** [m[k]] for a string [k]: a [dict] has the key or raises [KeyError];
    a [list] and a [str] take no string for an index, and nothing else
    is subscriptable. *)
Definition subscript (m : json) (k : string) : M json :=
  match m with
  | JObj fields =>
      match obj_lookup k fields with
      | Some v => ret v
      | None => raise (KeyError k)
      end
  | _ => raise TypeError
  end.

Section Engine.

(** [config.json] as loaded, in the order of its keys, and the digest
    [hashlib.md5(...).hexdigest()] of a byte string. *)
Context {py : Python}.
Variable config : list (string * list string).
Variable md5 : string -> string.

(** [if "OTHERS" not in CATEGORIES: CATEGORIES["OTHERS"] = []] *)
Definition CATEGORIES : list (string * list string) :=
  if bool_decide ("OTHERS" ∈ config.*1) then config
  else config ++ [("OTHERS", [])].

Fixpoint first_listing (ext : string) (cats : list (string * list string))
  : option string :=
  match cats with
  | [] => None
  | (cat, exts) :: cats' =>
      if bool_decide (ext ∈ exts) then Some cat else first_listing ext cats'
  end.

Definition find_category (ext : string) : string :=
  let ext := lower ext in
  match first_listing ext CATEGORIES with
  | Some cat => cat
  | None => "OTHERS"
  end.

(** The [while True] loop of [safe_move], run for at most [budget]
    iterations. *)
Fixpoint dup_loop (budget : nat) (src dest : path) (base suf : string)
    (i : nat) : M path :=
  match budget with
  | 0 => diverge
  | S budget' =>
      let candidate :=
        parent dest </> (base +:+ "_dup" +:+ pretty i +:+ suf) in
      let* e := path_exists candidate in
      if negb e then os_rename src candidate >> ret candidate
      else dup_loop budget' src dest base suf (S i)
  end.

Definition safe_move (src dest : path) : M path :=
  mkdir_parents (parent dest) >>
  let* e := path_exists dest in
  if negb e then os_rename src dest >> ret dest
  else
    let base := stem dest in
    let suf := suffix dest in
    let* budget := gets (fun w => S (size (fs w))) in
    dup_loop budget src dest base suf 1.

Definition save_undo (moves : list move) : M unit :=
  modify (fun w => set_undo_file (Journal (clock w) moves) w).

(** What [load_undo] returns when the file could be parsed: the records
    of a journal that [save_undo] wrote, or another JSON value. *)
Inductive undo_data :=
  | Records (moves : list move)
  | Value (j : json).

Definition load_undo : M (option undo_data) :=
  gets (fun w =>
          match undo_file w with
          | Absent | Corrupt => None
          | Journal _ moves => Some (Records moves)
          | Other j => Some (Value j)
          end).

Definition clear_undo : M unit := modify (set_undo_file Absent).

Definition preview_one (counts : gmap string nat) (item : path)
  : M (gmap string nat) :=
  let* f := is_file item in
  if f then
    let cat := find_category (suffix item) in
    ret (<[cat := default 0 (counts !! cat) + 1]> counts)
  else ret counts.

(** The only call of the [try] block that can raise is [iterdir], before
    any count is changed. *)
Definition preview_counts (folder : path) : M (gmap string nat) :=
  let counts : gmap string nat :=
    list_to_map ((fun cat => (cat, 0)) <$> CATEGORIES.*1) in
  let counts :=
    match counts !! "OTHERS" with
    | Some _ => counts
    | None => <["OTHERS" := 0]> counts
    end in
  try_except
    (let* l := iterdir folder in for_each preview_one l counts)
    (fun _ => ret counts).

(** The body of the loop of [organize_folder].  [folder / cat] is taken
    as [folder </> cat], which it is when [cat] is a plain name. *)
Definition organize_one (folder : path)
    (st : list move * list error_desc) (p : path)
  : M (list move * list error_desc) :=
  let '(moves, errors) := st in
  try_except
    (let cat := find_category (suffix p) in
     let dest_folder := folder </> cat in
     mkdir_parents dest_folder >>
     let dest := dest_folder </> name p in
     let* moved_path := safe_move p dest in
     ret (moves ++ [mkMove p moved_path], errors))
    (fun e => ret (moves, errors ++ [Failed p e])).

(** The loop body catches every exception, so the outer handler runs
    only when the enumeration itself fails, with both lists empty. *)
Definition organize_folder (folder : path) : M (nat * list error_desc) :=
  let* st :=
    try_except
      (let* l := iterdir folder in
       let* items := only_files l in
       for_each (organize_one folder) items ([], []))
      (fun e => ret ([], [Error e])) in
  let '(moves, errors) := st in
  (match moves with
   | [] => ret tt
   | _ => save_undo moves
   end) >>
  ret (length moves, errors).

(** The [while candidate.exists()] loop of [undo_last_operation]. *)
Fixpoint restored_loop (budget : nat) (orig : path) (base suf : string)
    (i : nat) (candidate : path) : M path :=
  match budget with
  | 0 => diverge
  | S budget' =>
      let* e := path_exists candidate in
      if e then
        let i := S i in
        let* candidate :=
          with_name orig (base +:+ "_restored" +:+ pretty i +:+ suf) in
        restored_loop budget' orig base suf i candidate
      else ret candidate
  end.

(** The [try] block of the loop of [undo_last_operation], from
    [if new.exists()] on. *)
Definition undo_body (restored : nat) (errors : list error_desc)
    (orig new : path) : M (nat * list error_desc) :=
  let* e := path_exists new in
  if e then
    let* oe := path_exists orig in
    (if oe then
       let base := stem orig in
       let suf := suffix orig in
       let* candidate :=
         with_name orig (base +:+ "_restored" +:+ pretty 1 +:+ suf) in
       let* budget := gets (fun w => S (size (fs w))) in
       let* candidate := restored_loop budget orig base suf 1 candidate in
       os_rename new candidate
     else os_rename new orig) >>
    ret (S restored, errors)
  else ret (restored, errors).

(** One turn of the loop on a record of a journal that [save_undo]
    wrote. *)
Definition undo_one (st : nat * list error_desc) (m : move)
  : M (nat * list error_desc) :=
  let '(restored, errors) := st in
  try_except
    (let orig := orig m in
     let new := new m in
     undo_body restored errors orig new)
    (fun e => ret (restored, errors ++ [FailedRestore m e])).

Definition undo_records (moves : list move) : M (nat * list error_desc) :=
  for_each undo_one (rev moves) (0, []).

(** [Path(v)]: of a [str] only. *)
Definition as_path (v : json) : M path :=
  match v with
  | JStr s => ret (Path s)
  | _ => raise TypeError
  end.

(** One turn of the loop on any JSON value. *)
Definition undo_entry (st : nat * list error_desc) (m : json)
  : M (nat * list error_desc) :=
  let '(restored, errors) := st in
  try_except
    (let* o := subscript m "orig" in
     let* orig := as_path o in
     let* n := subscript m "new" in
     let* new := as_path n in
     undo_body restored errors orig new)
    (fun e => ret (restored, errors ++ [FailedRestoreOf m e])).

Definition undo_message (restored : nat) (errors : list error_desc)
  : string :=
  let msg := "Restored " +:+ pretty restored +:+ " files." in
  match errors with
  | [] => msg
  | _ => msg +:+ " Some errors occurred; check error.log."
  end.

(** [data.get] and [reversed] are called outside every [try]. *)
Definition undo_last_operation : M (nat * string) :=
  let* data := load_undo in
  match data with
  | None => ret (0, "No undo data found.")
  | Some (Records moves) =>
      let* st := undo_records moves in
      let '(restored, errors) := st in
      modify (set_undo_file Absent) >>
      ret (restored, undo_message restored errors)
  | Some (Value j) =>
      if truthy j then
        let* moves := dict_get j "moves" (JArr []) in
        let* items := reversed moves in
        let* st := for_each undo_entry items (0, []) in
        let '(restored, errors) := st in
        modify (set_undo_file Absent) >>
        ret (restored, undo_message restored errors)
      else ret (0, "No undo data found.")
  end.

Definition md5_of_file (p : path) : M (option string) :=
  try_except
    (let* data := read_bytes p in ret (Some (md5 data)))
    (fun _ => ret None).

Definition dup_one (st : gmap string path * gmap string (list path))
    (p : path) : M (gmap string path * gmap string (list path)) :=
  let '(map_hash, dup) := st in
  let* f := is_file p in
  if f then
    let* h := md5_of_file p in
    match h with
    | None => ret st
    | Some h =>
        if bool_decide (h = EmptyString) then ret st
        else
          match map_hash !! h with
          | Some first =>
              let group := default [] (dup !! h) ++ [p] in
              let group :=
                if bool_decide (first ∈ group) then group
                else first :: group in
              ret (map_hash, <[h := group]> dup)
          | None => ret (<[h := p]> map_hash, dup)
          end
    end
  else ret st.

(** Inside the loop nothing raises ([md5_of_file] catches its own
    errors), so the handler runs only when [iterdir] fails, with [dup]
    still empty. *)
Definition find_duplicates (folder : path) : M (gmap string (list path)) :=
  try_except
    (let* l := iterdir folder in
     let* st := for_each dup_one l (∅, ∅) in
     ret (snd st))
    (fun _ => ret ∅).

Definition large_one (files : list (path * Z)) (p : path)
  : M (list (path * Z)) :=
  let* f := is_file p in
  if f then
    try_except
      (let* s := stat p in ret (files ++ [(p, st_size s)]))
      (fun _ => ret files)
  else ret files.

(** Outside the inner [try] only [iterdir] can raise, with [files] still
    empty. *)
Definition top_n_large (folder : path) (n : Z) : M (list (path * Z)) :=
  let* files :=
    try_except
      (let* l := iterdir folder in
       let* files := for_each large_one l [] in
       ret (sort_desc snd files))
      (fun _ => ret []) in
  ret (slice_to n files).

Definition recent_one (cut : Z) (res : list (path * Z)) (p : path)
  : M (list (path * Z)) :=
  let* f := is_file p in
  if f then
    let* s := stat p in
    if (cut <=? st_mtime s)%Z then
      let* s' := stat p in ret (res ++ [(p, st_mtime s')])
    else ret res
  else ret res.

(** The cutoff is computed before the [try]: [days * 86400] is an [int],
    converted to a double for the subtraction.  Inside the [try], [stat]
    follows a successful [is_file], so only [iterdir] can raise, with
    [res] still empty. *)
Definition recent_files (folder : path) (days : Z) : M (list (path * Z)) :=
  let* now := gets clock in
  let* span := float_of_int (days * 86400) in
  let cut := float_sub now span in
  try_except
    (let* l := iterdir folder in
     let* res := for_each (recent_one cut) l [] in
     ret (sort_desc snd res))
    (fun _ => ret []).

End Engine.

(** ** Deleting the selected duplicates *)

(** One selected row: the file is unlinked and counted; a failure is
    logged and the row passed over. *)
Definition delete_one (deleted : nat) (p : path) : M nat :=
  try_except (unlink p >> ret (S deleted)) (fun _ => ret deleted).

(** [delete_selected], the handler of the button of the duplicates view.
    [sel] are the paths of the selected rows and [confirmed] is the answer
    to the confirmation dialog; [None] stands for the two early returns.
    The view is then rendered anew, which scans the folder again with
    [find_duplicates]. *)
Definition delete_selected (sel : list path) (confirmed : bool)
  : M (option nat) :=
  match sel with
  | [] => ret None
  | _ =>
      if confirmed then
        let* deleted := for_each delete_one sel 0 in
        ret (Some deleted)
      else ret None
  end.

(** ** The history of folders *)

(** [history.json]: absent; there, but not JSON; or a list of strings,
    which is what [save_history] writes.  A file that holds any other
    JSON value is left out: the list methods that [save_history] calls
    outside its [try] raise on it, before anything is written. *)
Inductive history_file :=
  | NoHistory
  | BadHistory
  | History (hist : list string).

(** [list.remove]: the first occurrence goes. *)
Fixpoint remove_first (x : string) (l : list string) : list string :=
  match l with
  | [] => []
  | y :: l' => if bool_decide (y = x) then l' else y :: remove_first x l'
  end.

(** The list in the file; [[]] when there is no file or it cannot be
    parsed. *)
Definition load_history (h : history_file) : list string :=
  match h with
  | History hist => hist
  | _ => []
  end.

(** The folder is taken out of the list if it is there, put in front,
    and the first six entries, [hist[:6]], are written back. *)
Definition save_history (folder : string) (h : history_file) : history_file :=
  let hist :=
    match h with
    | History hist => hist
    | _ => []
    end in
  let hist :=
    if bool_decide (folder ∈ hist) then remove_first folder hist else hist in
  let hist := folder :: hist in
  let hist := slice_to 6 hist in
  History hist.

(** ** Vocabulary of the statements *)

Section Vocabulary.
Context {py : Python}.



(** [w'] is [w] with directories added at unused paths that are prefixes
    of [p]: what creating the directory [p] and its ancestors may do. *)
Definition dirs_added (p : path) (w w' : world) : Prop :=
  undo_file w' = undo_file w /\ clock w' = clock w /\
  forall q,
    node_at (fs w') q = node_at (fs w) q
    \/ (node_at (fs w) q = None /\ node_at (fs w') q = Some Dir
        /\ q `prefix_of` p).

(** A regular file stands above [p]: a proper prefix of [p] is a regular
    file, and everything above that file is a directory. *)
Definition below_file (m : gmap path node) (p : path) : Prop :=
  exists q, q `prefix_of` p /\ q <> p /\ is_file_node (node_at m q)
            /\ forall r, r `prefix_of` q -> r <> q -> node_at m r = Some Dir.

(** No regular file stands at [p] or above it. *)
Definition clear_way (m : gmap path node) (p : path) : Prop :=
  forall q, q `prefix_of` p -> ¬ is_file_node (node_at m q).

(** The candidate names of [safe_move] and of [undo_last_operation]. *)
Definition dup_name (dest : path) (i : nat) : path :=
  parent dest </> (stem dest +:+ "_dup" +:+ pretty i +:+ suffix dest).

Definition restored_name (orig : path) (i : nat) : path :=
  parent orig </> (stem orig +:+ "_restored" +:+ pretty i +:+ suffix orig).

(** [N] is the first index from [i] on whose candidate name is unused. *)
Definition first_unused (m : gmap path node) (cand : nat -> path)
    (i N : nat) : Prop :=
  i <= N /\ node_at m (cand N) = None
  /\ forall j, i <= j < N -> is_Some (node_at m (cand j)).

(** Where undo takes a record back: the original path when nothing is
    there, and otherwise the first unused [_restored{N}] name beside it,
    N counting from 1. *)
Definition restore_target (m : gmap path node) (mv : move) (t : path)
  : Prop :=
  (node_at m (orig mv) = None /\ t = orig mv)
  \/ (is_Some (node_at m (orig mv))
      /\ exists N, first_unused m (restored_name (orig mv)) 1 N
                   /\ t = restored_name (orig mv) N).

(** What undo does with the records of a journal, in the order in which
    it takes them, with the count of restored files and the error list
    it ends with: a record whose new path is gone is skipped; any other
    record is renamed to its target, and it is counted when the rename
    returns and put on the error list, with the exception, when the
    rename raises.  The root has no name to derive a target from. *)
Inductive undone
  : list move -> world -> nat -> list error_desc -> world -> Prop :=
  | undone_nil w : undone [] w 0 [] w
  | undone_skipped mv l w n errs w' :
      node_at (fs w) (new mv) = None ->
      undone l w n errs w' ->
      undone (mv :: l) w n errs w'
  | undone_restored mv l w t w1 n errs w' :
      is_Some (node_at (fs w) (new mv)) ->
      orig mv <> [] ->
      restore_target (fs w) mv t ->
      os_rename (new mv) t w = (Ok tt, w1) ->
      undone l w1 n errs w' ->
      undone (mv :: l) w (S n) errs w'
  | undone_raised mv l w t e n errs w' :
      is_Some (node_at (fs w) (new mv)) ->
      orig mv <> [] ->
      restore_target (fs w) mv t ->
      os_rename (new mv) t w = (Raise e, w) ->
      undone l w n errs w' ->
      undone (mv :: l) w n (FailedRestore mv e :: errs) w'
  | undone_nameless mv l w n errs w' :
      is_Some (node_at (fs w) (new mv)) ->
      orig mv = [] ->
      undone l w n errs w' ->
      undone (mv :: l) w n (FailedRestore mv ValueError :: errs) w'.

(** The value under the key ["moves"] of a journal, [[]] when the key is
    missing, and whether [reversed] takes it. *)
Definition moves_of (fields : list (string * json)) : json :=
  default (JArr []) (obj_lookup "moves" fields).

Definition reversible (j : json) : bool :=
  match j with
  | JArr _ | JStr _ | JObj _ => true
  | _ => false
  end.

(** A plain name: one that [pathlib] takes for a single component, so
    that [folder / name] is directly inside [folder].  The empty name and
    [.] are dropped by [/], [..] leads out of the folder, and a name with
    a slash is split. *)
Definition plain_name (c : string) : Prop :=
  c <> EmptyString /\ c <> "." /\ c <> ".."
  /\ Forall (fun b => b <> "/"%char /\ b <> "000"%char)
       (String.list_ascii_of_string c).

#[global] Instance plain_name_dec (c : string) : Decision (plain_name c).
Proof. unfold plain_name. apply _. Defined.

(** The category names are plain names. *)
Definition plain_categories (config : list (string * list string)) : Prop :=
  Forall plain_name (CATEGORIES config).*1.

(** The regular files directly inside a directory, in listing order. *)
Definition file_children (m : gmap path node) (d : path) : list path :=
  filter (fun p => is_file_node (node_at m p)) (children m d).

(** The sum of the counts of a mapping. *)
Definition total (counts : gmap string nat) : nat :=
  map_fold (fun _ n acc => n + acc) 0 counts.

(** Size and modification time of the regular file at a path. *)
Definition size_of (m : gmap path node) (p : path) : Z :=
  match node_at m p with
  | Some (File f) => Z.of_nat (String.length (content f))
  | _ => 0%Z
  end.

Definition mtime_of (m : gmap path node) (p : path) : Z :=
  match node_at m p with
  | Some (File f) => mtime f
  | _ => 0%Z
  end.

(** The product [days * 86400] can be converted to a double. *)
Definition float_range (days : Z) : Prop :=
  (Z.abs (round53 (seconds (days * 86400))) <= max_double)%Z.

(** The cutoff of [recent_files]: [now - days * 86400] as the doubles give
    it. *)
Definition cutoff (now days : Z) : Z :=
  float_sub now (round53 (seconds (days * 86400))).

(** Descending order of the second component. *)
Definition desc (a b : path * Z) : Prop := (snd b <= snd a)%Z.

(** The digest under which the duplicate scan files a path: that of a
    regular file that can be read, when it is not the empty string. *)
Definition digest_of (md5 : string -> string) (m : gmap path node)
    (p : path) : option string :=
  match node_at m p with
  | Some (File f) =>
      if readable f then
        if bool_decide (md5 (content f) = EmptyString) then None
        else Some (md5 (content f))
      else None
  | _ => None
  end.

(** The paths of a listing filed under the digest [h], in order. *)
Definition with_digest (md5 : string -> string) (m : gmap path node)
    (h : string) (l : list path) : list path :=
  filter (fun p => digest_of md5 m p = Some h) l.

(** The items are distinct regular files directly inside [folder], which is
    a directory. *)
Definition pending (m : gmap path node) (folder : path) (items : list path)
  : Prop :=
  node_at m folder = Some Dir /\ NoDup items
  /\ forall r, r ∈ items -> is_file_node (node_at m r) /\ parent r = folder.

(** What the loop of [organize_folder] does to the file system, item by
    item: an item whose category folder is a regular file fails and
    changes nothing; any other item has its category folder created if
    need be and is moved to a path that was unused. *)
Inductive organized (config : list (string * list string)) (folder : path)
  : list path -> gmap path node -> list move -> list error_desc
    -> gmap path node -> Prop :=
  | organized_nil m : organized config folder [] m [] [] m
  | organized_fail p items m g moves errs m' :
      node_at m (folder </> find_category config (suffix p))
      = Some (File g) ->
      organized config folder items m moves errs m' ->
      organized config folder (p :: items) m moves
        (Failed p
           (FileExistsError (folder </> find_category config (suffix p)))
         :: errs) m'
  | organized_move p items m f final moves errs m' :
      node_at m p = Some (File f) ->
      ~ is_file_node
          (node_at m (folder </> find_category config (suffix p))) ->
      node_at (<[folder </> find_category config (suffix p) := Dir]> m) final
      = None ->
      parent final = folder </> find_category config (suffix p) ->
      organized config folder items
        (<[final := File f]>
           (delete p
              (<[folder </> find_category config (suffix p) := Dir]> m)))
        moves errs m' ->
      organized config folder (p :: items) m (mkMove p final :: moves) errs m'.

(** Every record of [l] can be undone in [U]: the new paths are distinct
    and hold regular files, and the directory of every original path is
    there. *)
Definition restorable (U : gmap path node) (l : list move) : Prop :=
  NoDup (new <$> l)
  /\ forall mv, mv ∈ l ->
       is_file_node (node_at U (new mv))
       /\ orig mv <> [] /\ node_at U (parent (orig mv)) = Some Dir.

(** [mU] is [m] with directories, all satisfying [C], added at unused
    paths. *)
Definition dirs_beside (C : path -> Prop) (m mU : gmap path node) : Prop :=
  forall q,
    node_at mU q = node_at m q
    \/ (node_at m q = None /\ node_at mU q = Some Dir /\ C q).

(** The category folder of some regular file directly inside [folder]. *)
Definition category_folder (config : list (string * list string))
    (m : gmap path node) (folder : path) (q : path) : Prop :=
  exists r, r ∈ file_children m folder
            /\ q = folder </> find_category config (suffix r).

(** No regular file directly inside [folder] bears the name of a category
    folder that organising [folder] uses. *)
Definition no_name_clash (config : list (string * list string))
    (m : gmap path node) (folder : path) : Prop :=
  Forall
    (fun p =>
       Forall (fun r => p <> folder </> find_category config (suffix r))
         (file_children m folder))
    (file_children m folder).

(** Where [organize_folder] means to put a file: under its own name in
    the folder of its category. *)
Definition destination (config : list (string * list string))
    (folder p : path) : path :=
  folder </> find_category config (suffix p) </> name p.

(** A record whose new path is that destination or one of its [_dup{N}]
    names. *)
Definition placed (config : list (string * list string)) (folder : path)
    (mv : move) : Prop :=
  new mv = destination config folder (orig mv)
  \/ exists N, 1 <= N
       /\ new mv = dup_name (destination config folder (orig mv)) N.

(** The table of counts [preview_counts] starts from. *)
Definition zero_counts (config : list (string * list string))
  : gmap string nat :=
  list_to_map ((fun cat => (cat, 0)) <$> (CATEGORIES config).*1).

End Vocabulary.

(** ** Sample worlds *)

(** A Python for the examples: [lower] folds the ASCII letters, as
    [str.lower] does on ASCII text, and [Path] reads a string from the
    root, as it does when the working directory is the root. *)
Definition lower_ascii (c : ascii) : ascii :=
  let n := nat_of_ascii c in
  if (65 <=? n) && (n <=? 90) then ascii_of_nat (n + 32) else c.

Fixpoint lower_ascii_text (s : string) : string :=
  match s with
  | EmptyString => EmptyString
  | String c s' => String (lower_ascii c) (lower_ascii_text s')
  end.

Fixpoint split_slash (s seg : string) : list string :=
  match s with
  | EmptyString => [seg]
  | String c s' =>
      if Ascii.eqb c "/"%char then seg :: split_slash s' EmptyString
      else split_slash s' (seg +:+ String c EmptyString)
  end.

Definition path_from_root (s : string) : path :=
  filter (fun c => c <> EmptyString /\ c <> ".") (split_slash s EmptyString).

#[global] Instance sample_python : Python :=
  {| lower := lower_ascii_text; Path := path_from_root |}.

Definition plain (c : string) (t : Z) : file := mkFile c t true.

(** A file of [n] bytes. *)
Fixpoint filler (n : nat) : string :=
  match n with
  | 0 => EmptyString
  | S n' => String "x" (filler n')
  end.

(** A stand-in for the digest in the examples. *)
Definition toy_md5 (s : string) : string := "md5:" +:+ s.

Definition sample_config : list (string * list string) :=
  [("DOCS", [".txt"]); ("IMAGES", [".jpg"])].

(** A directory [d] with three files to organise; [d/DOCS] already holds
    an [a.txt] and an [a_dup1.txt]. *)
Definition sample_fs : gmap path node :=
  list_to_map
    [ (["d"], Dir);
      (["d"; "a.txt"], File (plain "alpha" 10));
      (["d"; "b.jpg"], File (plain "beta" 20));
      (["d"; "c.xyz"], File (plain "gamma" 30));
      (["d"; "DOCS"], Dir);
      (["d"; "DOCS"; "a.txt"], File (plain "older" 1));
      (["d"; "DOCS"; "a_dup1.txt"], File (plain "oldest" 0)) ].

Definition sample_world : world := mkWorld sample_fs Absent 1000.

(** Regular files named [DOCS] and [OTHERS] stand where the category
    folders would go; a journal of an earlier run is there. *)
Definition blocked_world : world :=
  mkWorld
    (list_to_map
       [ (["b"], Dir);
         (["b"; "a.txt"], File (plain "alpha" 10));
         (["b"; "b.jpg"], File (plain "beta" 20));
         (["b"; "DOCS"], File (plain "not a folder" 0));
         (["b"; "OTHERS"], File (plain "not a folder either" 0)) ])
    (Journal 5 [mkMove ["d"; "c.xyz"] ["d"; "OTHERS"; "c.xyz"]])
    1000.

(** A regular file named [zz], listed before [a.txt], under a mapping
    that sends [.txt] to the category [zz]. *)
Definition clash_config : list (string * list string) := [("zz", [".txt"])].

Definition clash_world : world :=
  mkWorld
    (list_to_map
       [ (["c"], Dir);
         (["c"; "a.txt"], File (plain "alpha" 10));
         (["c"; "zz"], File (plain "zed" 20)) ])
    Absent 1000.

(** A journal of one move whose new path does not exist any more. *)
Definition stale_world : world :=
  mkWorld
    (list_to_map [ (["d"], Dir); (["d"; "OTHERS"], Dir) ])
    (Journal 5 [mkMove ["d"; "c.xyz"] ["d"; "OTHERS"; "c.xyz"]])
    1000.

(** [a.txt], [b.txt] and the unreadable [k.txt] have the same content,
    [c.txt] another; [b.txt] is listed before [a.txt]. *)
Definition twin_world : world :=
  mkWorld
    (list_to_map
       [ (["q"], Dir);
         (["q"; "a.txt"], File (plain "same" 0));
         (["q"; "b.txt"], File (plain "same" 0));
         (["q"; "c.txt"], File (plain "other" 0));
         (["q"; "k.txt"], File (mkFile "same" 0 false)) ])
    Absent 0.

(** Five files listed in the order [e], [d], [c], [b], [a], of sizes
    10, 50, 5, 50 and 1, beside a subdirectory. *)
Definition ranked_world : world :=
  mkWorld
    (list_to_map
       [ (["v"], Dir);
         (["v"; "e.bin"], File (plain (filler 10) 0));
         (["v"; "d.bin"], File (plain (filler 50) 0));
         (["v"; "c.bin"], File (plain (filler 5) 0));
         (["v"; "b.bin"], File (plain (filler 50) 0));
         (["v"; "a.bin"], File (plain (filler 1) 0));
         (["v"; "sub"], Dir) ])
    Absent 0.

(** The clock reads 1000000 seconds; [new.log] was modified an hour ago,
    [mid.log] seven days ago to the second, [old.log] eight days ago. *)
Definition dated_world : world :=
  mkWorld
    (list_to_map
       [ (["t"], Dir);
         (["t"; "new.log"], File (plain "n" (seconds 996400)));
         (["t"; "mid.log"], File (plain "m" (seconds 395200)));
         (["t"; "old.log"], File (plain "o" (seconds 308800))) ])
    Absent (seconds 1000000).

(** [c.xyz] was moved from [d] to [d/OTHERS] and [k.xyz] from a
    directory [old] that is not there any more; [d/keep.txt] was never
    moved. *)
Definition moved_world : world :=
  mkWorld
    (list_to_map
       [ (["d"], Dir);
         (["d"; "keep.txt"], File (plain "kept" 5));
         (["d"; "OTHERS"], Dir);
         (["d"; "OTHERS"; "c.xyz"], File (plain "gamma" 30));
         (["d"; "OTHERS"; "k.xyz"], File (plain "kappa" 40)) ])
    (Journal 5 [mkMove ["d"; "c.xyz"] ["d"; "OTHERS"; "c.xyz"];
                mkMove ["old"; "k.xyz"] ["d"; "OTHERS"; "k.xyz"]])
    1000.

(** The journal names one file, whose directory of origin is gone. *)
Definition orphan_world : world :=
  mkWorld
    (list_to_map
       [ (["d"], Dir);
         (["d"; "OTHERS"], Dir);
         (["d"; "OTHERS"; "k.xyz"], File (plain "kappa" 40)) ])
    (Journal 5 [mkMove ["old"; "k.xyz"] ["d"; "OTHERS"; "k.xyz"]])
    1000.

(** The journal of an earlier run is still there: [c.xyz] was moved
    from [d] to [d/OTHERS]; the directory [e] is empty. *)
Definition leftover_world : world :=
  mkWorld
    (list_to_map
       [ (["d"], Dir);
         (["d"; "OTHERS"], Dir);
         (["d"; "OTHERS"; "c.xyz"], File (plain "gamma" 30));
         (["e"], Dir) ])
    (Journal 5 [mkMove ["d"; "c.xyz"] ["d"; "OTHERS"; "c.xyz"]])
    1000.

(** [undo_log.json] holds valid JSON that is no journal: the list
    [["x"]], or an object whose [moves] is the number 3. *)
Definition foreign_world : world :=
  mkWorld (list_to_map [ (["d"], Dir) ]) (Other (JArr [JStr "x"])) 1000.

Definition foreign_moves_world : world :=
  mkWorld (list_to_map [ (["d"], Dir) ])
    (Other (JObj [("moves", JInt 3)])) 1000.

(** A journal written by hand: its first entry is a record of strings,
    the second lacks the key [new], the third is a number. *)
Definition handwritten_world : world :=
  mkWorld
    (list_to_map
       [ (["d"], Dir);
         (["d"; "OTHERS"], Dir);
         (["d"; "OTHERS"; "c.xyz"], File (plain "gamma" 30)) ])
    (Other
       (JObj
          [("moves",
            JArr [ JObj [("orig", JStr "/d/c.xyz");
                         ("new", JStr "/d/OTHERS/c.xyz")];
                   JObj [("orig", JStr "/d/k.xyz")];
                   JInt 7 ])]))
    1000.

(** * Verification *)

(** ** The category resolver *)

Section Resolver.
Context {py : Python}.
Variable config : list (string * list string).





Lemma find_category_case ext ext' :
  lower ext' = lower ext ->
  find_category config ext' = find_category config ext.
Proof. unfold find_category. by intros ->. Qed.


End Resolver.



(** ** The file system calls *)

Lemma node_at_ne (m : gmap path node) (p : path) :
  p <> [] -> node_at m p = m !! p.
Proof. by destruct p. Qed.

Lemma node_at_None_ne (m : gmap path node) (p : path) :
  node_at m p = None -> p <> [].
Proof. by destruct p. Qed.

Lemma node_at_File_ne (m : gmap path node) (p : path) (f : file) :
  node_at m p = Some (File f) -> p <> [].
Proof. by destruct p. Qed.

Lemma node_at_insert (m : gmap path node) (p q : path) (n : node) :
  p <> [] ->
  node_at (<[p := n]> m) q = if decide (p = q) then Some n else node_at m q.
Proof.
  intros Hp. destruct q as [|c q]; simpl.
  - by rewrite decide_False.
  - apply lookup_insert.
Qed.

Lemma node_at_delete (m : gmap path node) (p q : path) :
  p <> [] ->
  node_at (delete p m) q = if decide (p = q) then None else node_at m q.
Proof.
  intros Hp. destruct q as [|c q]; simpl.
  - by rewrite decide_False.
  - apply lookup_delete.
Qed.

Lemma parent_joinpath (p : path) (c : string) : parent (p </> c) = p.
Proof. apply removelast_last. Qed.

Lemma name_joinpath (p : path) (c : string) : name (p </> c) = c.
Proof. apply last_last. Qed.

Lemma joinpath_ne_nil (p : path) (c : string) : p </> c <> [].
Proof. unfold joinpath. by destruct p. Qed.

Lemma joinpath_inj (p : path) (c c' : string) : p </> c = p </> c' -> c = c'.
Proof. unfold joinpath. intros H%app_inv_head. congruence. Qed.

Lemma joinpath_not_prefix (p q : path) (c : string) :
  q `prefix_of` p -> p </> c <> q.
Proof.
  intros Hpre Heq. subst q. apply prefix_length in Hpre.
  unfold joinpath in Hpre. rewrite length_app in Hpre. simpl in Hpre. lia.
Qed.

Lemma dirs_added_refl (p : path) (w : world) : dirs_added p w w.
Proof. repeat split. by left. Qed.

Lemma dirs_added_keeps (p : path) (w w' : world) (q : path) (n : node) :
  dirs_added p w w' -> node_at (fs w) q = Some n -> node_at (fs w') q = Some n.
Proof.
  intros (_ & _ & H) Hq. destruct (H q) as [->|[Hn _]]; congruence.
Qed.

Lemma dirs_added_outside (p : path) (w w' : world) (q : path) :
  dirs_added p w w' -> ¬ q `prefix_of` p ->
  node_at (fs w') q = node_at (fs w) q.
Proof. intros (_ & _ & H) Hq. destruct (H q) as [|(_ & _ & ?)]; done. Qed.

Lemma dirs_added_trans (p p' : path) (w1 w2 w3 : world) :
  p `prefix_of` p' ->
  dirs_added p w1 w2 -> dirs_added p' w2 w3 -> dirs_added p' w1 w3.
Proof.
  intros Hpp (Hu1 & Hc1 & H1) (Hu2 & Hc2 & H2).
  split; [congruence|]. split; [congruence|]. intros q.
  destruct (H2 q) as [E2|(N2 & D2 & P2)], (H1 q) as [E1|(N1 & D1 & P1)].
  - left. congruence.
  - right. repeat split; [done|congruence|by etrans].
  - right. repeat split; [congruence|done|done].
  - congruence.
Qed.

Lemma file_above_clear (m : gmap path node) (above : path)
    (rest : list string) :
  (forall q, q `prefix_of` above ++ rest -> ¬ is_file_node (node_at m q)) ->
  file_above m above rest = false.
Proof.
  revert above. induction rest as [|c rest IH]; intros above Hclear; [done|].
  cbn [file_above].
  destruct (node_at m (above ++ [c])) as [[f|]|] eqn:E; [| |done].
  - exfalso. apply (Hclear (above ++ [c])).
    + exists rest. by rewrite <- app_assoc.
    + by rewrite E.
  - apply IH. intros q Hq. apply Hclear. by rewrite <- app_assoc in Hq.
Qed.

Lemma unreachable_cases (m : gmap path node) (p : path) :
  unreachable m p = FileNotFoundError p
  \/ unreachable m p = NotADirectoryError p.
Proof. unfold unreachable. destruct (file_above m [] p); eauto. Qed.

(** With no regular file on the way, what cannot be reached is missing. *)
Lemma unreachable_clear (m : gmap path node) (p : path) :
  (forall q, q `prefix_of` p -> ¬ is_file_node (node_at m q)) ->
  unreachable m p = FileNotFoundError p.
Proof. intros H. unfold unreachable. by rewrite file_above_clear. Qed.

Lemma file_above_found (m : gmap path node) (above pre post : path) :
  pre <> [] -> post <> [] ->
  is_file_node (node_at m (above ++ pre)) ->
  (forall r, r `prefix_of` above ++ pre -> r <> above ++ pre ->
     node_at m r = Some Dir) ->
  file_above m above (pre ++ post) = true.
Proof.
  revert above. induction pre as [|c pre IH]; intros above Hne Hpost Hf Hdirs;
    [done|].
  cbn [app file_above]. destruct pre as [|c' pre].
  - destruct (node_at m (above ++ [c])) as [[f|]|]; [|done..].
    by destruct post.
  - rewrite (Hdirs (above ++ [c])).
    + apply IH; [done|done| |].
      * by rewrite <- app_assoc.
      * intros r Hr Hrne. rewrite <- app_assoc in Hr, Hrne. by apply Hdirs.
    + exists (c' :: pre). by rewrite <- app_assoc.
    + intros E. apply (f_equal length) in E. rewrite !length_app in E.
      simpl in E. lia.
Qed.

(** Below a regular file, what cannot be reached is not a directory. *)
Lemma unreachable_below (m : gmap path node) (p : path) :
  below_file m p -> unreachable m p = NotADirectoryError p.
Proof.
  intros (q & [post ->] & Hne & Hf & Hdirs). unfold unreachable.
  rewrite (file_above_found m [] q post); try done.
  - intros ->. by destruct Hf.
  - intros ->. apply Hne. by rewrite app_nil_r.
Qed.

Lemma os_mkdir_run (p : path) (w : world) :
  os_mkdir p w =
    match node_at (fs w) p with
    | Some _ => (Raise (FileExistsError p), w)
    | None =>
        match node_at (fs w) (parent p) with
        | Some Dir => (Ok tt, set_fs (<[p := Dir]> (fs w)) w)
        | _ => (Raise (unreachable (fs w) p), w)
        end
    end.
Proof. reflexivity. Qed.

Lemma dirs_added_insert (p : path) (w : world) :
  node_at (fs w) p = None -> dirs_added p w (set_fs (<[p := Dir]> (fs w)) w).
Proof.
  intros Hp. repeat split. intros q. simpl.
  rewrite node_at_insert by by eapply node_at_None_ne.
  destruct (decide (p = q)) as [<-|]; [by right|by left].
Qed.

(** [Path.mkdir(exist_ok=True)]: the three cases. *)
Lemma mkdir_exist_ok_spec (p : path) (w : world) :
  exists r w',
    mkdir_exist_ok p w = (r, w') /\ r <> Diverge /\ dirs_added p w w'
    /\ (r = Ok tt -> node_at (fs w') p = Some Dir).
Proof.
  unfold mkdir_exist_ok, try_except. rewrite os_mkdir_run.
  destruct (node_at (fs w) p) as [[f|]|] eqn:Hp.
  - unfold bind, is_dir, gets, raise. rewrite Hp. simpl.
    eexists _, _. split; [reflexivity|]. split; [done|].
    split; [apply dirs_added_refl|done].
  - unfold bind, is_dir, gets, ret. rewrite Hp. simpl.
    eexists _, _. split; [reflexivity|]. split; [done|].
    split; [apply dirs_added_refl|done].
  - assert (Hbar : exists e,
              match unreachable (fs w) p with
              | FileNotFoundError _ => raise (unreachable (fs w) p)
              | _ => let* d := is_dir p in
                     if d then ret tt else raise (unreachable (fs w) p)
              end w = (Raise e, w)).
    { destruct (unreachable_cases (fs w) p) as [-> | ->]; [by eexists|].
      unfold bind, is_dir, gets, raise. rewrite Hp. by eexists. }
    destruct (node_at (fs w) (parent p)) as [[f|]|] eqn:Hpp.
    + destruct Hbar as [e ->]. eexists _, _. split; [reflexivity|].
      split; [done|]. split; [apply dirs_added_refl|done].
    + eexists _, _. split; [reflexivity|]. split; [done|].
      split; [by apply dirs_added_insert|].
      intros _. simpl. rewrite node_at_insert by by eapply node_at_None_ne.
      by rewrite decide_True.
    + destruct Hbar as [e ->]. eexists _, _. split; [reflexivity|].
      split; [done|]. split; [apply dirs_added_refl|done].
Qed.

(** [Path.mkdir(parents=True, exist_ok=True)] never loops, only adds
    directories on the way to its target, and ends with the target a
    directory when it returns. *)
Lemma mkdir_parents_rev_spec (rp : list string) (w : world) :
  exists r w',
    mkdir_parents_rev rp w = (r, w') /\ r <> Diverge
    /\ dirs_added (rev rp) w w'
    /\ (r = Ok tt -> node_at (fs w') (rev rp) = Some Dir).
Proof.
  revert w. induction rp as [|c rp IH]; intros w.
  - simpl. unfold try_except. simpl. eexists _, _.
    split; [reflexivity|]. split; [done|].
    split; [apply dirs_added_refl|done].
  - cbn [mkdir_parents_rev]. unfold try_except at 1. rewrite os_mkdir_run.
    assert (Hpar : parent (rev (c :: rp)) = rev rp)
      by (simpl; apply removelast_last).
    rewrite Hpar.
    destruct (node_at (fs w) (rev (c :: rp))) as [[f|]|] eqn:Hp.
    1-2: unfold bind, is_dir, gets, ret, raise; cbn beta iota;
      rewrite Hp; cbn beta iota delta [is_dir_node];
      eexists _, _; (split; [reflexivity|]); (split; [done|]);
      (split; [apply dirs_added_refl|done]).
    assert (Hup : exists r1 w1,
              (mkdir_parents_rev rp >> mkdir_exist_ok (rev (c :: rp))) w
              = (r1, w1) /\ r1 <> Diverge
              /\ dirs_added (rev (c :: rp)) w w1
              /\ (r1 = Ok tt -> node_at (fs w1) (rev (c :: rp)) = Some Dir)).
    { unfold bind. destruct (IH w) as (r1 & w1 & -> & Hd1 & Ha1 & _).
      assert (Hpre : rev rp `prefix_of` rev (c :: rp))
        by (simpl; by apply prefix_app_r).
      destruct r1 as [[]|e|]; [|eexists _, _; split; [reflexivity|]..].
      * destruct (mkdir_exist_ok_spec (rev (c :: rp)) w1)
          as (r2 & w2 & -> & Hd2 & Ha2 & Hok2).
        eexists _, _. split; [reflexivity|]. split; [done|].
        split; [by eapply dirs_added_trans|done].
      * split; [done|]. split; [|done].
        eapply dirs_added_trans; [exact Hpre|exact Ha1|].
        apply dirs_added_refl.
      * done. }
    assert (Hbar : exists r1 w1,
              match unreachable (fs w) (rev (c :: rp)) with
              | FileNotFoundError _ =>
                  mkdir_parents_rev rp >> mkdir_exist_ok (rev (c :: rp))
              | _ => let* d := is_dir (rev (c :: rp)) in
                     if d then ret tt
                     else raise (unreachable (fs w) (rev (c :: rp)))
              end w = (r1, w1) /\ r1 <> Diverge
              /\ dirs_added (rev (c :: rp)) w w1
              /\ (r1 = Ok tt -> node_at (fs w1) (rev (c :: rp)) = Some Dir)).
    { destruct (unreachable_cases (fs w) (rev (c :: rp))) as [-> | ->];
        [exact Hup|].
      unfold bind, is_dir, gets, raise. rewrite Hp.
      eexists _, _. split; [reflexivity|]. split; [done|].
      split; [apply dirs_added_refl|done]. }
    destruct (node_at (fs w) (rev rp)) as [[f|]|] eqn:Hpp.
    + exact Hbar.
    + eexists _, _. split; [reflexivity|]. split; [done|].
      split; [by apply dirs_added_insert|].
      intros _. cbn [fs set_fs].
      rewrite node_at_insert by by eapply node_at_None_ne.
      by rewrite decide_True.
    + exact Hbar.
Qed.

Lemma mkdir_parents_spec (p : path) (w : world) :
  exists r w',
    mkdir_parents p w = (r, w') /\ r <> Diverge /\ dirs_added p w w'
    /\ (r = Ok tt -> node_at (fs w') p = Some Dir).
Proof.
  unfold mkdir_parents.
  destruct (mkdir_parents_rev_spec (rev p) w) as (r & w' & H).
  rewrite rev_involutive in H. eauto.
Qed.

Lemma os_rename_file (w : world) (src dst : path) (f : file) :
  node_at (fs w) src = Some (File f) ->
  node_at (fs w) (parent dst) = Some Dir ->
  node_at (fs w) dst = None ->
  os_rename src dst w
  = (Ok tt, set_fs (<[dst := File f]> (delete src (fs w))) w).
Proof.
  intros Hsrc Hpar Hdst. unfold os_rename. rewrite Hsrc.
  rewrite bool_decide_eq_false_2 by congruence.
  by rewrite Hpar, Hdst.
Qed.

(** What a move of a regular file to an unused path leaves behind. *)
Lemma moved_lookup (m : gmap path node) (src dst q : path) (f : file) :
  node_at m src = Some (File f) -> node_at m dst = None ->
  node_at (<[dst := File f]> (delete src m)) q
  = if decide (q = dst) then Some (File f)
    else if decide (q = src) then None else node_at m q.
Proof.
  intros Hsrc Hdst.
  rewrite node_at_insert by by eapply node_at_None_ne.
  rewrite node_at_delete by by eapply node_at_File_ne.
  repeat case_decide; subst; congruence.
Qed.

(** ** Candidate names *)

Lemma string_app_length (s t : string) :
  String.length (s +:+ t) = String.length s + String.length t.
Proof. induction s as [|c s IH]; simpl; [done|by rewrite IH]. Qed.

Lemma string_app_inv_tail (s1 s2 t : string) :
  s1 +:+ t = s2 +:+ t -> s1 = s2.
Proof.
  revert s2. induction s1 as [|c s1 IH]; intros [|c' s2] H; simpl in H.
  - done.
  - exfalso. apply (f_equal String.length) in H.
    simpl in H. rewrite !string_app_length in H. simpl in H. lia.
  - exfalso. apply (f_equal String.length) in H.
    simpl in H. rewrite !string_app_length in H. simpl in H. lia.
  - injection H as -> H. f_equal. by apply IH.
Qed.

Lemma numbered_name_inj (base tag suf : string) (i j : nat) :
  base +:+ tag +:+ pretty i +:+ suf = base +:+ tag +:+ pretty j +:+ suf ->
  i = j.
Proof.
  intros H. do 2 apply String.app_inj in H.
  apply string_app_inv_tail in H. by apply (inj pretty) in H.
Qed.

Lemma dup_name_inj (dest : path) (i j : nat) :
  dup_name dest i = dup_name dest j -> i = j.
Proof. intros H%joinpath_inj. by eapply numbered_name_inj. Qed.

Lemma restored_name_inj (dest : path) (i j : nat) :
  restored_name dest i = restored_name dest j -> i = j.
Proof. intros H%joinpath_inj. by eapply numbered_name_inj. Qed.

(** A finite map cannot hold all of [S (size m)] distinct names. *)
Lemma unused_candidate (m : gmap path node) (cand : nat -> path) (i : nat) :
  (forall j k, cand j = cand k -> j = k) ->
  exists j, i <= j < i + S (size m) /\ m !! cand j = None.
Proof.
  intros Hinj.
  destruct (decide (Exists (fun j => m !! cand j = None) (seq i (S (size m)))))
    as [Hex|Hall].
  - apply Exists_exists in Hex as (j & Hj & Hfree).
    apply elem_of_seq in Hj. exists j. split; [lia|done].
  - exfalso. apply not_Exists_Forall in Hall; [|intros j; apply _].
    rewrite Forall_forall in Hall.
    assert (Hsub : cand <$> seq i (S (size m)) ⊆+ (map_to_list m).*1).
    { apply NoDup_submseteq.
      - apply NoDup_fmap_2_strong; [|apply NoDup_seq].
        intros ?? _ _. apply Hinj.
      - intros p (j & -> & Hj)%list_elem_of_fmap.
        specialize (Hall j Hj). simpl in Hall.
        destruct (m !! cand j) as [n|] eqn:E; [|done].
        apply list_elem_of_fmap. exists (cand j, n). split; [done|].
        by apply elem_of_map_to_list. }
    apply submseteq_length in Hsub.
    rewrite !length_fmap, length_seq, length_map_to_list in Hsub. lia.
Qed.

(** Among the candidates from [i] on, one is unused, and there is a first
    one, within [S (size m)] steps. *)
Lemma first_unused_exists (m : gmap path node) (cand : nat -> path) (i : nat) :
  (forall j k, cand j = cand k -> j = k) ->
  (forall j, cand j <> []) ->
  exists N, first_unused m cand i N /\ N < i + S (size m).
Proof.
  intros Hinj Hne.
  destruct (unused_candidate m cand i Hinj) as (j & Hj & Hfree).
  assert (Hgen : forall n j, j < i + n -> i <= j -> m !! cand j = None ->
            exists N, first_unused m cand i N /\ N <= j).
  { clear j Hj Hfree. induction n as [|n IH]; intros j Hj Hij Hfree; [lia|].
    destruct (decide (Exists (fun k => m !! cand k = None) (seq i (j - i))))
      as [Hex|Hall].
    - apply Exists_exists in Hex as (k & Hk & Hkfree).
      apply elem_of_seq in Hk.
      destruct (IH k) as (N & HN & HNk); [lia|lia|done|].
      exists N. split; [done|lia].
    - apply not_Exists_Forall in Hall; [|intros k; apply _].
      rewrite Forall_forall in Hall. exists j. split; [|lia].
      split; [done|]. split; [by rewrite node_at_ne|].
      intros k Hk. rewrite node_at_ne by done.
      assert (Hin : k ∈ seq i (j - i)) by (apply elem_of_seq; lia).
      specialize (Hall k Hin). simpl in Hall.
      by destruct (m !! cand k). }
  destruct (Hgen (S (size m)) j) as (N & HN & HNj); [lia|lia|done|].
  exists N. split; [done|lia].
Qed.

Lemma first_unused_unique (m : gmap path node) (cand : nat -> path)
    (i N N' : nat) :
  first_unused m cand i N -> first_unused m cand i N' -> N = N'.
Proof.
  intros (Hi & Hfree & Hbefore) (Hi' & Hfree' & Hbefore').
  destruct (Nat.lt_trichotomy N N') as [Hlt|[->|Hlt]]; [|done|].
  - destruct (Hbefore' N) as [n Hn]; [lia|congruence].
  - destruct (Hbefore N') as [n Hn]; [lia|congruence].
Qed.

(** ** The safe move *)

Lemma path_exists_run (p : path) (w : world) :
  path_exists p w = (Ok (bool_decide (is_Some (node_at (fs w) p))), w).
Proof. reflexivity. Qed.

Lemma first_unused_next (m : gmap path node) (cand : nat -> path) (i N : nat) :
  first_unused m cand i N -> is_Some (node_at m (cand i)) ->
  first_unused m cand (S i) N.
Proof.
  intros (Hi & Hfree & Hbefore) Hex.
  assert (i <> N) by (intros ->; rewrite Hfree in Hex; by destruct Hex).
  split; [lia|]. split; [done|]. intros j Hj. apply Hbefore. lia.
Qed.

Lemma first_unused_here (m : gmap path node) (cand : nat -> path) (i N : nat) :
  first_unused m cand i N -> node_at m (cand i) = None -> N = i.
Proof.
  intros (Hi & Hfree & Hbefore) Hnone.
  destruct (decide (N = i)) as [|Hne]; [done|].
  destruct (Hbefore i) as [n Hn]; [lia|congruence].
Qed.

Lemma dup_loop_spec (budget : nat) (src dest : path) (i N : nat)
    (w : world) (f : file) :
  node_at (fs w) src = Some (File f) ->
  node_at (fs w) (parent dest) = Some Dir ->
  first_unused (fs w) (dup_name dest) i N ->
  N < i + budget ->
  dup_loop budget src dest (stem dest) (suffix dest) i w
  = (Ok (dup_name dest N),
     set_fs (<[dup_name dest N := File f]> (delete src (fs w))) w).
Proof.
  intros Hsrc Hpar. revert i.
  induction budget as [|budget IH]; intros i HN Hlt.
  - destruct HN as [? _]. lia.
  - cbn [dup_loop]. unfold bind at 1. rewrite path_exists_run.
    fold (dup_name dest i).
    destruct (node_at (fs w) (dup_name dest i)) as [n|] eqn:Hc.
    + rewrite bool_decide_eq_true_2 by eauto. cbn [negb].
      apply IH; [|lia]. apply first_unused_next; [done|]. by rewrite Hc.
    + rewrite bool_decide_eq_false_2 by apply is_Some_None. cbn [negb].
      assert (N = i) by (by eapply first_unused_here). subst N.
      assert (Hp : node_at (fs w) (parent (dup_name dest i)) = Some Dir)
        by (unfold dup_name; by rewrite parent_joinpath).
      unfold bind. by rewrite (os_rename_file w src (dup_name dest i) f).
Qed.

(** C1.  When the source is a regular file and the parent directory of the
    destination exists or can be created, [safe_move] returns: with the
    destination itself when nothing exists there, and otherwise with the
    first unused [_dup{N}] name, N counting from 1.  The path returned was
    unused and now holds the moved file, the source is gone, and every
    other node is where it was: a file that occupied the destination is
    still there, under a path distinct from the one returned, and nothing
    was overwritten. *)
Theorem safe_move_never_overwrites (w : world) (src dest : path) (f : file) :
  node_at (fs w) src = Some (File f) ->
  fst (mkdir_parents (parent dest) w) = Ok tt ->
  exists final w',
    safe_move src dest w = (Ok final, w')
    /\ (node_at (fs w) dest = None -> final = dest)
    /\ (is_Some (node_at (fs w) dest) ->
        exists N, 1 <= N /\ final = dup_name dest N
                  /\ first_unused (fs w) (dup_name dest) 1 N)
    /\ node_at (fs w) final = None
    /\ node_at (fs w') final = Some (File f)
    /\ node_at (fs w') src = None
    /\ (forall q n, q <> src ->
          node_at (fs w) q = Some n -> node_at (fs w') q = Some n)
    /\ (src <> dest -> is_Some (node_at (fs w) dest) ->
        node_at (fs w') dest = node_at (fs w) dest /\ final <> dest).
Proof.
  intros Hsrc Hmk.
  destruct (mkdir_parents_spec (parent dest) w) as (r & w1 & Hrun & _ & Hadd & Hdir).
  rewrite Hrun in Hmk. simpl in Hmk. subst r. specialize (Hdir eq_refl).
  assert (Hsrc1 : node_at (fs w1) src = Some (File f))
    by by eapply dirs_added_keeps.
  assert (Hsame : forall c, node_at (fs w1) (parent dest </> c)
                            = node_at (fs w) (parent dest </> c)).
  { intros c. eapply dirs_added_outside; [done|].
    intros Hpre. by eapply joinpath_not_prefix. }
  assert (Hdest : node_at (fs w1) dest = node_at (fs w) dest).
  { destruct (decide (dest = [])) as [->|Hne]; [done|].
    destruct (exists_last Hne) as (d & c & ->).
    change (d ++ [c]) with (d </> c) in *. rewrite parent_joinpath in Hadd.
    eapply dirs_added_outside; [done|].
    intros Hpre. by eapply joinpath_not_prefix. }
  unfold safe_move, bind at 1. rewrite Hrun.
  unfold bind at 1. rewrite path_exists_run, Hdest.
  destruct (node_at (fs w) dest) as [n|] eqn:Hd.
  - (* the destination is taken *)
    rewrite bool_decide_eq_true_2 by eauto. cbn [negb].
    unfold bind at 1, gets.
    destruct (first_unused_exists (fs w1) (dup_name dest) 1)
      as (N & HN & Hlt).
    { apply dup_name_inj. } { intros j. apply joinpath_ne_nil. }
    erewrite dup_loop_spec; [|done..].
    assert (HNw : first_unused (fs w) (dup_name dest) 1 N).
    { destruct HN as (H1 & Hfree & Hbefore). split; [done|].
      unfold dup_name in *. split; [by rewrite <- Hsame|].
      intros j Hj. rewrite <- Hsame. by apply Hbefore. }
    destruct HN as (H1 & Hfree & _).
    eexists _, _. split; [reflexivity|]. cbn [fs set_fs].
    split; [done|]. split; [intros _; by exists N|].
    split; [by destruct HNw as (_ & ? & _)|].
    split; [rewrite moved_lookup by done; by rewrite decide_True|].
    assert (Hne : src <> dup_name dest N) by congruence.
    split; [rewrite moved_lookup by done;
            by rewrite decide_False, decide_True|].
    split.
    + intros q m Hq Hqn. rewrite moved_lookup by done.
      assert (q <> dup_name dest N).
      { intros ->. destruct HNw as (_ & ? & _). congruence. }
      rewrite decide_False, decide_False by done.
      by eapply dirs_added_keeps.
    + intros Hsd _. assert (dup_name dest N <> dest).
      { intros E. destruct HNw as (_ & ? & _). congruence. }
      split; [|done]. rewrite moved_lookup by done.
      rewrite decide_False, decide_False by congruence.
      exact Hdest.
  - (* the destination is unused *)
    rewrite bool_decide_eq_false_2 by apply is_Some_None. cbn [negb].
    unfold bind. erewrite os_rename_file; [|done..].
    eexists _, _. split; [reflexivity|]. cbn [fs set_fs].
    split; [done|]. split; [intros [? ?]; done|].
    split; [done|].
    split; [rewrite moved_lookup by (done || congruence);
            by rewrite decide_True|].
    assert (Hne : src <> dest) by congruence.
    split; [rewrite moved_lookup by (done || congruence);
            by rewrite decide_False, decide_True|].
    split.
    + intros q m Hq Hqn. rewrite moved_lookup by (done || congruence).
      rewrite decide_False, decide_False by congruence.
      by eapply dirs_added_keeps.
    + intros _ [? ?]. done.
Qed.

Lemma safe_move_never_overwrites_witness :
  exists w',
    safe_move ["d"; "a.txt"] ["d"; "DOCS"; "a.txt"] sample_world
    = (Ok ["d"; "DOCS"; "a_dup2.txt"], w')
    /\ node_at (fs w') ["d"; "DOCS"; "a.txt"] = Some (File (plain "older" 1))
    /\ node_at (fs w') ["d"; "DOCS"; "a_dup2.txt"]
       = Some (File (plain "alpha" 10)).
Proof.
  destruct (safe_move_never_overwrites sample_world
              ["d"; "a.txt"] ["d"; "DOCS"; "a.txt"] (plain "alpha" 10))
    as (final & w' & Hrun & _ & _ & _ & Hnew & _ & _ & Hkeep).
  - vm_compute. reflexivity.
  - vm_compute. reflexivity.
  - assert (Hfinal : final = ["d"; "DOCS"; "a_dup2.txt"]).
    { assert (H : fst (safe_move ["d"; "a.txt"] ["d"; "DOCS"; "a.txt"]
                         sample_world) = Ok final) by by rewrite Hrun.
      vm_compute in H. injection H as H. symmetry. exact H. }
    subst final. exists w'. split; [done|]. split; [|done].
    destruct Hkeep as [-> _]; [done|by eexists|]. vm_compute. reflexivity.
Defined.

(** ** Enumerating a directory *)

Lemma iterdir_run (d : path) (w : world) :
  node_at (fs w) d = Some Dir -> iterdir d w = (Ok (children (fs w) d), w).
Proof. intros H. unfold iterdir. by rewrite H. Qed.

Lemma iterdir_fails (d : path) (w : world) :
  node_at (fs w) d <> Some Dir -> exists e, iterdir d w = (Raise e, w).
Proof.
  intros H. unfold iterdir. destruct (node_at (fs w) d) as [[f|]|]; eauto.
  done.
Qed.

Lemma elem_of_children (m : gmap path node) (d p : path) :
  p ∈ children m d <-> is_Some (m !! p) /\ p <> [] /\ parent p = d.
Proof.
  unfold children. rewrite list_elem_of_filter, list_elem_of_fmap. split.
  - intros ([Hne Hpar] & [q n] & -> & Hin).
    apply elem_of_map_to_list in Hin. eauto.
  - intros ([n Hn] & Hne & Hpar). split; [done|].
    exists (p, n). split; [done|]. by apply elem_of_map_to_list.
Qed.

Lemma NoDup_children (m : gmap path node) (d : path) : NoDup (children m d).
Proof. apply NoDup_filter, NoDup_fst_map_to_list. Qed.

Lemma elem_of_file_children (m : gmap path node) (d p : path) :
  p ∈ file_children m d
  <-> (exists f, m !! p = Some (File f)) /\ p <> [] /\ parent p = d.
Proof.
  unfold file_children. rewrite list_elem_of_filter, elem_of_children. split.
  - intros (Hf & _ & Hne & Hpar). rewrite node_at_ne in Hf by done.
    destruct (m !! p) as [[f|]|]; naive_solver.
  - intros ([f Hf] & Hne & Hpar). rewrite node_at_ne by done.
    rewrite Hf. naive_solver.
Qed.

Lemma NoDup_file_children (m : gmap path node) (d : path) :
  NoDup (file_children m d).
Proof. apply NoDup_filter, NoDup_children. Qed.

Lemma only_files_run (l : list path) (w : world) :
  only_files l w
  = (Ok (filter (fun p => is_file_node (node_at (fs w) p)) l), w).
Proof.
  induction l as [|p l IH]; [done|].
  cbn [only_files]. unfold bind, is_file, gets. rewrite IH. unfold ret.
  rewrite filter_cons.
  destruct (is_file_node (node_at (fs w) p)) eqn:E.
  - by rewrite decide_True by done.
  - by rewrite decide_False by (by intros []).
Qed.

(** ** The category count preview *)

Lemma total_empty : total ∅ = 0.
Proof. apply map_fold_empty. Qed.

Lemma total_insert_fresh (counts : gmap string nat) (k : string) (n : nat) :
  counts !! k = None -> total (<[k := n]> counts) = n + total counts.
Proof.
  intros Hk. unfold total. apply map_fold_insert_L; [|done].
  intros. lia.
Qed.

Lemma total_insert (counts : gmap string nat) (k : string) (n : nat) :
  total (<[k := n]> counts) + default 0 (counts !! k) = n + total counts.
Proof.
  destruct (counts !! k) as [n0|] eqn:Hk; simpl.
  - rewrite <- (insert_delete_id counts k n0) at 2 by done.
    rewrite <- insert_delete_eq.
    rewrite !total_insert_fresh by apply lookup_delete_eq. lia.
  - rewrite total_insert_fresh by done. lia.
Qed.

Lemma total_zero (counts : gmap string nat) :
  map_Forall (fun _ n => n = 0) counts -> total counts = 0.
Proof.
  induction counts as [|k n counts Hk IH] using map_ind; intros Hall.
  - apply total_empty.
  - rewrite total_insert_fresh by done.
    apply map_Forall_insert in Hall as [-> Hall]; [|done].
    by rewrite IH.
Qed.

Section Preview.
Context {py : Python}.
Variable config : list (string * list string).

Lemma first_listing_key ext cats cat :
  first_listing ext cats = Some cat -> cat ∈ cats.*1.
Proof.
  induction cats as [|[c es] cats IH]; simpl; [done|].
  case_bool_decide.
  - intros [= ->]. left.
  - intros Hrest. right. by apply IH.
Qed.

Lemma find_category_key ext :
  find_category config ext ∈ (CATEGORIES config).*1
  \/ find_category config ext = "OTHERS".
Proof.
  unfold find_category.
  destruct (first_listing _ _) as [cat|] eqn:E; [left|by right].
  by eapply first_listing_key.
Qed.

Lemma preview_loop (l : list path) (counts : gmap string nat) (w : world) :
  (forall ext, is_Some (counts !! find_category config ext)) ->
  exists counts',
    for_each (preview_one config) l counts w = (Ok counts', w)
    /\ (forall cat,
          counts' !! cat
          = (fun n => n + length (filter
                 (fun p => is_file_node (node_at (fs w) p)
                           /\ find_category config (suffix p) = cat) l))
            <$> counts !! cat)
    /\ total counts'
       = total counts
         + length (filter (fun p => is_file_node (node_at (fs w) p)) l).
Proof.
  revert counts. induction l as [|p l IH]; intros counts Hdom.
  - exists counts. split; [done|]. split; [|simpl; lia].
    intros cat. simpl. destruct (counts !! cat); simpl; f_equal; lia.
  - cbn [for_each]. unfold bind at 1, preview_one at 1, bind, is_file, gets.
    rewrite !filter_cons.
    destruct (is_file_node (node_at (fs w) p)) eqn:Hf.
    + unfold ret at 1.
      set (cat0 := find_category config (suffix p)).
      set (counts1 := <[cat0 := default 0 (counts !! cat0) + 1]> counts).
      destruct (IH counts1) as (counts' & -> & Hper & Htot).
      { intros ext. unfold counts1. rewrite lookup_insert.
        case_decide; [by eexists|apply Hdom]. }
      exists counts'. split; [done|]. split.
      * intros cat. rewrite Hper. unfold counts1. rewrite lookup_insert.
        rewrite (filter_cons _ p l).
        destruct (Hdom (suffix p)) as [n0 Hn0]. fold cat0 in Hn0.
        destruct (decide (cat0 = cat)) as [<-|Hne].
        -- rewrite decide_True by (rewrite ?Hf; done).
           rewrite Hn0. simpl. f_equal. lia.
        -- rewrite decide_False by (intros [_ ?]; done). done.
      * rewrite Htot. rewrite decide_True by (rewrite ?Hf; done).
        pose proof (total_insert counts cat0
                      (default 0 (counts !! cat0) + 1)) as Hins.
        fold counts1 in Hins. simpl. lia.
    + unfold ret at 1. destruct (IH counts Hdom) as (counts' & -> & Hper & Htot).
      exists counts'. split; [done|]. split.
      * intros cat. rewrite Hper. rewrite (filter_cons _ p l).
        rewrite decide_False; [done|]. rewrite ?Hf. by intros [[] _].
      * rewrite Htot. rewrite decide_False; [done|]. rewrite ?Hf. by intros [].
Qed.

(** C10.  On a directory, [preview_counts] returns a mapping whose keys
    are the categories of the loaded mapping and [OTHERS]; each count is
    the number of regular files directly inside the directory whose
    extension resolves to that category, and the counts add up to the
    number of those files.  The world is left as it was. *)
Theorem preview_counts_total (w : world) (folder : path) :
  node_at (fs w) folder = Some Dir ->
  exists counts,
    preview_counts config folder w = (Ok counts, w)
    /\ (forall cat,
          is_Some (counts !! cat)
          <-> cat ∈ (CATEGORIES config).*1 \/ cat = "OTHERS")
    /\ (forall cat n,
          counts !! cat = Some n ->
          n = length (filter
                (fun p => find_category config (suffix p) = cat)
                (file_children (fs w) folder)))
    /\ total counts = length (file_children (fs w) folder).
Proof.
  intros Hdir. unfold preview_counts.
  set (init := list_to_map ((fun cat => (cat, 0)) <$> (CATEGORIES config).*1)
               : gmap string nat).
  set (counts0 := match init !! "OTHERS" with
                  | Some _ => init
                  | None => <["OTHERS" := 0]> init
                  end).
  assert (Hinit : forall cat,
             init !! cat = if decide (cat ∈ (CATEGORIES config).*1)
                           then Some 0 else None).
  { intros cat. unfold init. case_decide as Hin.
    - apply elem_of_list_to_map_1'.
      + intros n (c & [= -> ->] & _)%list_elem_of_fmap. done.
      + apply list_elem_of_fmap. by exists cat.
    - apply not_elem_of_list_to_map_1.
      by rewrite <- list_fmap_compose, list_fmap_id. }
  assert (Hzero : forall cat,
             counts0 !! cat
             = if decide (cat ∈ (CATEGORIES config).*1 \/ cat = "OTHERS")
               then Some 0 else None).
  { intros cat. unfold counts0. destruct (init !! "OTHERS") as [n|] eqn:Ho.
    - rewrite Hinit in Ho. case_decide as Hin; [|done].
      rewrite Hinit.
      destruct (decide (cat ∈ (CATEGORIES config).*1)) as [Hc|Hc].
      + by rewrite decide_True by (by left).
      + rewrite decide_False; [done|]. by intros [?| ->].
    - rewrite lookup_insert, Hinit.
      destruct (decide ("OTHERS" = cat)) as [<-|Hne].
      + by rewrite decide_True by (by right).
      + destruct (decide (cat ∈ (CATEGORIES config).*1)) as [Hc|Hc].
        * by rewrite decide_True by (by left).
        * rewrite decide_False; [done|]. by intros [?| ->]. }
  destruct (preview_loop (children (fs w) folder) counts0 w)
    as (counts & Hrun & Hper & Htot).
  { intros ext. rewrite Hzero. rewrite decide_True; [by eexists|].
    apply find_category_key. }
  exists counts. unfold try_except, bind at 1. rewrite iterdir_run by done.
  rewrite Hrun. split; [done|]. split; [|split].
  - intros cat. rewrite Hper, Hzero. case_decide; simpl.
    + split; [done|by eexists].
    + split; [by intros [? ?]|done].
  - intros cat n. rewrite Hper, Hzero. case_decide; simpl; [|done].
    intros [= <-]. simpl. unfold file_children.
    rewrite list_filter_filter. f_equal. apply list_filter_iff.
    intros p. tauto.
  - rewrite Htot. unfold file_children. rewrite total_zero; [done|].
    intros cat n. rewrite Hzero. case_decide; [by intros [= <-]|done].
Qed.

End Preview.

Lemma preview_counts_total_witness :
  exists counts,
    preview_counts sample_config ["d"] sample_world = (Ok counts, sample_world)
    /\ total counts = 3.
Proof.
  destruct (preview_counts_total sample_config sample_world ["d"])
    as (counts & Hrun & _ & _ & Htot).
  - vm_compute. reflexivity.
  - exists counts. split; [done|]. rewrite Htot. vm_compute. reflexivity.
Defined.

(** ** Sorting *)

Section SortFacts.
Context {A : Type} (key : A -> Z).

Lemma insert_desc_perm (x : A) (l : list A) : insert_desc key x l ≡ₚ x :: l.
Proof.
  induction l as [|y l IH]; simpl; [done|].
  destruct (key x <? key y)%Z; [|done].
  rewrite IH. apply perm_swap.
Qed.

Lemma sort_desc_perm (l : list A) : sort_desc key l ≡ₚ l.
Proof.
  induction l as [|x l IH]; simpl; [done|].
  by rewrite insert_desc_perm, IH.
Qed.

Lemma insert_desc_sorted (x : A) (l : list A) :
  StronglySorted (fun a b => (key b <= key a)%Z) l ->
  StronglySorted (fun a b => (key b <= key a)%Z) (insert_desc key x l).
Proof.
  induction 1 as [|y l Hl IH Hy]; simpl.
  - repeat constructor.
  - destruct (key x <? key y)%Z eqn:E.
    + apply Z.ltb_lt in E. constructor; [done|].
      rewrite insert_desc_perm. constructor; [lia|done].
    + apply Z.ltb_ge in E. constructor; [by constructor|].
      constructor; [done|]. eapply Forall_impl; [exact Hy|].
      simpl. intros. lia.
Qed.

Lemma sort_desc_sorted (l : list A) :
  StronglySorted (fun a b => (key b <= key a)%Z) (sort_desc key l).
Proof.
  induction l as [|x l IH]; simpl; [constructor|].
  by apply insert_desc_sorted.
Qed.

(** Stability: the entries with a given key keep their order. *)
Lemma insert_desc_stable (k : Z) (x : A) (l : list A) :
  filter (fun a => key a = k) (insert_desc key x l)
  = filter (fun a => key a = k) (x :: l).
Proof.
  induction l as [|y l IH]; simpl; [done|].
  destruct (key x <? key y)%Z eqn:E; [|done].
  apply Z.ltb_lt in E.
  rewrite (filter_cons _ y), IH, !filter_cons.
  repeat case_decide; try done; lia.
Qed.

Lemma sort_desc_stable (k : Z) (l : list A) :
  filter (fun a => key a = k) (sort_desc key l)
  = filter (fun a => key a = k) l.
Proof.
  induction l as [|x l IH]; simpl; [done|].
  by rewrite insert_desc_stable, !filter_cons, IH.
Qed.

Lemma sort_desc_length (l : list A) : length (sort_desc key l) = length l.
Proof. by rewrite sort_desc_perm. Qed.

End SortFacts.

Lemma slice_to_nonneg {A} (n : Z) (l : list A) :
  (0 <= n)%Z -> slice_to n l = take (Z.to_nat n) l.
Proof. intros H. unfold slice_to. by rewrite (proj2 (Z.leb_le 0 n)). Qed.

(** ** The metadata queries *)

Lemma stat_file (p : path) (w : world) :
  is_file_node (node_at (fs w) p) = true ->
  stat p w = (Ok (size_of (fs w) p, mtime_of (fs w) p), w).
Proof.
  unfold stat, size_of, mtime_of.
  by destruct (node_at (fs w) p) as [[f|]|].
Qed.

Lemma fst_paired (g : path -> Z) (l : list path) :
  ((fun p => (p, g p)) <$> l).*1 = l.
Proof. induction l as [|p l IH]; [done|]. by rewrite !fmap_cons, IH. Qed.

Lemma large_loop (l : list path) (acc : list (path * Z)) (w : world) :
  for_each large_one l acc w
  = (Ok (acc ++ ((fun p => (p, size_of (fs w) p))
                   <$> filter (fun p => is_file_node (node_at (fs w) p)) l)),
     w).
Proof.
  revert acc. induction l as [|p l IH]; intros acc.
  - simpl. by rewrite app_nil_r.
  - cbn [for_each]. unfold bind at 1, large_one, bind at 1, is_file, gets.
    rewrite filter_cons.
    destruct (is_file_node (node_at (fs w) p)) eqn:Hf.
    + unfold try_except, bind. rewrite stat_file by done. unfold ret.
      rewrite IH, decide_True by done.
      by rewrite fmap_cons, <- app_assoc.
    + unfold ret. rewrite IH, decide_False by (by intros []). done.
Qed.

Lemma recent_loop (cut : Z) (l : list path) (acc : list (path * Z))
    (w : world) :
  for_each (recent_one cut) l acc w
  = (Ok (acc ++ ((fun p => (p, mtime_of (fs w) p))
                   <$> filter (fun p => is_file_node (node_at (fs w) p)
                                        /\ (cut <= mtime_of (fs w) p)%Z) l)),
     w).
Proof.
  revert acc. induction l as [|p l IH]; intros acc.
  - simpl. by rewrite app_nil_r.
  - cbn [for_each]. unfold bind at 1, recent_one, bind at 1, is_file, gets.
    rewrite filter_cons.
    destruct (is_file_node (node_at (fs w) p)) eqn:Hf.
    + unfold bind at 1. rewrite stat_file by done. unfold st_mtime. simpl.
      destruct (cut <=? mtime_of (fs w) p)%Z eqn:Hc.
      * apply Z.leb_le in Hc. unfold bind. rewrite stat_file by done.
        unfold ret. rewrite IH, decide_True by done.
        by rewrite fmap_cons, <- app_assoc.
      * apply Z.leb_gt in Hc. unfold ret.
        rewrite IH, decide_False by (intros [_ ?]; lia). done.
    + unfold ret. rewrite IH, decide_False by (by intros [[] _]). done.
Qed.

(** C8, as amended.  On a directory and for [n >= 0], [top_n_large]
    returns at most [n] pairs of a regular file directly inside the
    directory and its size: the first [n] entries of the stable
    arrangement of all those files by descending size, in which files of
    equal size keep their listing order.  On five files of sizes
    10, 50, 5, 50, 1 and with [n = 3] these are the two files of 50 bytes,
    in listing order, then the file of 10 bytes. *)
Theorem top_n_large_ranks (w : world) (folder : path) :
  node_at (fs w) folder = Some Dir ->
  let stats :=
    (fun p => (p, size_of (fs w) p)) <$> file_children (fs w) folder in
  (forall n, (0 <= n)%Z ->
     exists l rest,
       top_n_large folder n w = (Ok l, w)
       /\ (Z.of_nat (length l) <= n)%Z
       /\ length l = Nat.min (Z.to_nat n) (length stats)
       /\ (forall p s, (p, s) ∈ l ->
             p ∈ file_children (fs w) folder /\ s = size_of (fs w) p)
       /\ l ++ rest ≡ₚ stats
       /\ StronglySorted desc (l ++ rest)
       /\ (forall k, filter (fun a => snd a = k) (l ++ rest)
                     = filter (fun a => snd a = k) stats))
  /\ (size_of (fs w) <$> file_children (fs w) folder = [10; 50; 5; 50; 1]%Z ->
      exists a b c d e,
        file_children (fs w) folder = [a; b; c; d; e]
        /\ top_n_large folder 3 w = (Ok [(b, 50); (d, 50); (a, 10)]%Z, w)).
Proof.
  intros Hdir stats.
  assert (Hrun : forall n,
            top_n_large folder n w
            = (Ok (slice_to n (sort_desc snd stats)), w)).
  { intros n. unfold top_n_large, bind at 1, try_except, bind at 1.
    rewrite iterdir_run by done. unfold bind at 1.
    by rewrite large_loop. }
  split.
  - intros n Hn. rewrite Hrun, slice_to_nonneg by done.
    set (sorted := sort_desc snd stats).
    exists (take (Z.to_nat n) sorted), (drop (Z.to_nat n) sorted).
    split; [done|].
    assert (Hlen : length (take (Z.to_nat n) sorted)
                   = Nat.min (Z.to_nat n) (length stats)).
    { rewrite length_take. unfold sorted. by rewrite sort_desc_length. }
    split; [lia|]. split; [done|]. rewrite take_drop. split; [|split; [|split]].
    + intros p s Hin. apply elem_of_take in Hin as (i & Hin & _).
      apply list_elem_of_lookup_2 in Hin.
      unfold sorted in Hin. rewrite sort_desc_perm in Hin.
      apply list_elem_of_fmap in Hin as (q & [= -> ->] & Hq). done.
    + apply sort_desc_perm.
    + apply sort_desc_sorted.
    + intros k. apply sort_desc_stable.
  - intros Hsizes. unfold stats in Hrun.
    destruct (file_children (fs w) folder)
      as [|a [|b [|c [|d [|e [|? ?]]]]]]; try done.
    exists a, b, c, d, e. split; [done|]. rewrite Hrun.
    injection Hsizes as Ha Hb Hc Hd He. cbn [fmap list_fmap].
    rewrite Ha, Hb, Hc, Hd, He. reflexivity.
Qed.

Lemma top_n_large_ranks_witness :
  top_n_large ["v"] 3 ranked_world
  = (Ok [(["v"; "d.bin"], 50); (["v"; "b.bin"], 50); (["v"; "e.bin"], 10)]%Z,
     ranked_world)
  /\ exists l, top_n_large ["v"] 2 ranked_world = (Ok l, ranked_world)
               /\ (Z.of_nat (length l) <= 2)%Z.
Proof.
  destruct (top_n_large_ranks ranked_world ["v"]) as [Hgen Hfive].
  - vm_compute. reflexivity.
  - split.
    + destruct Hfive as (a & b & c & d & e & Hlist & Hrun).
      * vm_compute. reflexivity.
      * rewrite Hrun. vm_compute in Hlist.
        injection Hlist as <- <- <- <- <-. reflexivity.
    + destruct (Hgen 2%Z) as (l & rest & Hrun & Hlen & _); [lia|].
      exists l. split; [exact Hrun|exact Hlen].
Defined.

(** C8, as stated, fails for a negative [n]: the slice [files[:-1]] drops
    the last entry only, so four of the five files are returned, which is
    more than [n]. *)
Lemma top_n_large_negative :
  exists l,
    top_n_large ["v"] (-1) ranked_world = (Ok l, ranked_world)
    /\ length l = 4 /\ ¬ (Z.of_nat (length l) <= -1)%Z.
Proof.
  exists [(["v"; "d.bin"], 50); (["v"; "b.bin"], 50);
          (["v"; "e.bin"], 10); (["v"; "c.bin"], 5)]%Z.
  split; [vm_compute; reflexivity|]. split; [reflexivity|].
  simpl. lia.
Qed.

(** ** Doubles *)

(** A number of at most 53 significant bits is a double. *)
Lemma round53_exact (m k : Z) :
  (0 <= k)%Z -> (Z.abs m < 2 ^ 53)%Z -> round53 (m * 2 ^ k) = (m * 2 ^ k)%Z.
Proof.
  intros Hk Hm. unfold round53.
  destruct (Z.ltb_spec (Z.abs (m * 2 ^ k)) (2 ^ 53)) as [|Hbig]; [done|].
  assert (Hpow : (0 < 2 ^ k)%Z) by (apply Z.pow_pos_nonneg; lia).
  assert (Hm0 : m <> 0%Z) by (intros ->; simpl in Hbig; lia).
  rewrite Z.abs_mul, (Z.abs_eq (2 ^ k)) in * by lia.
  set (a := Z.abs m) in *.
  assert (Ha : (0 < a)%Z) by lia.
  rewrite Z.log2_mul_pow2 by lia.
  assert (Hl : (Z.log2 a < 53)%Z) by (apply Z.log2_lt_pow2; lia).
  pose proof (Z.log2_nonneg a) as Hl0.
  assert (Hl1 : (53 <= k + Z.log2 a)%Z).
  { rewrite <- (Z.log2_pow2 53) by lia. rewrite <- Z.log2_mul_pow2 by lia.
    by apply Z.log2_le_mono. }
  set (e := (k + Z.log2 a - 52)%Z).
  assert (He : (1 <= e <= k)%Z) by lia.
  assert (Hsplit : (2 ^ k = 2 ^ (k - e) * 2 ^ e)%Z).
  { rewrite <- Z.pow_add_r by lia. f_equal. lia. }
  assert (He0 : (2 ^ e <> 0)%Z) by (apply Z.pow_nonzero; lia).
  assert (Hq : (a * 2 ^ k / 2 ^ e = a * 2 ^ (k - e))%Z).
  { rewrite Hsplit, Z.mul_assoc. by apply Z.div_mul. }
  assert (Hr : ((a * 2 ^ k) mod 2 ^ e = 0)%Z).
  { rewrite Hsplit, Z.mul_assoc. by apply Z.mod_mul. }
  rewrite Hq, Hr.
  assert (Hhalf : (0 < 2 ^ (e - 1))%Z) by (apply Z.pow_pos_nonneg; lia).
  destruct (Z.ltb_spec 0 (2 ^ (e - 1))) as [_|]; [|lia].
  rewrite <- Z.mul_assoc, <- Hsplit.
  rewrite Z.sgn_mul, (Z.sgn_pos (2 ^ k)) by done.
  replace (Z.sgn m * 1 * (a * 2 ^ k))%Z with ((Z.sgn m * a) * 2 ^ k)%Z by ring.
  f_equal. unfold a. destruct m; simpl; lia.
Qed.

Lemma seconds_exact (n : Z) :
  (Z.abs n < 2 ^ 53)%Z -> round53 (seconds n) = seconds n.
Proof. intros H. apply round53_exact; [lia|done]. Qed.


Lemma round53_abs (z : Z) : Z.abs (round53 z) = round53 (Z.abs z).
Proof.
  unfold round53. rewrite Z.abs_idemp.
  destruct (Z.ltb_spec (Z.abs z) (2 ^ 53)) as [|Hbig]; [done|].
  set (a := Z.abs z) in *.
  set (e := (Z.log2 a - 52)%Z).
  set (q' := if (a mod 2 ^ e <? 2 ^ (e - 1))%Z then (a / 2 ^ e)%Z
             else if (2 ^ (e - 1) <? a mod 2 ^ e)%Z then (a / 2 ^ e + 1)%Z
             else if Z.even (a / 2 ^ e) then (a / 2 ^ e)%Z
                  else (a / 2 ^ e + 1)%Z).
  assert (Ha : (0 < a)%Z) by lia.
  assert (He : (0 < 2 ^ e)%Z).
  { apply Z.pow_pos_nonneg; [lia|]. unfold e.
    assert (53 <= Z.log2 a)%Z; [|lia].
    rewrite <- (Z.log2_pow2 53) by lia. by apply Z.log2_le_mono. }
  assert (Hq : (0 <= a / 2 ^ e)%Z) by (apply Z.div_pos; lia).
  assert (Hq' : (0 <= q')%Z).
  { unfold q'. repeat destruct (_ <? _)%Z; try destruct (Z.even _); lia. }
  rewrite (Z.sgn_pos a) by done. rewrite Z.mul_1_l.
  rewrite Z.abs_mul, (Z.abs_eq (q' * 2 ^ e)) by nia.
  assert (Hz : Z.abs (Z.sgn z) = 1%Z).
  { assert (Hz : z <> 0%Z) by (unfold a in Ha; lia).
    clear - Hz. destruct z; simpl; lia. }
  rewrite Hz. lia.
Qed.

Lemma round53_range (a : Z) :
  (0 <= a)%Z ->
  (round53 a <= max_double)%Z <-> (a < seconds (2 ^ 1024 - 2 ^ 970))%Z.
Proof.
  intros Ha.
  set (K := (2 ^ 2044)%Z).
  assert (HM : max_double = ((2 ^ 53 - 1) * (2 * K))%Z)
    by (vm_compute; reflexivity).
  assert (HL : seconds (2 ^ 1024 - 2 ^ 970) = ((2 ^ 54 - 1) * K)%Z)
    by (vm_compute; reflexivity).
  assert (HK : (2 ^ 53 <= K)%Z) by (vm_compute; discriminate).
  rewrite HM, HL. unfold round53. rewrite (Z.abs_eq a) by done.
  destruct (Z.ltb_spec a (2 ^ 53)) as [Hsmall|Hbig]; [lia|].
  assert (Hl : (53 <= Z.log2 a)%Z).
  { rewrite <- (Z.log2_pow2 53) by lia. by apply Z.log2_le_mono. }
  set (e := (Z.log2 a - 52)%Z).
  destruct (Z.log2_spec a) as [Hlo Hhi]; [lia|].
  replace (Z.log2 a) with (52 + e)%Z in Hlo by (unfold e; lia).
  replace (Z.succ (Z.log2 a)) with (53 + e)%Z in Hhi by (unfold e; lia).
  rewrite Z.pow_add_r in Hlo, Hhi by lia.
  assert (He1 : (1 <= e)%Z) by (unfold e; lia).
  assert (HE : (0 < 2 ^ e)%Z) by (apply Z.pow_pos_nonneg; lia).
  pose proof (Z.div_mod a (2 ^ e)) as Hdm.
  pose proof (Z.mod_pos_bound a (2 ^ e) HE) as Hr.
  set (E := (2 ^ e)%Z) in *. set (q := (a / E)%Z) in *.
  set (r := (a mod E)%Z) in *.
  assert (Hdm' : (a = E * q + r)%Z) by (apply Hdm; lia).
  assert (Hq : (2 ^ 52 <= q < 2 ^ 53)%Z).
  { split.
    - apply Z.div_le_lower_bound; lia.
    - apply Z.div_lt_upper_bound; lia. }
  rewrite (Z.sgn_pos a) by lia. rewrite Z.mul_1_l.
  set (q' := if (r <? 2 ^ (e - 1))%Z then q
             else if (2 ^ (e - 1) <? r)%Z then (q + 1)%Z
             else if Z.even q then q else (q + 1)%Z).
  assert (Hq' : (q <= q' <= q + 1)%Z).
  { unfold q'. repeat destruct (_ <? _)%Z; try destruct (Z.even _); lia. }
  destruct (Z.lt_trichotomy e 2045) as [Hlt|[Heq|Hgt]].
  - assert (HEK : (E <= K)%Z) by (apply Z.pow_le_mono_r; lia).
    split; intros _; nia.
  - assert (HEK : E = (2 * K)%Z)
      by (unfold E, K; rewrite Heq; vm_compute; reflexivity).
    assert (Hhalf : (2 ^ (e - 1) = K)%Z) by (rewrite Heq; reflexivity).
    unfold q' in *. rewrite Hhalf in *.
    destruct (Z.ltb_spec r K) as [Hrk|Hrk].
    + split; intros H; nia.
    + destruct (Z.ltb_spec K r) as [Hkr|Hkr].
      * split; intros H; nia.
      * assert (r = K) by lia.
        destruct (Z.even q) eqn:Hev.
        -- assert (q <> 2 ^ 53 - 1)%Z by (intros ->; vm_compute in Hev; done).
           split; intros H'; nia.
        -- split; intros H'; nia.
  - assert (HEK : (4 * K <= E)%Z).
    { replace (4 * K)%Z with (2 ^ 2046)%Z by (vm_compute; reflexivity).
      apply Z.pow_le_mono_r; lia. }
    split; intros H; nia.
Qed.

(** [int] to double overflows from [2^1024 - 2^970] on. *)
Lemma float_range_bound (days : Z) :
  float_range days <-> (Z.abs (days * 86400) < 2 ^ 1024 - 2 ^ 970)%Z.
Proof.
  unfold float_range. rewrite round53_abs.
  assert (E : Z.abs (seconds (days * 86400))
              = seconds (Z.abs (days * 86400))).
  { unfold seconds. rewrite Z.abs_mul. f_equal. }
  rewrite E, round53_range by (unfold seconds; lia).
  unfold seconds. split; intros H.
  - eapply Z.mul_lt_mono_pos_r; [|exact H]. lia.
  - apply Z.mul_lt_mono_pos_r; [lia|done].
Qed.

Lemma float_of_int_run (n : Z) (w : world) :
  float_of_int n w
  = if (Z.abs (round53 (seconds n)) <=? max_double)%Z
    then (Ok (round53 (seconds n)), w) else (Raise OverflowError, w).
Proof. unfold float_of_int. by destruct (_ <=? _)%Z. Qed.

Lemma recent_files_overflow (w : world) (folder : path) (days : Z) :
  ¬ float_range days ->
  recent_files folder days w = (Raise OverflowError, w).
Proof.
  intros H. unfold recent_files, bind at 1, gets, bind at 1.
  rewrite float_of_int_run.
  destruct (Z.leb_spec (Z.abs (round53 (seconds (days * 86400)))) max_double)
    as [Hle|_]; [by destruct H|done].
Qed.

Lemma recent_files_in_range (w : world) (folder : path) (days : Z) :
  float_range days ->
  recent_files folder days w
  = try_except
      (let* l := iterdir folder in
       let* res := for_each (recent_one (cutoff (clock w) days)) l [] in
       ret (sort_desc snd res))
      (fun _ => ret []) w.
Proof.
  intros H. unfold recent_files, bind at 1, gets, bind at 1.
  rewrite float_of_int_run.
  destruct (Z.leb_spec (Z.abs (round53 (seconds (days * 86400)))) max_double)
    as [_|Hgt]; [done|]. unfold float_range in H. lia.
Qed.

(** C9, as amended.  [days * 86400] is converted to a double, which
    fails with [OverflowError] from [2^1024 - 2^970] on, before anything
    is listed.  Short of that, on a directory, [recent_files] returns
    exactly the regular files directly inside it whose modification time
    is at least the cutoff, each once and paired with its modification
    time, in descending order of modification time (equal times in
    listing order), and leaves the world as it was.  The cutoff is the
    clock reading minus [days * 86400] seconds as the doubles give it,
    [cutoff]: that very number whenever [days * 86400] is below [2^53]
    and the difference has at most 53 significant bits. *)
Theorem recent_files_window (w : world) (folder : path) (days : Z) :
  node_at (fs w) folder = Some Dir ->
  (float_range days <-> (Z.abs (days * 86400) < 2 ^ 1024 - 2 ^ 970)%Z)
  /\ (¬ float_range days ->
      recent_files folder days w = (Raise OverflowError, w))
  /\ (float_range days ->
      exists l,
        recent_files folder days w = (Ok l, w)
        /\ (forall p t,
              (p, t) ∈ l
              <-> p ∈ file_children (fs w) folder /\ t = mtime_of (fs w) p
                  /\ (cutoff (clock w) days <= t)%Z)
        /\ NoDup l.*1
        /\ StronglySorted desc l
        /\ (forall k,
              filter (fun a => snd a = k) l
              = filter (fun a => snd a = k)
                  ((fun p => (p, mtime_of (fs w) p))
                     <$> filter
                           (fun p => (cutoff (clock w) days
                                      <= mtime_of (fs w) p)%Z)
                           (file_children (fs w) folder))))
  /\ (forall a k,
        (Z.abs (days * 86400) < 2 ^ 53)%Z ->
        (0 <= k)%Z -> (Z.abs a < 2 ^ 53)%Z ->
        (clock w - seconds (days * 86400) = a * 2 ^ k)%Z ->
        cutoff (clock w) days = (clock w - seconds (days * 86400))%Z).
Proof.
  intros Hdir. split; [apply float_range_bound|].
  split; [apply recent_files_overflow|]. split.
  - intros Hrange. rewrite recent_files_in_range by done.
    unfold try_except, bind at 1.
    rewrite iterdir_run by done. unfold bind at 1. rewrite recent_loop.
    set (cut := cutoff (clock w) days).
    set (kept := filter
                   (fun p => is_file_node (node_at (fs w) p)
                             /\ (cut <= mtime_of (fs w) p)%Z)
                   (children (fs w) folder)).
    assert (Hkept : kept = filter (fun p => (cut <= mtime_of (fs w) p)%Z)
                             (file_children (fs w) folder)).
    { unfold kept, file_children. rewrite list_filter_filter.
      apply list_filter_iff. intros p. tauto. }
    eexists. split; [reflexivity|]. cbn [app]. split; [|split; [|split]].
    + intros p t. rewrite sort_desc_perm, list_elem_of_fmap. rewrite Hkept.
      split.
      * intros (q & [= -> ->] & Hq). apply list_elem_of_filter in Hq. tauto.
      * intros (Hp & -> & Hcut). exists p. split; [done|].
        apply list_elem_of_filter. tauto.
    + rewrite sort_desc_perm, fst_paired.
      apply NoDup_filter, NoDup_children.
    + apply sort_desc_sorted.
    + intros k. by rewrite sort_desc_stable, Hkept.
  - intros a k Hdays Hk Ha Hdiff. unfold cutoff, float_sub.
    rewrite seconds_exact by done. rewrite Hdiff. by apply round53_exact.
Qed.

Lemma recent_files_window_witness :
  recent_files ["t"] 7 dated_world
  = (Ok [(["t"; "new.log"], seconds 996400);
         (["t"; "mid.log"], seconds 395200)], dated_world)
  /\ cutoff (clock dated_world) 7 = seconds 395200.
Proof.
  destruct (recent_files_window dated_world ["t"] 7)
    as (Hrange & _ & Hwin & Hexact); [vm_compute; reflexivity|].
  split.
  - destruct Hwin as (l & Hrun & _).
    { apply Hrange. vm_compute. reflexivity. }
    rewrite Hrun. f_equal.
    assert (H : fst (recent_files ["t"] 7 dated_world) = Ok l)
      by by rewrite Hrun.
    vm_compute in H. injection H as <-. vm_compute. reflexivity.
  - rewrite (Hexact 395200%Z 1074%Z); [| | | |].
    + vm_compute. reflexivity.
    + vm_compute. reflexivity.
    + lia.
    + vm_compute. reflexivity.
    + vm_compute. reflexivity.
Defined.

(** C9, as stated, fails for a value of [days] that is too large for a
    double: with [days = 10^400] the call raises [OverflowError] instead of
    returning a list. *)
Lemma recent_files_huge_days :
  node_at (fs dated_world) ["t"] = Some Dir
  /\ recent_files ["t"] (10 ^ 400) dated_world
     = (Raise OverflowError, dated_world).
Proof. split; vm_compute; reflexivity. Qed.

(** ** The duplicate detector *)

Section Duplicates.
Variable md5 : string -> string.

Lemma dup_one_run (mh : gmap string path) (dup : gmap string (list path))
    (p : path) (w : world) :
  dup_one md5 (mh, dup) p w
  = (Ok match digest_of md5 (fs w) p with
        | None => (mh, dup)
        | Some h =>
            match mh !! h with
            | Some first =>
                let group := default [] (dup !! h) ++ [p] in
                (mh, <[h := if bool_decide (first ∈ group) then group
                            else first :: group]> dup)
            | None => (<[h := p]> mh, dup)
            end
        end, w).
Proof.
  unfold dup_one, bind at 1, is_file, gets, digest_of.
  destruct (node_at (fs w) p) as [[f|]|] eqn:Hp; simpl; [|done..].
  unfold bind, md5_of_file, try_except, bind, read_bytes. rewrite Hp.
  destruct (readable f); [|done]. unfold ret at 1.
  case_bool_decide; [done|]. by destruct (mh !! md5 (content f)).
Qed.

Lemma with_digest_snoc (m : gmap path node) (h : string)
    (l : list path) (p : path) :
  with_digest md5 m h (l ++ [p])
  = with_digest md5 m h l
    ++ (if decide (digest_of md5 m p = Some h) then [p] else []).
Proof. unfold with_digest. by rewrite filter_app, filter_cons, filter_nil. Qed.

Lemma elem_of_with_digest (m : gmap path node) (h : string)
    (l : list path) (p : path) :
  p ∈ with_digest md5 m h l <-> digest_of md5 m p = Some h /\ p ∈ l.
Proof. unfold with_digest. by rewrite list_elem_of_filter. Qed.

(** The loop invariant: after the entries [l1], [map_hash] holds the first
    path of every digest and [dup] the digests seen twice, each with all
    its paths in order. *)
Lemma dup_loop_invariant (l1 l2 : list path) (mh : gmap string path)
    (dup : gmap string (list path)) (w : world) :
  NoDup (l1 ++ l2) ->
  (forall h, mh !! h = head (with_digest md5 (fs w) h l1)) ->
  (forall h, dup !! h
             = if decide (2 <= length (with_digest md5 (fs w) h l1))
               then Some (with_digest md5 (fs w) h l1) else None) ->
  exists mh' dup',
    for_each (dup_one md5) l2 (mh, dup) w = (Ok (mh', dup'), w)
    /\ forall h,
         dup' !! h
         = if decide (2 <= length (with_digest md5 (fs w) h (l1 ++ l2)))
           then Some (with_digest md5 (fs w) h (l1 ++ l2)) else None.
Proof.
  revert l1 mh dup. induction l2 as [|p l2 IH]; intros l1 mh dup Hnd Hmh Hdup.
  - exists mh, dup. split; [done|]. by rewrite app_nil_r.
  - cbn [for_each]. unfold bind. rewrite dup_one_run.
    replace (l1 ++ p :: l2) with ((l1 ++ [p]) ++ l2) in *
      by by rewrite <- app_assoc.
    assert (Hp : p ∉ l1).
    { apply NoDup_app in Hnd as [Hnd _].
      apply NoDup_app in Hnd as (_ & Hnd & _).
      intros Hin. apply (Hnd p Hin). left. }
    destruct (digest_of md5 (fs w) p) as [h|] eqn:Hd.
    + destruct (mh !! h) as [first|] eqn:Hfirst.
      * rewrite Hmh in Hfirst.
        destruct (with_digest md5 (fs w) h l1) as [|x g] eqn:Hg; [done|].
        injection Hfirst as <-.
        assert (Hx : x <> p).
        { intros ->. apply Hp. assert (Hin : p ∈ p :: g) by left.
          rewrite <- Hg in Hin. by apply elem_of_with_digest in Hin as [_ ?]. }
        apply IH; [done| |].
        -- intros h'. rewrite with_digest_snoc, Hmh, Hd.
           destruct (decide (h = h')) as [<-|Hne].
           ++ by rewrite Hg.
           ++ rewrite decide_False by congruence. rewrite app_nil_r. reflexivity.
        -- intros h'. rewrite with_digest_snoc, Hd.
           destruct (decide (h = h')) as [<-|Hne].
           ++ rewrite lookup_insert_eq.
              rewrite (decide_True (P := Some h = Some h)) by done.
              rewrite Hdup, Hg.
              destruct g as [|y g].
              ** rewrite (decide_False (P := 2 <= length [x])) by (simpl; lia).
                 rewrite (decide_True (P := 2 <= length ([x] ++ [p])))
                   by (simpl; lia).
                 simpl. rewrite bool_decide_eq_false_2; [done|].
                 intros Hin%list_elem_of_singleton. done.
              ** rewrite (decide_True (P := 2 <= length (x :: y :: g)))
                   by (simpl; lia).
                 rewrite (decide_True
                            (P := 2 <= length ((x :: y :: g) ++ [p])))
                   by (simpl; lia).
                 simpl. rewrite bool_decide_eq_true_2 by left. done.
           ++ rewrite lookup_insert_ne by done.
              rewrite (decide_False (P := Some h = Some h')) by congruence.
              rewrite app_nil_r. apply Hdup.
      * rewrite Hmh in Hfirst.
        destruct (with_digest md5 (fs w) h l1) as [|x g] eqn:Hg; [|done].
        apply IH; [done| |].
        -- intros h'. rewrite with_digest_snoc, Hd.
           destruct (decide (h = h')) as [<-|Hne].
           ++ rewrite lookup_insert_eq, decide_True by done. by rewrite Hg.
           ++ rewrite lookup_insert_ne by done.
              rewrite decide_False by congruence.
              rewrite app_nil_r. apply Hmh.
        -- intros h'. rewrite with_digest_snoc, Hd, Hdup.
           destruct (decide (h = h')) as [<-|Hne].
           ++ rewrite (decide_True (P := Some h = Some h)) by done.
              rewrite Hg.
              rewrite (decide_False (P := 2 <= length [])) by (simpl; lia).
              by rewrite (decide_False (P := 2 <= length ([] ++ [p])))
                by (simpl; lia).
           ++ rewrite (decide_False (P := Some h = Some h')) by congruence.
              by rewrite app_nil_r.
    + apply IH; [done| |].
      * intros h'. rewrite with_digest_snoc, Hd.
        rewrite decide_False by congruence. rewrite app_nil_r. apply Hmh.
      * intros h'. rewrite with_digest_snoc, Hd.
        rewrite (decide_False (P := None = Some h')) by congruence.
        rewrite app_nil_r. apply Hdup.
Qed.

Lemma digest_of_Some (m : gmap path node) (p : path) (h : string) :
  digest_of md5 m p = Some h ->
  exists f, node_at m p = Some (File f) /\ readable f = true
            /\ md5 (content f) = h.
Proof.
  unfold digest_of. destruct (node_at m p) as [[f|]|]; [|done..].
  destruct (readable f) eqn:Hr; [|done]. case_bool_decide; [done|].
  intros [= <-]. exists f. by rewrite Hr.
Qed.

(** C7.  [find_duplicates] returns a mapping in which every group has at
    least two members, a group being all the readable regular files of the
    directory with one digest, in listing order (so the first file found
    comes before its duplicates, and no path is repeated); a file that
    cannot be read is in no group; and on a directory every digest shared
    by two files has its group.  The world is left as it was. *)
Theorem find_duplicates_groups (w : world) (folder : path) :
  exists dup,
    find_duplicates md5 folder w = (Ok dup, w)
    /\ (forall h g,
          dup !! h = Some g ->
          2 <= length g /\ NoDup g
          /\ g = with_digest md5 (fs w) h (children (fs w) folder))
    /\ (forall h g p,
          dup !! h = Some g -> p ∈ g ->
          p ∈ children (fs w) folder
          /\ exists f, node_at (fs w) p = Some (File f)
                       /\ readable f = true /\ md5 (content f) = h)
    /\ (node_at (fs w) folder = Some Dir ->
        forall h,
          2 <= length (with_digest md5 (fs w) h (children (fs w) folder)) ->
          dup !! h
          = Some (with_digest md5 (fs w) h (children (fs w) folder))).
Proof.
  unfold find_duplicates, try_except, bind at 1.
  destruct (decide (node_at (fs w) folder = Some Dir)) as [Hdir|Hdir].
  - rewrite iterdir_run by done. unfold bind.
    destruct (dup_loop_invariant [] (children (fs w) folder) ∅ ∅ w)
      as (mh & dup & -> & Hinv).
    { apply NoDup_children. } { intros h. by rewrite lookup_empty. }
    { intros h. by rewrite lookup_empty. }
    simpl in Hinv. exists dup. split; [done|].
    assert (Hgroup : forall h g, dup !! h = Some g ->
              2 <= length g
              /\ g = with_digest md5 (fs w) h (children (fs w) folder)).
    { intros h g. rewrite Hinv. case_decide; [|done]. by intros [= <-]. }
    split; [|split].
    + intros h g Hg. destruct (Hgroup h g Hg) as [Hlen ->].
      split; [done|]. split; [|done].
      apply NoDup_filter, NoDup_children.
    + intros h g p Hg Hin. destruct (Hgroup h g Hg) as [_ ->].
      apply elem_of_with_digest in Hin as [Hd Hin]. split; [done|].
      by apply digest_of_Some.
    + intros _ h Hlen. rewrite Hinv. by rewrite decide_True.
  - destruct (iterdir_fails folder w Hdir) as [e ->]. unfold ret.
    exists ∅. split; [done|].
    split; [|split]; [by intros h g; rewrite lookup_empty..|done].
Qed.

End Duplicates.

Lemma find_duplicates_groups_witness :
  exists dup,
    find_duplicates toy_md5 ["q"] twin_world = (Ok dup, twin_world)
    /\ dup !! "md5:same" = Some [["q"; "b.txt"]; ["q"; "a.txt"]]
    /\ dup !! "md5:other" = None.
Proof.
  destruct (find_duplicates_groups toy_md5 twin_world ["q"])
    as (dup & Hrun & Hgroup & _ & Hall).
  exists dup. split; [exact Hrun|]. split.
  - rewrite Hall; [vm_compute; reflexivity|vm_compute; reflexivity|].
    vm_compute. lia.
  - destruct (dup !! "md5:other") as [g|] eqn:Hg; [|reflexivity].
    destruct (Hgroup _ _ Hg) as (Hlen & _ & ->). vm_compute in Hlen. lia.
Defined.

(** ** Undo: one record *)

Lemma os_rename_total (src dst : path) (w : world) :
  exists r w',
    os_rename src dst w = (r, w') /\ r <> Diverge
    /\ undo_file w' = undo_file w /\ clock w' = clock w
    /\ (forall e, r = Raise e -> w' = w).
Proof.
  unfold os_rename.
  destruct (node_at (fs w) src) as [n|]; [|by eexists _, _].
  case_bool_decide; [by eexists _, _|].
  destruct (node_at (fs w) (parent dst)) as [[f|]|]; [by eexists _, _| |by eexists _, _].
  destruct n as [f|], (node_at (fs w) dst) as [[f'|]|];
    try (by eexists _, _).
  all: destruct (_ || _); by eexists _, _.
Qed.

Lemma with_name_run (p : path) (nm : string) (w : world) :
  p <> [] -> with_name p nm w = (Ok (parent p </> nm), w).
Proof. by destruct p. Qed.

Lemma restored_loop_spec (budget : nat) (orig : path) (i N : nat) (w : world) :
  orig <> [] ->
  first_unused (fs w) (restored_name orig) i N ->
  N < i + budget ->
  restored_loop budget orig (stem orig) (suffix orig) i (restored_name orig i) w
  = (Ok (restored_name orig N), w).
Proof.
  intros Hne. revert i. induction budget as [|budget IH]; intros i HN Hlt.
  - destruct HN as [? _]. lia.
  - cbn [restored_loop]. unfold bind at 1. rewrite path_exists_run.
    destruct (node_at (fs w) (restored_name orig i)) as [n|] eqn:Hc.
    + rewrite bool_decide_eq_true_2 by eauto.
      unfold bind. rewrite with_name_run by done.
      apply IH; [|lia]. apply first_unused_next; [done|]. by rewrite Hc.
    + rewrite bool_decide_eq_false_2 by apply is_Some_None.
      assert (N = i) by (by eapply first_unused_here). by subst N.
Qed.

Section UndoOne.
Variables (restored : nat) (errors : list error_desc) (m : move) (w : world).

(** A record whose new path no longer exists is passed over. *)
Lemma undo_one_skip :
  node_at (fs w) (new m) = None ->
  undo_one (restored, errors) m w = (Ok (restored, errors), w).
Proof.
  intros Hnew. unfold undo_one, undo_body, try_except, bind.
  rewrite path_exists_run.
  rewrite Hnew. by rewrite bool_decide_eq_false_2 by apply is_Some_None.
Qed.

(** The original path is unused: the file goes back there. *)
Lemma undo_one_direct (f : file) :
  node_at (fs w) (new m) = Some (File f) ->
  node_at (fs w) (orig m) = None ->
  node_at (fs w) (parent (orig m)) = Some Dir ->
  undo_one (restored, errors) m w
  = (Ok (S restored, errors),
     set_fs (<[orig m := File f]> (delete (new m) (fs w))) w).
Proof.
  intros Hnew Horig Hpar.
  unfold undo_one, undo_body, try_except, bind. rewrite path_exists_run, Hnew.
  rewrite bool_decide_eq_true_2 by eauto. cbn beta iota.
  rewrite path_exists_run, Horig.
  rewrite bool_decide_eq_false_2 by apply is_Some_None. cbn beta iota.
  by rewrite (os_rename_file w (new m) (orig m) f).
Qed.

(** The original path is taken: the file goes to the first unused
    [_restored{N}] name beside it. *)
Lemma undo_one_alternate (f : file) (N : nat) :
  node_at (fs w) (new m) = Some (File f) ->
  is_Some (node_at (fs w) (orig m)) ->
  orig m <> [] ->
  node_at (fs w) (parent (orig m)) = Some Dir ->
  first_unused (fs w) (restored_name (orig m)) 1 N ->
  undo_one (restored, errors) m w
  = (Ok (S restored, errors),
     set_fs (<[restored_name (orig m) N := File f]> (delete (new m) (fs w))) w).
Proof.
  intros Hnew Horig Hne Hpar HN.
  unfold undo_one, undo_body, try_except, bind. rewrite path_exists_run, Hnew.
  rewrite bool_decide_eq_true_2 by eauto. cbn beta iota.
  rewrite path_exists_run. rewrite bool_decide_eq_true_2 by done.
  cbn beta iota. rewrite with_name_run by done. unfold gets.
  cbn beta iota. fold (restored_name (orig m) 1).
  rewrite (restored_loop_spec _ (orig m) 1 N) by
    (try done;
     destruct (first_unused_exists (fs w) (restored_name (orig m)) 1
                 (restored_name_inj (orig m))
                 (fun j => joinpath_ne_nil _ _)) as (N' & HN' & Hlt);
     by rewrite (first_unused_unique _ _ _ _ _ HN HN')).
  rewrite (os_rename_file w (new m) (restored_name (orig m) N) f); try done.
  - unfold restored_name. by rewrite parent_joinpath.
  - by destruct HN as (_ & ? & _).
Qed.

(** Whatever the record, the step returns: a failure is caught and put on
    the error list, in which case the world is as before. *)
Lemma undo_one_total :
  exists restored' errors' w',
    undo_one (restored, errors) m w = (Ok (restored', errors'), w')
    /\ undo_file w' = undo_file w /\ clock w' = clock w
    /\ ((restored' = S restored /\ errors' = errors)
        \/ (restored' = restored /\ w' = w
            /\ (errors' = errors
                \/ exists e, errors' = errors ++ [FailedRestore m e]))).
Proof.
  unfold undo_one, undo_body, try_except, bind at 1. rewrite path_exists_run.
  destruct (node_at (fs w) (new m)) as [n|] eqn:Hnew.
  2:{ rewrite bool_decide_eq_false_2 by apply is_Some_None.
      eexists _, _, _. split; [reflexivity|]. naive_solver. }
  rewrite bool_decide_eq_true_2 by eauto.
  unfold bind at 1, bind at 1. rewrite path_exists_run.
  destruct (node_at (fs w) (orig m)) as [n'|] eqn:Horig.
  - rewrite bool_decide_eq_true_2 by eauto.
    destruct (decide (orig m = [])) as [He|Hne].
    + rewrite He. simpl. eexists _, _, _. split; [reflexivity|]. naive_solver.
    + unfold bind at 1. rewrite with_name_run by done.
      unfold bind at 1, gets. unfold bind at 1.
      fold (restored_name (orig m) 1).
      destruct (first_unused_exists (fs w) (restored_name (orig m)) 1
                  (restored_name_inj (orig m))
                  (fun j => joinpath_ne_nil _ _)) as (N & HN & Hlt).
      rewrite (restored_loop_spec _ (orig m) 1 N) by done.
      destruct (os_rename_total (new m) (restored_name (orig m) N) w)
        as (r & w' & -> & Hd & Hu & Hc & Hfail).
      destruct r as [[]|e|]; [| |done]; unfold ret;
        eexists _, _, _; (split; [reflexivity|]).
      * naive_solver.
      * rewrite (Hfail e eq_refl). naive_solver.
  - rewrite bool_decide_eq_false_2 by apply is_Some_None.
    destruct (os_rename_total (new m) (orig m) w)
      as (r & w' & -> & Hd & Hu & Hc & Hfail).
    destruct r as [[]|e|]; [| |done]; unfold ret;
      eexists _, _, _; (split; [reflexivity|]).
    + naive_solver.
    + rewrite (Hfail e eq_refl). naive_solver.
Qed.

End UndoOne.

(** ** Undo: the journal *)

Lemma for_each_app {A S} (body : S -> A -> M S) (l1 l2 : list A) (s : S)
    (w : world) :
  for_each body (l1 ++ l2) s w
  = (let* s' := for_each body l1 s in for_each body l2 s') w.
Proof.
  revert s w. induction l1 as [|x l1 IH]; intros s w; simpl; [done|].
  unfold bind. destruct (body s x w) as [[s'| |] w']; [|done..].
  apply IH.
Qed.

Lemma undo_loop_total (l : list move) (st : nat * list error_desc)
    (w : world) :
  exists st' w',
    for_each undo_one l st w = (Ok st', w')
    /\ undo_file w' = undo_file w /\ clock w' = clock w
    /\ (forall err, err ∈ snd st' ->
          err ∈ snd st \/ exists m e, m ∈ l /\ err = FailedRestore m e).
Proof.
  revert st w. induction l as [|m l IH]; intros [restored errors] w.
  - eexists _, _. split; [reflexivity|]. eauto.
  - cbn [for_each]. unfold bind.
    destruct (undo_one_total restored errors m w)
      as (r' & e' & w1 & -> & Hu & Hc & Hcases).
    destruct (IH (r', e') w1) as (st' & w' & -> & Hu' & Hc' & Herr).
    eexists _, _. split; [reflexivity|].
    split; [congruence|]. split; [congruence|].
    intros err Hin. destruct (Herr err Hin) as [Hold|(m' & e & Hm & ->)].
    + simpl in Hold.
      destruct Hcases as [[_ ->]|(_ & _ & [->|[e ->]])]; [by left..|].
      apply elem_of_app in Hold as [?|Hlast%list_elem_of_singleton];
        [by left|].
      right. exists m, e. split; [left|done].
    + right. exists m', e. split; [by right|done].
Qed.

(** *** One turn of the loop *)

Lemma undo_body_total (restored : nat) (errors : list error_desc)
    (o n : path) (w : world) :
  exists r w',
    undo_body restored errors o n w = (r, w')
    /\ undo_file w' = undo_file w /\ clock w' = clock w
    /\ (r = Ok (S restored, errors)
        \/ (w' = w /\ (r = Ok (restored, errors) \/ exists e, r = Raise e))).
Proof.
  unfold undo_body, bind at 1. rewrite path_exists_run.
  destruct (node_at (fs w) n) as [nd|] eqn:Hnew.
  2:{ rewrite bool_decide_eq_false_2 by apply is_Some_None.
      eexists _, _. split; [reflexivity|]. naive_solver. }
  rewrite bool_decide_eq_true_2 by eauto.
  unfold bind at 1, bind at 1. rewrite path_exists_run.
  destruct (node_at (fs w) o) as [n'|] eqn:Horig.
  - rewrite bool_decide_eq_true_2 by eauto.
    destruct (decide (o = [])) as [He|Hne].
    + rewrite He. simpl. eexists _, _. split; [reflexivity|]. naive_solver.
    + unfold bind at 1. rewrite with_name_run by done.
      unfold bind at 1, gets. unfold bind at 1.
      fold (restored_name o 1).
      destruct (first_unused_exists (fs w) (restored_name o) 1
                  (restored_name_inj o)
                  (fun j => joinpath_ne_nil _ _)) as (N & HN & Hlt).
      rewrite (restored_loop_spec _ o 1 N) by done.
      destruct (os_rename_total n (restored_name o N) w)
        as (r & w' & -> & Hd & Hu & Hc & Hfail).
      destruct r as [[]|e|]; [| |done]; unfold ret;
        eexists _, _; (split; [reflexivity|]).
      * naive_solver.
      * rewrite (Hfail e eq_refl). naive_solver.
  - rewrite bool_decide_eq_false_2 by apply is_Some_None.
    destruct (os_rename_total n o w)
      as (r & w' & -> & Hd & Hu & Hc & Hfail).
    destruct r as [[]|e|]; [| |done]; unfold ret;
      eexists _, _; (split; [reflexivity|]).
    + naive_solver.
    + rewrite (Hfail e eq_refl). naive_solver.
Qed.

(** With the target known, a turn on a record whose file is at its new
    path comes down to the rename. *)
Lemma undo_one_target (restored : nat) (errors : list error_desc)
    (m : move) (w : world) (t : path) :
  is_Some (node_at (fs w) (new m)) ->
  orig m <> [] ->
  restore_target (fs w) m t ->
  undo_one (restored, errors) m w
  = try_except (os_rename (new m) t >> ret (S restored, errors))
      (fun e => ret (restored, errors ++ [FailedRestore m e])) w.
Proof.
  intros Hnew Hne Ht.
  unfold undo_one, undo_body, try_except, bind at 1.
  rewrite path_exists_run, bool_decide_eq_true_2 by done.
  unfold bind at 1, bind at 1. rewrite path_exists_run.
  destruct Ht as [[Hfree ->]|(Hocc & N & HN & ->)].
  - rewrite Hfree. by rewrite bool_decide_eq_false_2 by apply is_Some_None.
  - rewrite bool_decide_eq_true_2 by done.
    unfold bind at 1. rewrite with_name_run by done.
    unfold bind at 1, gets. unfold bind at 1.
    fold (restored_name (orig m) 1).
    destruct (first_unused_exists (fs w) (restored_name (orig m)) 1
                (restored_name_inj (orig m))
                (fun j => joinpath_ne_nil _ _)) as (N' & HN' & Hlt).
    rewrite (first_unused_unique _ _ _ _ _ HN HN').
    by rewrite (restored_loop_spec _ (orig m) 1 N') by done.
Qed.

Lemma undo_one_nameless (restored : nat) (errors : list error_desc)
    (m : move) (w : world) :
  is_Some (node_at (fs w) (new m)) ->
  orig m = [] ->
  undo_one (restored, errors) m w
  = (Ok (restored, errors ++ [FailedRestore m ValueError]), w).
Proof.
  intros Hnew He.
  unfold undo_one, undo_body, try_except, bind at 1.
  rewrite path_exists_run, bool_decide_eq_true_2 by done.
  unfold bind at 1, bind at 1. rewrite path_exists_run, He. done.
Qed.

Lemma restore_target_exists (m : gmap path node) (mv : move) :
  exists t, restore_target m mv t.
Proof.
  destruct (node_at m (orig mv)) as [n|] eqn:E.
  - destruct (first_unused_exists m (restored_name (orig mv)) 1
                (restored_name_inj (orig mv))
                (fun j => joinpath_ne_nil _ _)) as (N & HN & _).
    exists (restored_name (orig mv) N). right. split; [by rewrite E|].
    by exists N.
  - exists (orig mv). by left.
Qed.

Lemma undo_loop_undone (l : list move) (restored : nat)
    (errors : list error_desc) (w : world) :
  exists n errs w',
    for_each undo_one l (restored, errors) w
    = (Ok (restored + n, errors ++ errs), w')
    /\ undone l w n errs w'.
Proof.
  revert restored errors w.
  induction l as [|m l IH]; intros restored errors w.
  - exists 0, [], w. rewrite Nat.add_0_r, app_nil_r. split; [done|].
    constructor.
  - cbn [for_each]. unfold bind at 1.
    destruct (node_at (fs w) (new m)) as [nd|] eqn:Hnew.
    2:{ rewrite undo_one_skip by done.
        destruct (IH restored errors w) as (n & errs & w' & -> & Hun).
        exists n, errs, w'. split; [done|]. by constructor. }
    assert (Hsome : is_Some (node_at (fs w) (new m))) by (by rewrite Hnew).
    destruct (decide (orig m = [])) as [He|Hne].
    { rewrite undo_one_nameless by done.
      destruct (IH restored (errors ++ [FailedRestore m ValueError]) w)
        as (n & errs & w' & -> & Hun).
      exists n, (FailedRestore m ValueError :: errs), w'.
      rewrite <- app_assoc. split; [done|]. by apply undone_nameless. }
    destruct (restore_target_exists (fs w) m) as [t Ht].
    rewrite (undo_one_target restored errors m w t) by done.
    unfold try_except, bind at 1.
    destruct (os_rename_total (new m) t w)
      as (r & w1 & Hren & Hd & _ & _ & Hfail).
    rewrite Hren. destruct r as [[]|e|]; [| |done].
    + unfold ret.
      destruct (IH (S restored) errors w1) as (n & errs & w' & -> & Hun).
      exists (S n), errs, w'. rewrite Nat.add_succ_r. split; [done|].
      by eapply undone_restored.
    + unfold ret. rewrite (Hfail e eq_refl) in *.
      destruct (IH restored (errors ++ [FailedRestore m e]) w)
        as (n & errs & w' & -> & Hun).
      exists n, (FailedRestore m e :: errs), w'.
      rewrite <- app_assoc. split; [done|]. by eapply undone_raised.
Qed.

(** *** A turn on any JSON value *)

Section UndoEntries.
Context {py : Python}.

Lemma subscript_run (m : json) (k : string) (w : world) :
  (exists v, subscript m k w = (Ok v, w))
  \/ (exists e, subscript m k w = (Raise e, w)).
Proof.
  unfold subscript. destruct m; try (right; by eexists).
  destruct (obj_lookup k fields); [left|right]; by eexists.
Qed.

Lemma as_path_run (v : json) (w : world) :
  (exists q, as_path v w = (Ok q, w))
  \/ (exists e, as_path v w = (Raise e, w)).
Proof.
  unfold as_path. destruct v; try (right; by eexists). left. by eexists.
Qed.

Lemma undo_entry_total (restored : nat) (errors : list error_desc)
    (m : json) (w : world) :
  exists restored' errors' w',
    undo_entry (restored, errors) m w = (Ok (restored', errors'), w')
    /\ undo_file w' = undo_file w /\ clock w' = clock w.
Proof.
  unfold undo_entry, try_except, bind at 1.
  destruct (subscript_run m "orig" w) as [[o ->]|[e ->]];
    [|unfold ret; by eexists _, _, _].
  unfold bind at 1.
  destruct (as_path_run o w) as [[orig ->]|[e ->]];
    [|unfold ret; by eexists _, _, _].
  unfold bind at 1.
  destruct (subscript_run m "new" w) as [[n ->]|[e ->]];
    [|unfold ret; by eexists _, _, _].
  unfold bind at 1.
  destruct (as_path_run n w) as [[new ->]|[e ->]];
    [|unfold ret; by eexists _, _, _].
  destruct (undo_body_total restored errors orig new w)
    as (r & w' & -> & Hu & Hc & [->|[-> [->|[e ->]]]]);
    unfold ret; by eexists _, _, _.
Qed.

Lemma undo_entries_total (l : list json) (st : nat * list error_desc)
    (w : world) :
  exists st' w',
    for_each undo_entry l st w = (Ok st', w')
    /\ undo_file w' = undo_file w /\ clock w' = clock w.
Proof.
  revert st w. induction l as [|m l IH]; intros [restored errors] w.
  - by eexists _, _.
  - cbn [for_each]. unfold bind.
    destruct (undo_entry_total restored errors m w)
      as (r' & e' & w1 & -> & Hu & Hc).
    destruct (IH (r', e') w1) as (st' & w' & -> & Hu' & Hc').
    eexists _, _. split; [reflexivity|]. split; congruence.
Qed.

(** An entry that is no record, or a record without one of its keys, is
    put on the error list and changes nothing. *)
Lemma undo_entry_malformed (restored : nat) (errors : list error_desc)
    (m : json) (w : world) :
  (forall fields, m <> JObj fields) ->
  undo_entry (restored, errors) m w
  = (Ok (restored, errors ++ [FailedRestoreOf m TypeError]), w).
Proof.
  intros Hm. unfold undo_entry, try_except, bind at 1, subscript.
  destruct m; try done. by destruct (Hm fields).
Qed.

Lemma reversible_run (j : json) (w : world) :
  reversed j w
  = if reversible j
    then (Ok match j with
             | JArr items => rev items
             | JStr s => rev (JStr <$> characters s)
             | JObj fields => rev (JStr <$> obj_keys fields)
             | _ => []
             end, w)
    else (Raise TypeError, w).
Proof. by destruct j. Qed.

(** C6, as amended.  [undo_last_operation] is single-use on a journal
    that [organize_folder] wrote, and on any JSON object whose [moves]
    can be iterated.  Without a journal file, with one that cannot be
    parsed, or with one that holds a JSON value that Python counts as
    false, it reports that there is no undo data, restores nothing and
    leaves the world as it is.  With a journal, or such an object, it
    returns after going through all the entries, whatever became of
    each, and the journal is gone: a second call right after reports no
    undo data and restores nothing.  With any other JSON value it raises
    before the first entry, outside every [try]: [AttributeError] for a
    value other than an object that Python counts as true, [TypeError]
    for an object whose [moves] is [null], a boolean or a number.  The
    world is then as before, the journal file included, so that the
    next call raises again. *)
Theorem undo_single_use (w : world) :
  (undo_file w = Absent \/ undo_file w = Corrupt
   \/ (exists j, undo_file w = Other j /\ truthy j = false) ->
   undo_last_operation w = (Ok (0, "No undo data found."), w))
  /\ ((exists t moves, undo_file w = Journal t moves)
      \/ (exists fields,
            undo_file w = Other (JObj fields) /\ fields <> []
            /\ reversible (moves_of fields) = true) ->
      exists restored msg w',
        undo_last_operation w = (Ok (restored, msg), w')
        /\ undo_file w' = Absent
        /\ undo_last_operation w' = (Ok (0, "No undo data found."), w'))
  /\ (forall j,
        undo_file w = Other j -> truthy j = true ->
        (forall fields, j <> JObj fields) ->
        undo_last_operation w = (Raise AttributeError, w))
  /\ (forall fields,
        undo_file w = Other (JObj fields) -> fields <> [] ->
        reversible (moves_of fields) = false ->
        undo_last_operation w = (Raise TypeError, w)).
Proof.
  split; [|split; [|split]].
  - intros H. unfold undo_last_operation, bind, load_undo, gets.
    destruct H as [-> | [-> | (j & -> & Hj)]]; [done..|]. by rewrite Hj.
  - intros [(t & moves & Hj)|(fields & Hj & Hne & Hrev)].
    + unfold undo_last_operation at 1.
      unfold bind at 1, load_undo, gets. rewrite Hj. unfold bind at 1.
      destruct (undo_loop_total (rev moves) (0, []) w)
        as ([restored errors] & w1 & Hrun & _).
      unfold undo_records. rewrite Hrun. unfold bind, modify, ret.
      eexists _, _, _. split; [reflexivity|]. split; [done|]. done.
    + unfold undo_last_operation at 1.
      unfold bind at 1, load_undo, gets. rewrite Hj.
      assert (Ht : truthy (JObj fields) = true) by (by destruct fields).
      rewrite Ht. unfold bind at 1, dict_get, ret at 1.
      fold (moves_of fields). unfold bind at 1.
      rewrite reversible_run, Hrev.
      set (items := match moves_of fields with
                    | JArr items => rev items
                    | JStr s => rev (JStr <$> characters s)
                    | JObj fields => rev (JStr <$> obj_keys fields)
                    | _ => []
                    end).
      unfold bind at 1.
      destruct (undo_entries_total items (0, []) w)
        as ([restored errors] & w1 & -> & _).
      unfold bind, modify, ret.
      eexists _, _, _. split; [reflexivity|]. split; [done|]. done.
  - intros j Hj Ht Hobj. unfold undo_last_operation, bind at 1, load_undo, gets.
    rewrite Hj, Ht. unfold bind, dict_get.
    destruct j; try done. by destruct (Hobj fields).
  - intros fields Hj Hne Hrev.
    unfold undo_last_operation, bind at 1, load_undo, gets. rewrite Hj.
    assert (Ht : truthy (JObj fields) = true) by (by destruct fields).
    rewrite Ht. unfold bind at 1, dict_get, ret at 1.
    fold (moves_of fields). unfold bind at 1.
    by rewrite reversible_run, Hrev.
Qed.

(** C5, as amended.  A record whose new path no longer exists is passed
    over: it is not counted as restored, nothing is put on the error list
    for it, the world is unchanged, and the records after it are
    processed as if it were not there.  A record whose file is at its new
    path is renamed to its target: when the rename returns the record is
    counted, and when it raises the record is put on the error list with
    the exception, the count and the world staying as they were; either
    way the loop goes on.  So the error list of a journal holds exactly
    the records whose restoration raised, in the order in which they
    were taken, and the summary message carries the note about errors if
    and only if that list is not empty. *)
Theorem undo_skips_missing (w : world) :
  (forall m rest st,
     node_at (fs w) (new m) = None ->
     undo_one st m w = (Ok st, w)
     /\ for_each undo_one (m :: rest) st w = for_each undo_one rest st w)
  /\ (forall m restored errors t rest,
        is_Some (node_at (fs w) (new m)) ->
        orig m <> [] ->
        restore_target (fs w) m t ->
        (forall w1,
           os_rename (new m) t w = (Ok tt, w1) ->
           undo_one (restored, errors) m w = (Ok (S restored, errors), w1))
        /\ (forall e,
              os_rename (new m) t w = (Raise e, w) ->
              undo_one (restored, errors) m w
              = (Ok (restored, errors ++ [FailedRestore m e]), w)
              /\ for_each undo_one (m :: rest) (restored, errors) w
                 = for_each undo_one rest
                     (restored, errors ++ [FailedRestore m e]) w))
  /\ (forall t moves,
        undo_file w = Journal t moves ->
        exists restored errors w',
          undo_records moves w = (Ok (restored, errors), w')
          /\ undone (rev moves) w restored errors w'
          /\ undo_last_operation w
             = (Ok (restored, undo_message restored errors),
                set_undo_file Absent w')
          /\ (errors = [] ->
              undo_message restored errors
              = "Restored " +:+ pretty restored +:+ " files.")
          /\ (errors <> [] ->
              undo_message restored errors
              = ("Restored " +:+ pretty restored +:+ " files.")
                +:+ " Some errors occurred; check error.log.")
          /\ (forall err, err ∈ errors ->
                exists m e, m ∈ moves /\ err = FailedRestore m e)).
Proof.
  split; [|split].
  - intros m rest [restored errors] Hnew.
    pose proof (undo_one_skip restored errors m w Hnew) as Hskip.
    split; [done|]. cbn [for_each]. unfold bind. by rewrite Hskip.
  - intros m restored errors t rest Hnew Hne Ht. split.
    + intros w1 Hren.
      rewrite (undo_one_target restored errors m w t) by done.
      unfold try_except, bind at 1. by rewrite Hren.
    + intros e Hren.
      assert (Hone : undo_one (restored, errors) m w
                     = (Ok (restored, errors ++ [FailedRestore m e]), w)).
      { rewrite (undo_one_target restored errors m w t) by done.
        unfold try_except, bind at 1. by rewrite Hren. }
      split; [done|].
      cbn [for_each]. unfold bind at 1. by rewrite Hone.
  - intros t moves Hj.
    destruct (undo_loop_total (rev moves) (0, []) w)
      as ([restored errors] & w1 & Hrun & _ & _ & Herr).
    destruct (undo_loop_undone (rev moves) 0 [] w)
      as (n & errs & w1' & Hrun' & Hundone).
    rewrite Hrun in Hrun'. injection Hrun' as -> -> ->.
    exists n, errs, w1'. split; [exact Hrun|].
    split; [done|]. split; [|split; [|split]].
    + unfold undo_last_operation, bind at 1, load_undo, gets. rewrite Hj.
      unfold bind at 1, undo_records. rewrite Hrun. reflexivity.
    + by intros ->.
    + intros Hne. by destruct errs.
    + intros err Hin. destruct (Herr err Hin) as [Hnil|(m & e & Hm & ->)].
      * by apply elem_of_nil in Hnil.
      * exists m, e. split; [|done].
        apply list_elem_of_In, in_rev. by apply list_elem_of_In.
Qed.

End UndoEntries.

Lemma undo_single_use_witness :
  (exists w',
     undo_last_operation stale_world = (Ok (0, "Restored 0 files."), w')
     /\ undo_last_operation w' = (Ok (0, "No undo data found."), w'))
  /\ (exists w',
        undo_last_operation handwritten_world
        = (Ok (1, "Restored 1 files. Some errors occurred; check error.log."),
           w')
        /\ undo_file w' = Absent)
  /\ undo_last_operation foreign_moves_world
     = (Raise TypeError, foreign_moves_world).
Proof.
  split; [|split].
  - destruct (proj1 (proj2 (undo_single_use stale_world)))
      as (restored & msg & w' & Hrun & _ & Hagain).
    { left. by eexists _, _. }
    exists w'. split; [|exact Hagain].
    rewrite Hrun. f_equal.
    assert (H : fst (undo_last_operation stale_world) = Ok (restored, msg))
      by (by rewrite Hrun).
    vm_compute in H. symmetry. exact H.
  - destruct (proj1 (proj2 (undo_single_use handwritten_world)))
      as (restored & msg & w' & Hrun & Hgone & _).
    { right. eexists. split; [reflexivity|]. split; [done|reflexivity]. }
    exists w'. split; [|exact Hgone].
    rewrite Hrun. f_equal.
    assert (H : fst (undo_last_operation handwritten_world)
                = Ok (restored, msg)) by (by rewrite Hrun).
    vm_compute in H. symmetry. exact H.
  - apply (proj2 (proj2 (proj2 (undo_single_use foreign_moves_world)))
             [("moves", JInt 3)]); [reflexivity|done|reflexivity].
Defined.

(** C6, as stated, fails on a journal file that holds valid JSON of
    another shape, here the list [["x"]]: the journal is neither absent
    nor unparseable, yet undo does not go through any record and does not
    delete it; it raises, and so does every call after it. *)
Lemma undo_foreign_journal :
  undo_file foreign_world = Other (JArr [JStr "x"])
  /\ undo_last_operation foreign_world = (Raise AttributeError, foreign_world)
  /\ undo_file (snd (undo_last_operation foreign_world)) <> Absent.
Proof. repeat split; vm_compute; congruence. Qed.

Lemma undo_skips_missing_witness :
  undo_one (0, []) (mkMove ["d"; "c.xyz"] ["d"; "OTHERS"; "c.xyz"]) stale_world
  = (Ok (0, []), stale_world)
  /\ undo_one (0, []) (mkMove ["old"; "k.xyz"] ["d"; "OTHERS"; "k.xyz"])
       orphan_world
     = (Ok (0, [FailedRestore
                  (mkMove ["old"; "k.xyz"] ["d"; "OTHERS"; "k.xyz"])
                  (FileNotFoundError ["old"; "k.xyz"])]), orphan_world).
Proof.
  split.
  - apply (proj1 (undo_skips_missing stale_world)
             (mkMove ["d"; "c.xyz"] ["d"; "OTHERS"; "c.xyz"]) [] (0, [])).
    vm_compute. reflexivity.
  - apply (proj1 (proj2 (undo_skips_missing orphan_world))
             (mkMove ["old"; "k.xyz"] ["d"; "OTHERS"; "k.xyz"]) 0 []
             ["old"; "k.xyz"] []).
    + vm_compute. by eexists.
    + done.
    + left. split; [vm_compute|]; reflexivity.
    + vm_compute. reflexivity.
Defined.

(** C5, as stated, fails on a journal whose only record has lost its new
    path: the record is not restored, yet nothing is recorded as a
    failure (the error list stays empty) and the summary message says
    nothing of an error. *)
Lemma undo_missing_file_is_silent :
  node_at (fs stale_world) ["d"; "OTHERS"; "c.xyz"] = None
  /\ undo_records [mkMove ["d"; "c.xyz"] ["d"; "OTHERS"; "c.xyz"]] stale_world
     = (Ok (0, []), stale_world)
  /\ fst (undo_last_operation stale_world) = Ok (0, "Restored 0 files.").
Proof. repeat split; vm_compute; reflexivity. Qed.

(** ** Organising: one file *)

Lemma mkdir_parents_unfold (p : path) (w : world) :
  mkdir_parents p w
  = try_except (os_mkdir p)
      (fun e =>
         match e with
         | FileNotFoundError _ =>
             match rev p with
             | [] => raise e
             | _ :: rp' => mkdir_parents_rev rp' >> mkdir_exist_ok p
             end
         | _ => let* d := is_dir p in if d then ret tt else raise e
         end) w.
Proof.
  assert (H : forall rp,
            mkdir_parents_rev rp w
            = try_except (os_mkdir (rev rp))
                (fun e =>
                   match e with
                   | FileNotFoundError _ =>
                       match rp with
                       | [] => raise e
                       | _ :: rp' =>
                           mkdir_parents_rev rp' >> mkdir_exist_ok (rev rp)
                       end
                   | _ => let* d := is_dir (rev rp) in
                          if d then ret tt else raise e
                   end) w) by (by intros []).
  unfold mkdir_parents. rewrite H. by rewrite rev_involutive.
Qed.

Lemma mkdir_parents_dir (p : path) (w : world) :
  node_at (fs w) p = Some Dir -> mkdir_parents p w = (Ok tt, w).
Proof.
  intros H. rewrite mkdir_parents_unfold. unfold try_except.
  rewrite os_mkdir_run, H. unfold bind, is_dir, gets. by rewrite H.
Qed.

Lemma mkdir_parents_file (p : path) (w : world) (f : file) :
  node_at (fs w) p = Some (File f) ->
  mkdir_parents p w = (Raise (FileExistsError p), w).
Proof.
  intros H. rewrite mkdir_parents_unfold. unfold try_except.
  rewrite os_mkdir_run, H. unfold bind, is_dir, gets. by rewrite H.
Qed.

Lemma mkdir_parents_new (p : path) (w : world) :
  node_at (fs w) p = None -> node_at (fs w) (parent p) = Some Dir ->
  mkdir_parents p w = (Ok tt, set_fs (<[p := Dir]> (fs w)) w).
Proof.
  intros H Hpar. rewrite mkdir_parents_unfold. unfold try_except.
  by rewrite os_mkdir_run, H, Hpar.
Qed.

(** [safe_move] into a directory that exists: the exact outcome. *)
Lemma safe_move_in_dir (w : world) (src dest : path) (f : file) :
  node_at (fs w) src = Some (File f) ->
  node_at (fs w) (parent dest) = Some Dir ->
  exists final,
    safe_move src dest w
    = (Ok final, set_fs (<[final := File f]> (delete src (fs w))) w)
    /\ node_at (fs w) final = None
    /\ parent final = parent dest.
Proof.
  intros Hsrc Hpar. unfold safe_move, bind at 1.
  rewrite mkdir_parents_dir by done.
  unfold bind at 1. rewrite path_exists_run.
  destruct (node_at (fs w) dest) as [n|] eqn:Hd.
  - rewrite bool_decide_eq_true_2 by eauto. cbn [negb].
    unfold bind at 1, gets.
    destruct (first_unused_exists (fs w) (dup_name dest) 1)
      as (N & HN & Hlt).
    { apply dup_name_inj. } { intros j. apply joinpath_ne_nil. }
    rewrite (dup_loop_spec _ src dest 1 N w f) by done.
    exists (dup_name dest N). split; [done|].
    split; [by destruct HN as (_ & ? & _)|].
    unfold dup_name. by rewrite parent_joinpath.
  - rewrite bool_decide_eq_false_2 by apply is_Some_None. cbn [negb].
    unfold bind. rewrite (os_rename_file w src dest f) by done.
    by exists dest.
Qed.

Section OrganizeOne.
Context {py : Python}.
Variable config : list (string * list string).
Variables (folder : path) (moves : list move) (errors : list error_desc).
Variables (p : path) (w : world) (f : file).
Hypothesis Hfolder : node_at (fs w) folder = Some Dir.
Hypothesis Hp : node_at (fs w) p = Some (File f).

(** The category folder is a regular file: the item fails, nothing
    changes. *)
Lemma organize_one_fails (g : file) :
  node_at (fs w) (folder </> find_category config (suffix p))
  = Some (File g) ->
  organize_one config folder (moves, errors) p w
  = (Ok (moves,
         errors
         ++ [Failed p
               (FileExistsError
                  (folder </> find_category config (suffix p)))]),
     w).
Proof.
  intros HD. unfold organize_one, try_except, bind.
  by rewrite (mkdir_parents_file _ w g).
Qed.

(** Otherwise the category folder is there or is created, and the item is
    moved into it, to a path that was unused. *)
Lemma organize_one_moves :
  ~ is_file_node
      (node_at (fs w) (folder </> find_category config (suffix p))) ->
  exists final,
    organize_one config folder (moves, errors) p w
    = (Ok (moves ++ [mkMove p final], errors),
       set_fs (<[final := File f]>
                 (delete p
                    (<[folder </> find_category config (suffix p) := Dir]>
                       (fs w)))) w)
    /\ node_at (<[folder </> find_category config (suffix p) := Dir]> (fs w))
         final = None
    /\ parent final = folder </> find_category config (suffix p).
Proof.
  set (dest_folder := folder </> find_category config (suffix p)).
  intros HD. unfold organize_one, try_except, bind at 1.
  fold dest_folder.
  assert (Hne : dest_folder <> []) by apply joinpath_ne_nil.
  assert (Hmk : mkdir_parents dest_folder w
                = (Ok tt, set_fs (<[dest_folder := Dir]> (fs w)) w)).
  { destruct (node_at (fs w) dest_folder) as [[g|]|] eqn:E.
    - by destruct HD.
    - rewrite mkdir_parents_dir by done.
      rewrite node_at_ne in E by done. rewrite insert_id by done.
      by destruct w.
    - apply mkdir_parents_new; [done|].
      unfold dest_folder. by rewrite parent_joinpath. }
  rewrite Hmk. unfold bind at 1.
  set (w1 := set_fs (<[dest_folder := Dir]> (fs w)) w).
  assert (Hp1 : node_at (fs w1) p = Some (File f)).
  { simpl. rewrite node_at_insert by done. case_decide as E; [|done].
    exfalso. apply HD. by rewrite E, Hp. }
  destruct (safe_move_in_dir w1 p (dest_folder </> name p) f)
    as (final & -> & Hfree & Hpar); [done| |].
  { rewrite parent_joinpath. simpl. rewrite node_at_insert by done.
    by rewrite decide_True. }
  rewrite parent_joinpath in Hpar. exists final. split; [done|]. done.
Qed.

End OrganizeOne.

(** ** Organising: the loop *)

Lemma organize_step_lookup (m : gmap path node) (D p final q : path)
    (f : file) :
  D <> [] -> p <> [] -> final <> [] ->
  node_at (<[final := File f]> (delete p (<[D := Dir]> m))) q
  = if decide (q = final) then Some (File f)
    else if decide (q = p) then None
    else if decide (q = D) then Some Dir else node_at m q.
Proof.
  intros HD Hp Hfinal.
  rewrite node_at_insert, node_at_delete, node_at_insert by done.
  repeat case_decide; subst; congruence.
Qed.

Lemma file_children_pending (m : gmap path node) (folder : path) :
  node_at m folder = Some Dir -> pending m folder (file_children m folder).
Proof.
  intros Hdir. split; [done|]. split; [apply NoDup_file_children|].
  intros r ([f Hf] & Hne & Hpar)%elem_of_file_children.
  rewrite node_at_ne by done. by rewrite Hf.
Qed.

Section OrganizeLoop.
Context {py : Python}.
Variable config : list (string * list string).
Variable folder : path.

(** After a move the remaining items are still pending, and every node
    that is not the moved item is where it was. *)
Lemma organize_step_frame (m : gmap path node) (p final q : path)
    (f : file) (n : node) :
  let D := folder </> find_category config (suffix p) in
  node_at m p = Some (File f) ->
  ~ is_file_node (node_at m D) ->
  node_at (<[D := Dir]> m) final = None ->
  node_at m q = Some n -> q <> p ->
  node_at (<[final := File f]> (delete p (<[D := Dir]> m))) q = Some n.
Proof.
  intros D Hp HD Hfree Hq Hqp.
  assert (HDne : D <> []) by apply joinpath_ne_nil.
  rewrite organize_step_lookup;
    [|done|by eapply node_at_File_ne|by eapply node_at_None_ne].
  rewrite node_at_insert in Hfree by done.
  assert (Hqf : q <> final).
  { intros ->. case_decide; congruence. }
  rewrite decide_False, decide_False by done.
  destruct (decide (q = D)) as [E|E]; [|done]. subst q. rewrite Hq in HD.
  destruct n; [by destruct HD|done].
Qed.

Lemma organize_step_pending (m : gmap path node) (p final : path)
    (items : list path) (f : file) :
  let D := folder </> find_category config (suffix p) in
  pending m folder (p :: items) ->
  node_at m p = Some (File f) ->
  ~ is_file_node (node_at m D) ->
  node_at (<[D := Dir]> m) final = None ->
  pending (<[final := File f]> (delete p (<[D := Dir]> m))) folder items.
Proof.
  intros D (Hdir & Hnd & Hfiles) Hp HD Hfree.
  apply NoDup_cons in Hnd as [Hpin Hnd].
  split; [|split; [done|]].
  - apply organize_step_frame; try done. intros ->. congruence.
  - intros r Hr. destruct (Hfiles r) as [Hf Hpar]; [by right|].
    split; [|done].
    destruct (node_at m r) as [[g|]|] eqn:E; try done.
    erewrite organize_step_frame; try done. by intros ->.
Qed.

Lemma organize_loop_run (items : list path) (w : world)
    (moves0 : list move) (errors0 : list error_desc) :
  pending (fs w) folder items ->
  exists moves errs m',
    for_each (organize_one config folder) items (moves0, errors0) w
    = (Ok (moves0 ++ moves, errors0 ++ errs), set_fs m' w)
    /\ organized config folder items (fs w) moves errs m'.
Proof.
  revert w moves0 errors0.
  induction items as [|p items IH]; intros w moves0 errors0 Hpend.
  - exists [], [], (fs w). rewrite !app_nil_r. split; [by destruct w|].
    constructor.
  - cbn [for_each]. unfold bind.
    destruct Hpend as (Hdir & Hnd & Hfiles).
    destruct (Hfiles p) as [Hpf Hpar]; [left|].
    destruct (node_at (fs w) p) as [[f|]|] eqn:Hp; try done.
    destruct (decide (is_file_node
                (node_at (fs w) (folder </> find_category config (suffix p)))))
      as [HD|HD].
    + destruct (node_at (fs w) (folder </> find_category config (suffix p)))
        as [[g|]|] eqn:HDg; try done.
      rewrite (organize_one_fails config folder moves0 errors0 p w g) by done.
      destruct (IH w moves0
                  (errors0
                   ++ [Failed p (FileExistsError
                          (folder </> find_category config (suffix p)))]))
        as (moves & errs & m' & -> & Horg).
      { split; [done|]. apply NoDup_cons in Hnd as [_ Hnd].
        split; [done|]. intros r Hr. apply Hfiles. by right. }
      eexists moves, _, m'. rewrite <- app_assoc. split; [reflexivity|].
      by eapply organized_fail.
    + destruct (organize_one_moves config folder moves0 errors0 p w f)
        as (final & -> & Hfree & Hfpar); [done..|].
      set (m1 := <[final := File f]>
                   (delete p
                      (<[folder </> find_category config (suffix p) := Dir]>
                         (fs w)))).
      destruct (IH (set_fs m1 w) (moves0 ++ [mkMove p final]) errors0)
        as (moves & errs & m' & -> & Horg).
      { cbn [fs set_fs]. by eapply organize_step_pending. }
      exists (mkMove p final :: moves), errs, m'. rewrite <- app_assoc.
      split; [reflexivity|]. by eapply organized_move.
Qed.

End OrganizeLoop.

(** ** Organising: what the loop guarantees *)

Lemma fmap_rev {A B} (f : A -> B) (l : list A) : f <$> rev l = rev (f <$> l).
Proof.
  induction l as [|x l IH]; [done|].
  simpl. by rewrite fmap_app, IH.
Qed.

Section Organized.
Context {py : Python}.
Variable config : list (string * list string).
Variable folder : path.

Lemma organized_length items m moves errs m' :
  organized config folder items m moves errs m' ->
  length moves + length errs = length items.
Proof. induction 1; simpl; lia. Qed.

(** A node that is not among the items stays where it is. *)
Lemma organized_keeps items m moves errs m' :
  organized config folder items m moves errs m' ->
  forall q n, node_at m q = Some n -> q ∉ items -> node_at m' q = Some n.
Proof.
  induction 1 as [m|p items m g moves errs m' HD _ IH
                 |p items m f final moves errs m' Hp HD Hfree Hpar _ IH];
    intros q n Hq Hin.
  - done.
  - apply IH; [done|]. intros ?. apply Hin. by right.
  - apply IH; [|intros ?; apply Hin; by right].
    apply organize_step_frame; try done. intros ->. apply Hin. left.
Qed.

Lemma organized_errors items m moves errs m' :
  pending m folder items ->
  organized config folder items m moves errs m' ->
  forall err, err ∈ errs ->
    exists p e, err = Failed p e /\ p ∈ items
                /\ node_at m' p = node_at m p.
Proof.
  intros Hpend Horg. revert Hpend.
  induction Horg as [m|p items m g moves errs m' HD Horg IH
                    |p items m f final moves errs m' Hp HD Hfree Hpar Horg IH];
    intros Hpend err Hin.
  - by apply elem_of_nil in Hin.
  - destruct Hpend as (Hdir & Hnd & Hfiles).
    apply NoDup_cons in Hnd as [Hpin Hnd].
    apply elem_of_cons in Hin as [->|Hin].
    + eexists p, _. split; [done|]. split; [left|].
      destruct (Hfiles p) as [Hf _]; [left|].
      destruct (node_at m p) as [n|] eqn:E; [|done].
      by eapply organized_keeps.
    + destruct (IH) with (err := err) as (q & e & -> & Hq & Hsame); [|done|].
      { split; [done|]. split; [done|]. intros r Hr. apply Hfiles. by right. }
      exists q, e. split; [done|]. split; [by right|done].
  - pose proof (organize_step_pending config folder m p final items f
                  Hpend Hp HD Hfree) as Hpend'.
    destruct (IH Hpend' err Hin) as (q & e & -> & Hq & Hsame).
    exists q, e. split; [done|]. split; [by right|].
    rewrite Hsame. destruct Hpend as (Hdir & Hnd & Hfiles).
    apply NoDup_cons in Hnd as [Hpin Hnd].
    destruct (Hfiles q) as [Hf _]; [by right|].
    destruct (node_at m q) as [n|] eqn:E; [|done].
    apply organize_step_frame; try done. by intros ->.
Qed.

Lemma organized_moves items m moves errs m' :
  pending m folder items ->
  organized config folder items m moves errs m' ->
  forall mv, mv ∈ moves ->
    orig mv ∈ items
    /\ exists f, node_at m (orig mv) = Some (File f)
                 /\ node_at m' (new mv) = Some (File f).
Proof.
  intros Hpend Horg. revert Hpend.
  induction Horg as [m|p items m g moves errs m' HD Horg IH
                    |p items m f final moves errs m' Hp HD Hfree Hpar Horg IH];
    intros Hpend mv Hin.
  - by apply elem_of_nil in Hin.
  - destruct Hpend as (Hdir & Hnd & Hfiles).
    apply NoDup_cons in Hnd as [Hpin Hnd].
    destruct (IH) with (mv := mv) as (Hq & f & Hf & Hnew); [|done|].
    { split; [done|]. split; [done|]. intros r Hr. apply Hfiles. by right. }
    split; [by right|]. by exists f.
  - pose proof (organize_step_pending config folder m p final items f
                  Hpend Hp HD Hfree) as Hpend'.
    assert (HDne : folder </> find_category config (suffix p) <> [])
      by apply joinpath_ne_nil.
    apply elem_of_cons in Hin as [->|Hin].
    + simpl. split; [left|]. exists f. split; [done|].
      eapply organized_keeps; [done| |].
      * rewrite organize_step_lookup;
          [|done|by eapply node_at_File_ne|by eapply node_at_None_ne].
        by rewrite decide_True.
      * intros Hin. destruct Hpend' as (_ & _ & Hfiles).
        destruct (Hfiles final Hin) as [Hf _].
        rewrite organize_step_lookup in Hf;
          [|done|by eapply node_at_File_ne|by eapply node_at_None_ne].
        rewrite decide_True in Hf by done.
        destruct Hpend as (_ & Hnd & Hfiles').
        destruct (Hfiles' final) as [Hf' _]; [by right|].
        rewrite node_at_insert in Hfree by done.
        destruct (decide (_ = final)); [done|]. by rewrite Hfree in Hf'.
    + destruct (IH Hpend' mv Hin) as (Hq & g & Hg & Hnew).
      split; [by right|]. exists g. split; [|done].
      destruct Hpend as (Hdir & Hnd & Hfiles).
      apply NoDup_cons in Hnd as [Hpin Hnd].
      destruct (Hfiles (orig mv)) as [Hf _]; [by right|].
      destruct (node_at m (orig mv)) as [n|] eqn:E; [|done].
      erewrite organize_step_frame in Hg; [done..|]. by intros <-.
Qed.

(** No file is moved to a path that was taken and is not an item. *)
Lemma organized_new_fresh items m moves errs m' :
  organized config folder items m moves errs m' ->
  forall q, is_Some (node_at m q) -> q ∉ items ->
    forall mv, mv ∈ moves -> new mv <> q.
Proof.
  induction 1 as [m|p items m g moves errs m' HD _ IH
                 |p items m f final moves errs m' Hp HD Hfree Hpar _ IH];
    intros q [n Hq] Hin mv Hmv.
  - by apply elem_of_nil in Hmv.
  - apply (IH q); [by exists n| |done]. intros ?. apply Hin. by right.
  - assert (Hq2 : node_at
                    (<[final := File f]>
                       (delete p
                          (<[folder </> find_category config (suffix p)
                             := Dir]> m))) q = Some n).
    { apply organize_step_frame; try done. intros ->. apply Hin. left. }
    apply elem_of_cons in Hmv as [->|Hmv].
    + simpl. intros ->.
      rewrite organize_step_lookup in Hq2;
        [|apply joinpath_ne_nil|by eapply node_at_File_ne
         |by eapply node_at_None_ne].
      rewrite node_at_insert in Hfree by apply joinpath_ne_nil.
      destruct (decide (_ = q)) as [E|E]; [done|]. congruence.
    + apply (IH q); [by exists n| |done]. intros ?. apply Hin. by right.
Qed.

Lemma organized_new_NoDup items m moves errs m' :
  pending m folder items ->
  organized config folder items m moves errs m' ->
  NoDup (new <$> moves).
Proof.
  intros Hpend Horg. revert Hpend.
  induction Horg as [m|p items m g moves errs m' HD Horg IH
                    |p items m f final moves errs m' Hp HD Hfree Hpar Horg IH];
    intros Hpend.
  - constructor.
  - apply IH. destruct Hpend as (Hdir & Hnd & Hfiles).
    apply NoDup_cons in Hnd as [_ Hnd]. split; [done|]. split; [done|].
    intros r Hr. apply Hfiles. by right.
  - pose proof (organize_step_pending config folder m p final items f
                  Hpend Hp HD Hfree) as Hpend'.
    rewrite fmap_cons. apply NoDup_cons. split; [|by apply IH].
    intros (mv & E & Hmv)%list_elem_of_fmap. simpl in E.
    apply (organized_new_fresh _ _ _ _ _ Horg final) with (mv := mv);
      [| |done|done].
    + rewrite organize_step_lookup;
        [|apply joinpath_ne_nil|by eapply node_at_File_ne
         |by eapply node_at_None_ne].
      rewrite decide_True by done. by eexists.
    + intros Hin. destruct Hpend as (_ & _ & Hfiles).
      destruct (Hfiles final) as [Hf _]; [by right|].
      rewrite node_at_insert in Hfree by apply joinpath_ne_nil.
      destruct (decide (_ = final)) as [E'|E']; [done|].
      by rewrite Hfree in Hf.
Qed.

(** After the loop every record can be undone. *)
Lemma organized_restorable items m moves errs m' :
  pending m folder items ->
  organized config folder items m moves errs m' ->
  restorable m' (rev moves).
Proof.
  intros Hpend Horg. split.
  - rewrite fmap_rev. apply NoDup_ListNoDup, List.NoDup_rev, NoDup_ListNoDup.
    by eapply organized_new_NoDup.
  - intros mv Hmv.
    assert (Hin : mv ∈ moves).
    { apply list_elem_of_In, in_rev. by apply list_elem_of_In. }
    destruct (organized_moves _ _ _ _ _ Hpend Horg mv Hin)
      as (Horig & f & Hf & Hnew).
    destruct Hpend as (Hdir & _ & Hfiles).
    destruct (Hfiles _ Horig) as [_ Hpar].
    split; [by rewrite Hnew|]. split; [by eapply node_at_File_ne|].
    rewrite Hpar. eapply organized_keeps; [done..|].
    intros Hfolder. destruct (Hfiles _ Hfolder) as [Hff _].
    by rewrite Hdir in Hff.
Qed.

(** The records are in the order of the items. *)
Lemma organized_order items m moves errs m' :
  organized config folder items m moves errs m' ->
  sublist (orig <$> moves) items.
Proof.
  induction 1; simpl; [constructor|by apply sublist_cons|].
  by apply sublist_skip.
Qed.

Lemma organized_covers items m moves errs m' :
  organized config folder items m moves errs m' ->
  forall p, p ∈ items ->
    (exists final, mkMove p final ∈ moves) \/ (exists e, Failed p e ∈ errs).
Proof.
  induction 1 as [m|p items m g moves errs m' HD _ IH
                 |p items m f final moves errs m' Hp HD Hfree Hpar _ IH];
    intros q Hq.
  - by apply elem_of_nil in Hq.
  - apply elem_of_cons in Hq as [->|Hq].
    + right. eexists. left.
    + destruct (IH q Hq) as [[final ?]|[e ?]].
      * left. by exists final.
      * right. exists e. by right.
  - apply elem_of_cons in Hq as [->|Hq].
    + left. exists final. left.
    + destruct (IH q Hq) as [[final' ?]|[e ?]].
      * left. exists final'. by right.
      * right. by exists e.
Qed.

End Organized.

Section Organize.
Context {py : Python}.
Variable config : list (string * list string).

Lemma organize_folder_run (w : world) (folder : path) :
  node_at (fs w) folder = Some Dir ->
  exists moves errs m',
    organized config folder (file_children (fs w) folder) (fs w)
      moves errs m'
    /\ organize_folder config folder w
       = (Ok (length moves, errs),
          match moves with
          | [] => set_fs m' w
          | _ => set_undo_file (Journal (clock w) moves) (set_fs m' w)
          end).
Proof.
  intros Hdir.
  destruct (organize_loop_run config folder (file_children (fs w) folder)
              w [] []) as (moves & errs & m' & Hrun & Horg).
  { by apply file_children_pending. }
  exists moves, errs, m'. split; [done|].
  unfold organize_folder, bind at 1, try_except, bind at 1.
  rewrite iterdir_run by done. unfold bind at 1. rewrite only_files_run.
  fold (file_children (fs w) folder). rewrite Hrun. simpl.
  unfold bind. by destruct moves.
Qed.

(** C3.  On a directory, [organize_folder] goes through every regular
    file directly inside it: each one is either moved, and recorded, or
    reported in the error list, and there are as many records and reports
    as files.  A file whose move failed is where it was, with what it
    held; a file that was moved is found, with what it held, at the new
    path of its record.  The records are in the order in which the files
    were listed.  The journal is written if and only if a move succeeded,
    and then holds every record; otherwise the journal file is as it
    was.  The call returns the number
    of records and the error list. *)
Theorem organize_folder_best_effort (w : world) (folder : path) :
  node_at (fs w) folder = Some Dir ->
  exists moves errs w',
    organize_folder config folder w = (Ok (length moves, errs), w')
    /\ length moves + length errs = length (file_children (fs w) folder)
    /\ (forall p, p ∈ file_children (fs w) folder ->
          (exists final, mkMove p final ∈ moves)
          \/ (exists e, Failed p e ∈ errs))
    /\ (forall err, err ∈ errs ->
          exists p e, err = Failed p e
                      /\ p ∈ file_children (fs w) folder
                      /\ node_at (fs w') p = node_at (fs w) p)
    /\ (forall mv, mv ∈ moves ->
          orig mv ∈ file_children (fs w) folder
          /\ exists f, node_at (fs w) (orig mv) = Some (File f)
                       /\ node_at (fs w') (new mv) = Some (File f))
    /\ sublist (orig <$> moves) (file_children (fs w) folder)
    /\ (moves = [] -> undo_file w' = undo_file w)
    /\ (moves <> [] -> undo_file w' = Journal (clock w) moves).
Proof.
  intros Hdir.
  destruct (organize_folder_run w folder Hdir)
    as (moves & errs & m' & Horg & Hrun).
  pose proof (file_children_pending (fs w) folder Hdir) as Hpend.
  eexists moves, errs, _. split; [exact Hrun|].
  assert (Hfs : fs match moves with
                   | [] => set_fs m' w
                   | _ => set_undo_file (Journal (clock w) moves)
                            (set_fs m' w)
                   end = m') by by destruct moves.
  rewrite Hfs.
  split; [by eapply organized_length|].
  split; [by eapply organized_covers|].
  split; [by eapply organized_errors|].
  split; [by eapply organized_moves|].
  split; [by eapply organized_order|].
  split; [by intros ->|]. by destruct moves.
Qed.

End Organize.

Lemma organize_folder_best_effort_witness :
  exists errs w',
    organize_folder sample_config ["b"] blocked_world = (Ok (1, errs), w')
    /\ length errs = 3
    /\ undo_file w' = Journal 1000 [mkMove ["b"; "b.jpg"]
                                           ["b"; "IMAGES"; "b.jpg"]].
Proof.
  destruct (organize_folder_best_effort sample_config blocked_world ["b"])
    as (moves & errs & w' & Hrun & Hlen & _ & _ & _ & _ & _ & Hj).
  - vm_compute. reflexivity.
  - clear Hlen Hj. remember (length moves) as n eqn:Hn.
    assert (H : fst (organize_folder sample_config ["b"] blocked_world)
                = Ok (n, errs)) by (by rewrite Hrun).
    assert (Hw : undo_file (snd (organize_folder sample_config ["b"]
                                   blocked_world)) = undo_file w')
      by (by rewrite Hrun).
    vm_compute in H. vm_compute in Hw.
    injection H as H1 He. exists errs, w'. rewrite Hrun, <- H1.
    split; [reflexivity|]. split; [by rewrite <- He|].
    symmetry. exact Hw.
Defined.

(** ** Organise, then undo *)

Section RoundTrip.
Context {py : Python}.
Variable config : list (string * list string).
Variable folder : path.
Variable C : path -> Prop.

Lemma undo_after_organize items m moves errs m' :
  organized config folder items m moves errs m' ->
  pending m folder items ->
  (forall p, p ∈ items -> C (folder </> find_category config (suffix p))) ->
  (forall p, p ∈ items -> ~ C p) ->
  forall mU w restored errors,
    dirs_beside C m' mU ->
    exists mU',
      for_each undo_one (rev moves) (restored, errors) (set_fs mU w)
      = (Ok (restored + length moves, errors), set_fs mU' w)
      /\ dirs_beside C m mU'.
Proof.
  induction 1 as [m|p items m g moves errs m' HD Horg IH
                 |p items m f final moves errs m' Hp HD Hfree Hpar Horg IH];
    intros Hpend HC HnC mU w restored errors Hbeside.
  - exists mU. simpl. by rewrite Nat.add_0_r.
  - apply IH; try done.
    + destruct Hpend as (Hdir & Hnd & Hfiles).
      apply NoDup_cons in Hnd as [_ Hnd]. split; [done|]. split; [done|].
      intros r Hr. apply Hfiles. by right.
    + intros r Hr. apply HC. by right.
    + intros r Hr. apply HnC. by right.
  - pose proof (organize_step_pending config folder m p final items f
                  Hpend Hp HD Hfree) as Hpend'.
    set (D := folder </> find_category config (suffix p)) in *.
    set (m2 := <[final := File f]> (delete p (<[D := Dir]> m))) in *.
    destruct (IH Hpend') with (mU := mU) (w := w) (restored := restored)
                             (errors := errors)
      as (mU1 & Hrun & Hb1); [| |done|].
    { intros r Hr. apply HC. by right. }
    { intros r Hr. apply HnC. by right. }
    assert (HDne : D <> []) by apply joinpath_ne_nil.
    assert (Hpne : p <> []) by by eapply node_at_File_ne.
    assert (Hfne : final <> []) by by eapply node_at_None_ne.
    assert (Hm2 : forall q,
              node_at m2 q
              = if decide (q = final) then Some (File f)
                else if decide (q = p) then None
                else if decide (q = D) then Some Dir else node_at m q)
      by (intros q; by apply organize_step_lookup).
    assert (Hpf : p <> final).
    { intros <-. rewrite node_at_insert in Hfree by done.
      destruct (decide (D = p)); congruence. }
    assert (Hm_final : node_at m final = None /\ final <> D).
    { rewrite node_at_insert in Hfree by done.
      destruct (decide (D = final)); [done|]. split; [done|congruence]. }
    destruct Hm_final as [Hm_final HfD].
    assert (HU_final : node_at mU1 final = Some (File f)).
    { destruct (Hb1 final) as [->|[Hn _]].
      - by rewrite Hm2, decide_True.
      - by rewrite Hm2, decide_True in Hn. }
    assert (HU_p : node_at mU1 p = None).
    { destruct (Hb1 p) as [->|(_ & _ & HCp)].
      - by rewrite Hm2, decide_False, decide_True.
      - destruct (HnC p); [left|done]. }
    assert (HU_folder : node_at mU1 (parent p) = Some Dir).
    { destruct Hpend as (Hdir & _ & Hfiles).
      destruct (Hfiles p) as [_ ->]; [left|].
      destruct Hpend' as (Hdir' & _).
      destruct (Hb1 folder) as [->|[Hn _]]; [done|congruence]. }
    exists (<[p := File f]> (delete final mU1)).
    simpl rev. rewrite for_each_app. unfold bind at 1. rewrite Hrun.
    cbn [for_each]. unfold bind.
    rewrite (undo_one_direct _ _ (mkMove p final) (set_fs mU1 w) f) by done.
    cbn [orig new fs set_fs]. unfold ret. split.
    { simpl. by rewrite Nat.add_succ_r. }
    intros q. rewrite (moved_lookup mU1 final p q f) by done.
    destruct (decide (q = p)) as [->|Hqp]; [by left|].
    destruct (decide (q = final)) as [->|Hqf]; [left; congruence|].
    destruct (Hb1 q) as [Hq|(Hq & Hdq & HCq)].
    + rewrite Hq, Hm2, decide_False, decide_False by done.
      destruct (decide (q = D)) as [->|HqD]; [|by left].
      destruct (node_at m D) as [[g|]|] eqn:E.
      * by destruct HD.
      * by left.
      * right. split; [done|]. split; [congruence|]. apply HC. left.
    + right. rewrite Hm2, decide_False, decide_False in Hq by done.
      destruct (decide (q = D)); [done|]. done.
Qed.

End RoundTrip.

(** ** Undoing records that can all be undone *)

Lemma undo_one_restores (U : gmap path node) (w : world) (mv : move)
    (restored : nat) (errors : list error_desc) (f : file) :
  node_at U (new mv) = Some (File f) ->
  orig mv <> [] ->
  node_at U (parent (orig mv)) = Some Dir ->
  exists t,
    undo_one (restored, errors) mv (set_fs U w)
    = (Ok (S restored, errors),
       set_fs (<[t := File f]> (delete (new mv) U)) w)
    /\ node_at U t = None
    /\ (t = orig mv \/ exists N, 1 <= N /\ t = restored_name (orig mv) N).
Proof.
  intros Hnew Hne Hpar.
  destruct (node_at U (orig mv)) as [n|] eqn:Horig.
  - destruct (first_unused_exists U (restored_name (orig mv)) 1
                (restored_name_inj (orig mv))
                (fun j => joinpath_ne_nil _ _)) as (N & HN & _).
    exists (restored_name (orig mv) N).
    assert (Hocc : is_Some (node_at U (orig mv))) by (by rewrite Horig).
    rewrite (undo_one_alternate restored errors mv (set_fs U w) f N) by done.
    split; [done|]. destruct HN as (H1 & Hfree & _). split; [done|].
    right. by exists N.
  - exists (orig mv).
    rewrite (undo_one_direct restored errors mv (set_fs U w) f) by done.
    split; [done|]. split; [done|]. by left.
Qed.

Lemma undo_restorable (l : list move) :
  forall U w restored errors,
    restorable U l ->
    exists U',
      for_each undo_one l (restored, errors) (set_fs U w)
      = (Ok (restored + length l, errors), set_fs U' w)
      /\ (forall mv f, mv ∈ l -> node_at U (new mv) = Some (File f) ->
            node_at U' (orig mv) = Some (File f)
            \/ exists N, 1 <= N
                  /\ node_at U' (restored_name (orig mv) N) = Some (File f))
      /\ (forall q n, node_at U q = Some n -> q ∉ new <$> l ->
            node_at U' q = Some n).
Proof.
  induction l as [|mv l IH]; intros U w restored errors [Hnd Hall].
  - exists U. simpl. rewrite Nat.add_0_r. split; [done|].
    split; [|done]. intros mv f Hin. by apply elem_of_nil in Hin.
  - rewrite fmap_cons in Hnd. apply NoDup_cons in Hnd as [Hfresh Hnd].
    destruct (Hall mv) as (Hf & Hne & Hpar); [left|].
    destruct (node_at U (new mv)) as [[f|]|] eqn:Hnew; try done.
    destruct (undo_one_restores U w mv restored errors f Hnew Hne Hpar)
      as (t & Hstep & Hfree & Ht).
    set (U1 := <[t := File f]> (delete (new mv) U)) in *.
    assert (HU1 : forall q,
              node_at U1 q
              = if decide (q = t) then Some (File f)
                else if decide (q = new mv) then None else node_at U q)
      by (intros q; by apply moved_lookup).
    assert (Hkeep : forall q n,
              node_at U q = Some n -> q <> new mv -> node_at U1 q = Some n).
    { intros q n Hq Hqn. rewrite HU1, decide_False, decide_False; [done..|].
      intros ->. congruence. }
    destruct (IH U1 w (S restored) errors) as (U' & Hrun & Hback & Hframe).
    { split; [done|]. intros mv' Hin.
      destruct (Hall mv') as (Hf' & Hne' & Hpar'); [by right|].
      assert (Hnn : new mv' <> new mv).
      { intros E. apply Hfresh. rewrite <- E.
        apply list_elem_of_fmap. by exists mv'. }
      destruct (node_at U (new mv')) as [[f'|]|] eqn:Hnew'; try done.
      split; [by rewrite (Hkeep _ _ Hnew' Hnn)|]. split; [done|].
      apply Hkeep; [done|]. intros E. congruence. }
    exists U'. cbn [for_each]. unfold bind. rewrite Hstep, Hrun.
    split; [simpl; by rewrite Nat.add_succ_r|]. split.
    + intros mv' f' Hin Hnew'. apply elem_of_cons in Hin as [->|Hin].
      * assert (f' = f) as -> by congruence.
        assert (Ht' : node_at U' t = Some (File f)).
        { apply Hframe; [by rewrite HU1, decide_True|].
          intros (mv' & E & Hin)%list_elem_of_fmap.
          destruct (Hall mv') as (Hf' & _); [by right|].
          rewrite <- E, Hfree in Hf'. done. }
        destruct Ht as [->|(N & HN & ->)]; [by left|right; by exists N].
      * apply Hback; [done|]. apply Hkeep; [done|].
        intros E. apply Hfresh. rewrite <- E.
        apply list_elem_of_fmap. by exists mv'.
    + intros q n Hq Hqn. apply Hframe.
      * apply Hkeep; [done|]. intros ->. apply Hqn. rewrite fmap_cons. left.
      * intros Hin. apply Hqn. rewrite fmap_cons. by right.
Qed.

Lemma undo_records_last_first (moves : list move) (m : move) (w : world) :
  undo_records (moves ++ [m]) w
  = (let* st := undo_one (0, []) m in for_each undo_one (rev moves) st) w.
Proof. unfold undo_records. by rewrite rev_app_distr. Qed.

Lemma dirs_beside_files (C : path -> Prop) (m mU : gmap path node)
    (q : path) (f : file) :
  dirs_beside C m mU ->
  node_at mU q = Some (File f) <-> node_at m q = Some (File f).
Proof.
  intros H. destruct (H q) as [->|(Hn & Hd & _)]; [done|].
  rewrite Hn, Hd. split; done.
Qed.

Section UndoAfterOrganize.
Context {py : Python}.
Variable config : list (string * list string).

Lemma organize_then_undo (w : world) (folder : path) :
  node_at (fs w) folder = Some Dir ->
  no_name_clash config (fs w) folder ->
  forall n errs w1,
    organize_folder config folder w = (Ok (n, errs), w1) ->
    0 < n ->
    exists w2,
      undo_last_operation w1
      = (Ok (n, "Restored " +:+ pretty n +:+ " files."), w2)
      /\ undo_file w2 = Absent
      /\ dirs_beside (category_folder config (fs w) folder) (fs w) (fs w2).
Proof.
  intros Hdir Hclash n errs w1 Hrun Hn.
  destruct (organize_folder_run config w folder Hdir)
    as (moves & errs' & m' & Horg & Hrun').
  rewrite Hrun in Hrun'. injection Hrun' as -> -> ->.
  destruct moves as [|mv moves]; [simpl in Hn; lia|].
  set (J := Journal (clock w) (mv :: moves)).
  destruct (undo_after_organize config folder
              (category_folder config (fs w) folder)
              (file_children (fs w) folder) (fs w) (mv :: moves) errs' m'
              Horg)
    with (mU := m') (w := set_undo_file J (set_fs m' w))
         (restored := 0) (errors := @nil error_desc)
    as (mU' & Hundo & Hbeside).
  - by apply file_children_pending.
  - intros p Hp. by exists p.
  - intros p Hp (r & Hr & ->).
    unfold no_name_clash in Hclash. rewrite Forall_forall in Hclash.
    specialize (Hclash _ Hp). rewrite Forall_forall in Hclash.
    by apply (Hclash r Hr).
  - intros q. by left.
  - change (set_fs m' (set_undo_file J (set_fs m' w)))
      with (set_undo_file J (set_fs m' w)) in Hundo.
    fold J. eexists. unfold undo_last_operation, bind at 1, load_undo, gets.
    cbn [undo_file set_undo_file J]. unfold bind at 1, undo_records.
    fold J. rewrite Hundo. unfold bind, modify, ret.
    split; [reflexivity|]. split; [done|]. exact Hbeside.
Qed.

Lemma organize_then_undo_all (w : world) (folder : path) :
  node_at (fs w) folder = Some Dir ->
  forall n errs w1,
    organize_folder config folder w = (Ok (n, errs), w1) ->
    0 < n ->
    exists moves w2,
      undo_file w1 = Journal (clock w) moves /\ length moves = n
      /\ undo_last_operation w1
         = (Ok (n, "Restored " +:+ pretty n +:+ " files."), w2)
      /\ undo_file w2 = Absent
      /\ forall mv, mv ∈ moves ->
           exists f,
             node_at (fs w) (orig mv) = Some (File f)
             /\ (node_at (fs w2) (orig mv) = Some (File f)
                 \/ exists N, 1 <= N
                       /\ node_at (fs w2) (restored_name (orig mv) N)
                          = Some (File f)).
Proof.
  intros Hdir n errs w1 Hrun Hn.
  destruct (organize_folder_run config w folder Hdir)
    as (moves & errs' & m' & Horg & Hrun').
  rewrite Hrun in Hrun'. injection Hrun' as -> -> ->.
  pose proof (file_children_pending (fs w) folder Hdir) as Hpend.
  pose proof (organized_restorable _ _ _ _ _ _ _ Hpend Horg) as Hrest.
  destruct moves as [|mv moves]; [simpl in Hn; lia|].
  set (J := Journal (clock w) (mv :: moves)).
  destruct (undo_restorable (rev (mv :: moves)) m'
              (set_undo_file J (set_fs m' w)) 0 [] Hrest)
    as (U' & Hundo & Hback & _).
  change (set_fs m' (set_undo_file J (set_fs m' w)))
    with (set_undo_file J (set_fs m' w)) in Hundo.
  rewrite length_rev in Hundo.
  exists (mv :: moves). eexists. split; [done|]. split; [done|].
  fold J. unfold undo_last_operation, bind at 1, load_undo, gets.
  cbn [undo_file set_undo_file J]. unfold bind at 1, undo_records.
  fold J. rewrite Hundo. unfold bind, modify, ret.
  split; [reflexivity|]. split; [done|]. cbn [fs set_fs set_undo_file].
  intros mv' Hin.
  destruct (organized_moves _ _ _ _ _ _ _ Hpend Horg mv' Hin)
    as (_ & f & Hf & Hnew).
  exists f. split; [done|]. apply Hback; [|done].
  apply list_elem_of_In, in_rev. rewrite rev_involutive.
  by apply list_elem_of_In.
Qed.

Lemma organized_none (folder : path) items m errs m' :
  organized config folder items m [] errs m' -> m' = m.
Proof.
  intros H. remember [] as moves eqn:Hm.
  induction H as [m|p items m g moves errs m' HD _ IH|]; [done| |done].
  by apply IH.
Qed.

Lemma organize_folder_none (w : world) (folder : path) errs w1 :
  node_at (fs w) folder = Some Dir ->
  organize_folder config folder w = (Ok (0, errs), w1) -> w1 = w.
Proof.
  intros Hdir Hrun.
  destruct (organize_folder_run config w folder Hdir)
    as (moves & errs' & m' & Horg & Hrun').
  rewrite Hrun in Hrun'. injection Hrun' as Hlen -> ->.
  destruct moves; [|done].
  apply organized_none in Horg. subst m'. by destruct w.
Qed.

(** C4, as amended.  Undo takes the records of the journal last first.
    A record whose file is still at its new path, the directory of the
    original path being there, is restored: to the original path when
    nothing is there, and otherwise to the first unused [_restored{N}]
    name beside it, N counting from 1, whatever occupies the original
    path being left alone.  Undo right after an organise run that moved
    something restores every moved file in one of these two ways: it
    reports as many files as were moved and no error, and the journal is
    gone.  When moreover the category names are plain names and no file
    of the directory bears the name of a category folder, every regular
    file is back where it was with what it held, the category folders
    being all that is new.  An organise run that moved nothing leaves
    the world as it was, the journal file included, so that the undo
    that follows acts on whatever journal was there before. *)
Theorem organize_undo_round_trip :
  (forall moves m w,
     undo_records (moves ++ [m]) w
     = (let* st := undo_one (0, []) m in for_each undo_one (rev moves) st) w)
  /\ (forall w m restored errors f,
       node_at (fs w) (new m) = Some (File f) ->
       node_at (fs w) (parent (orig m)) = Some Dir ->
       orig m <> [] ->
       (node_at (fs w) (orig m) = None ->
        undo_one (restored, errors) m w
        = (Ok (S restored, errors),
           set_fs (<[orig m := File f]> (delete (new m) (fs w))) w))
       /\ (is_Some (node_at (fs w) (orig m)) ->
           exists N,
             first_unused (fs w) (restored_name (orig m)) 1 N
             /\ undo_one (restored, errors) m w
                = (Ok (S restored, errors),
                   set_fs (<[restored_name (orig m) N := File f]>
                             (delete (new m) (fs w))) w)
             /\ (orig m <> new m ->
                 node_at (<[restored_name (orig m) N := File f]>
                            (delete (new m) (fs w))) (orig m)
                 = node_at (fs w) (orig m))))
  /\ (forall w folder n errs w1,
       node_at (fs w) folder = Some Dir ->
       organize_folder config folder w = (Ok (n, errs), w1) ->
       0 < n ->
       exists moves w2,
         undo_file w1 = Journal (clock w) moves /\ length moves = n
         /\ undo_last_operation w1
            = (Ok (n, "Restored " +:+ pretty n +:+ " files."), w2)
         /\ undo_file w2 = Absent
         /\ (forall mv, mv ∈ moves ->
               exists f,
                 node_at (fs w) (orig mv) = Some (File f)
                 /\ (node_at (fs w2) (orig mv) = Some (File f)
                     \/ exists N, 1 <= N
                           /\ node_at (fs w2) (restored_name (orig mv) N)
                              = Some (File f)))
         /\ (plain_categories config ->
             no_name_clash config (fs w) folder ->
             (forall q f,
                node_at (fs w2) q = Some (File f)
                <-> node_at (fs w) q = Some (File f))
             /\ dirs_beside (category_folder config (fs w) folder)
                  (fs w) (fs w2)))
  /\ (forall w folder errs w1,
       node_at (fs w) folder = Some Dir ->
       organize_folder config folder w = (Ok (0, errs), w1) ->
       w1 = w).
Proof.
  split; [apply undo_records_last_first|]. split; [|split].
  - intros w m restored errors f Hnew Hpar Hne. split.
    + intros Hfree. by apply undo_one_direct.
    + intros Hocc.
      destruct (first_unused_exists (fs w) (restored_name (orig m)) 1
                  (restored_name_inj (orig m))
                  (fun j => joinpath_ne_nil _ _)) as (N & HN & _).
      exists N. split; [done|]. split; [by apply undo_one_alternate|].
      intros Hon. rewrite (moved_lookup (fs w) (new m) _ (orig m) f);
        [|done|by destruct HN as (_ & ? & _)].
      destruct HN as (_ & Hfree & _).
      rewrite decide_False, decide_False; [done|done|].
      intros E. rewrite <- E in Hfree. rewrite Hfree in Hocc.
      by destruct Hocc.
  - intros w folder n errs w1 Hdir Hrun Hn.
    destruct (organize_then_undo_all w folder Hdir n errs w1 Hrun Hn)
      as (moves & w2 & Hj & Hlen & Hundo & Hgone & Hback).
    exists moves, w2. do 5 (split; [done|]).
    intros _ Hclash.
    destruct (organize_then_undo w folder Hdir Hclash n errs w1 Hrun Hn)
      as (w2' & Hundo' & _ & Hbeside).
    rewrite Hundo in Hundo'. injection Hundo' as <-.
    split; [|done]. intros q f. by eapply dirs_beside_files.
  - intros w folder errs w1. apply organize_folder_none.
Qed.

End UndoAfterOrganize.

Lemma sample_config_plain : plain_categories sample_config.
Proof.
  unfold plain_categories. refine (bool_decide_eq_true_1 _ _).
  vm_compute. reflexivity.
Qed.

Lemma organize_undo_round_trip_witness :
  (exists w2,
     undo_last_operation
       (snd (organize_folder sample_config ["d"] sample_world))
     = (Ok (3, "Restored 3 files."), w2)
     /\ node_at (fs w2) ["d"; "a.txt"] = Some (File (plain "alpha" 10))
     /\ node_at (fs w2) ["d"; "DOCS"; "a_dup2.txt"] = None)
  /\ snd (organize_folder sample_config ["e"] leftover_world)
     = leftover_world.
Proof.
  split.
  - destruct (proj1 (proj2 (proj2 (organize_undo_round_trip sample_config)))
                sample_world ["d"] 3 []
                (snd (organize_folder sample_config ["d"] sample_world)))
      as (moves & w2 & _ & _ & Hundo & _ & _ & Hexact).
    + vm_compute. reflexivity.
    + vm_compute. reflexivity.
    + lia.
    + destruct Hexact as [Hfiles Hbeside].
      { apply sample_config_plain. }
      { unfold no_name_clash. refine (bool_decide_eq_true_1 _ _).
        vm_compute. reflexivity. }
      exists w2. split; [|split].
      * rewrite Hundo. vm_compute. reflexivity.
      * apply Hfiles. vm_compute. reflexivity.
      * destruct (Hbeside ["d"; "DOCS"; "a_dup2.txt"])
          as [->|(_ & _ & Hcat)].
        -- vm_compute. reflexivity.
        -- exfalso. destruct Hcat as (r & _ & Hr).
           apply (f_equal length) in Hr. unfold joinpath in Hr.
           rewrite length_app in Hr. simpl in Hr. lia.
  - apply (proj2 (proj2 (proj2 (organize_undo_round_trip sample_config)))
             leftover_world ["e"] []).
    + vm_compute. reflexivity.
    + vm_compute. reflexivity.
Defined.

(** C4, as stated, fails when the organise run moves nothing while the
    journal of an earlier run is still there: organising the empty
    directory [e] writes no journal, and the undo that follows replays
    the older journal, taking [c.xyz] out of [d/OTHERS]; what comes after
    the two calls is not what was there before them. *)
Lemma organize_nothing_then_undo :
  organize_folder sample_config ["e"] leftover_world
  = (Ok (0, []), leftover_world)
  /\ fst (undo_last_operation leftover_world) = Ok (1, "Restored 1 files.")
  /\ node_at (fs leftover_world) ["d"; "OTHERS"; "c.xyz"]
     = Some (File (plain "gamma" 30))
  /\ node_at (fs (snd (undo_last_operation leftover_world)))
       ["d"; "OTHERS"; "c.xyz"] = None
  /\ node_at (fs leftover_world) ["d"; "c.xyz"] = None
  /\ node_at (fs (snd (undo_last_operation leftover_world))) ["d"; "c.xyz"]
     = Some (File (plain "gamma" 30)).
Proof. repeat split; vm_compute; reflexivity. Qed.

(** Without the proviso on names the round trip is not exact: [zz] is
    moved to [OTHERS], the folder [zz] is then created for [a.txt], and
    undo finds a directory where [zz] was; the file comes back as
    [zz_restored1]. *)
Example name_clash_restores_beside :
  file_children (fs clash_world) ["c"] = [["c"; "zz"]; ["c"; "a.txt"]]
  /\ exists w1 w2,
       organize_folder clash_config ["c"] clash_world = (Ok (2, []), w1)
       /\ undo_last_operation w1 = (Ok (2, "Restored 2 files."), w2)
       /\ node_at (fs w2) ["c"; "a.txt"] = Some (File (plain "alpha" 10))
       /\ node_at (fs w2) ["c"; "zz"] = Some Dir
       /\ node_at (fs w2) ["c"; "zz_restored1"] = Some (File (plain "zed" 20)).
Proof.
  split; [vm_compute; reflexivity|].
  exists (snd (organize_folder clash_config ["c"] clash_world)).
  exists (snd (undo_last_operation
                 (snd (organize_folder clash_config ["c"] clash_world)))).
  repeat split; vm_compute; reflexivity.
Qed.

(** * Further properties of the engine *)

(** ** The categories *)

Section Categories.
Context {py : Python}.

Lemma OTHERS_is_a_category (config : list (string * list string)) :
  "OTHERS" ∈ (CATEGORIES config).*1.
Proof.
  unfold CATEGORIES. case_bool_decide; [done|].
  rewrite fmap_app. apply elem_of_app. right. left.
Qed.

Lemma find_category_in_keys (config : list (string * list string))
    (ext : string) :
  find_category config ext ∈ (CATEGORIES config).*1.
Proof.
  destruct (find_category_key config ext) as [H| ->]; [done|].
  apply OTHERS_is_a_category.
Qed.

Lemma zero_counts_lookup (config : list (string * list string))
    (cat : string) :
  zero_counts config !! cat
  = if decide (cat ∈ (CATEGORIES config).*1) then Some 0 else None.
Proof.
  unfold zero_counts. case_decide as Hin.
  - apply elem_of_list_to_map_1'.
    + intros n (c & [= -> ->] & _)%list_elem_of_fmap. done.
    + apply list_elem_of_fmap. by exists cat.
  - apply not_elem_of_list_to_map_1.
    by rewrite <- list_fmap_compose, list_fmap_id.
Qed.

(** [OTHERS] being a category, [setdefault] has nothing to add. *)
Lemma preview_counts_start (config : list (string * list string))
    (folder : path) (w : world) :
  preview_counts config folder w
  = try_except
      (let* l := iterdir folder in
       for_each (preview_one config) l (zero_counts config))
      (fun _ => ret (zero_counts config)) w.
Proof.
  unfold preview_counts. fold (zero_counts config).
  rewrite zero_counts_lookup.
  by rewrite decide_True by apply OTHERS_is_a_category.
Qed.

(** X1.  [find_category] always names a key of [CATEGORIES], of which
    [OTHERS] is always one; the entries of [config.json] are all kept,
    and the only entry that may be added to them is [OTHERS] with no
    extension. *)
Theorem find_category_names_a_category (config : list (string * list string))
    (ext : string) :
  find_category config ext ∈ (CATEGORIES config).*1
  /\ "OTHERS" ∈ (CATEGORIES config).*1
  /\ (forall ce, ce ∈ config -> ce ∈ CATEGORIES config)
  /\ (forall cat exts,
        (cat, exts) ∈ CATEGORIES config ->
        (cat, exts) ∈ config \/ (cat = "OTHERS" /\ exts = [])).
Proof.
  split; [apply find_category_in_keys|].
  split; [apply OTHERS_is_a_category|].
  unfold CATEGORIES. case_bool_decide; split.
  - done.
  - intros. by left.
  - intros ce Hce. apply elem_of_app. by left.
  - intros cat exts [Hin|Hin%list_elem_of_singleton]%elem_of_app;
      [by left|].
    right. by injection Hin.
Qed.

End Categories.

(** ** Creating the directories of a destination *)

Lemma mkdir_parents_rev_clear (rp : list string) (w : world) :
  (forall q, q `prefix_of` rev rp -> ¬ is_file_node (node_at (fs w) q)) ->
  fst (mkdir_parents_rev rp w) = Ok tt.
Proof.
  revert w. induction rp as [|c rp IH]; intros w Hclear.
  - reflexivity.
  - cbn [mkdir_parents_rev]. unfold try_except. rewrite os_mkdir_run.
    change (rev (c :: rp)) with (rev rp ++ [c]) in *.
    change (rev rp ++ [c]) with (rev rp </> c) in *.
    destruct (node_at (fs w) (rev rp </> c)) as [[f|]|] eqn:Hp.
    + exfalso. apply (Hclear (rev rp </> c)); [done|]. by rewrite Hp.
    + unfold bind, is_dir, gets. by rewrite Hp.
    + rewrite parent_joinpath.
      destruct (node_at (fs w) (rev rp)) as [[f|]|] eqn:Hpar.
      * exfalso. apply (Hclear (rev rp)); [by apply prefix_app_r|].
        by rewrite Hpar.
      * done.
      * rewrite unreachable_clear by done. unfold bind at 1.
        destruct (mkdir_parents_rev_spec rp w)
          as (r & w1 & Hrun & _ & Hadd & Hdir).
        pose proof (IH w) as Hok. rewrite Hrun in Hok. simpl in Hok.
        rewrite Hrun.
        rewrite Hok by (intros q Hq; apply Hclear; by apply prefix_app_r).
        unfold mkdir_exist_ok, try_except. rewrite os_mkdir_run.
        rewrite (dirs_added_outside _ _ _ _ Hadd).
        -- rewrite Hp, parent_joinpath. rewrite Hdir; [done|].
           apply Hok. intros q Hq. apply Hclear. by apply prefix_app_r.
        -- intros Hpre. apply prefix_length in Hpre.
           unfold joinpath in Hpre. rewrite length_app in Hpre. simpl in Hpre.
           lia.
Qed.

Lemma mkdir_parents_clear (p : path) (w : world) :
  (forall q, q `prefix_of` p -> ¬ is_file_node (node_at (fs w) q)) ->
  exists w',
    mkdir_parents p w = (Ok tt, w') /\ dirs_added p w w'
    /\ node_at (fs w') p = Some Dir.
Proof.
  intros Hclear.
  destruct (mkdir_parents_spec p w) as (r & w' & Hrun & _ & Hadd & Hdir).
  assert (Hok : r = Ok tt).
  { pose proof (mkdir_parents_rev_clear (rev p) w) as H.
    unfold mkdir_parents in Hrun. rewrite Hrun in H. apply H.
    by rewrite rev_involutive. }
  subst r. exists w'. split; [done|]. split; [done|]. by apply Hdir.
Qed.

Lemma safe_move_after_mkdir (src dest : path) (w w1 : world) :
  mkdir_parents (parent dest) w = (Ok tt, w1) ->
  node_at (fs w1) (parent dest) = Some Dir ->
  safe_move src dest w = safe_move src dest w1.
Proof.
  intros Hmk Hdir. unfold safe_move. unfold bind at 1. rewrite Hmk.
  symmetry. unfold bind at 1. by rewrite mkdir_parents_dir.
Qed.

(** X2.  [safe_move] creates the directories of the destination that are
    missing.  When the source is a regular file and no regular file
    stands at the directory of the destination or above it, the call
    returns: the file is then directly inside that directory, which
    exists; the source is gone; every other node is where it was; and a
    node that was not there before is the moved file or a directory on
    the way to the destination. *)
Theorem safe_move_makes_way (w : world) (src dest : path) (f : file) :
  node_at (fs w) src = Some (File f) ->
  (forall q, q `prefix_of` parent dest -> ¬ is_file_node (node_at (fs w) q)) ->
  exists final w',
    safe_move src dest w = (Ok final, w')
    /\ parent final = parent dest
    /\ node_at (fs w') (parent dest) = Some Dir
    /\ node_at (fs w') final = Some (File f)
    /\ node_at (fs w') src = None
    /\ (forall q n, q <> src ->
          node_at (fs w) q = Some n -> node_at (fs w') q = Some n)
    /\ (forall q n,
          node_at (fs w) q = None -> node_at (fs w') q = Some n ->
          (q = final /\ n = File f)
          \/ (n = Dir /\ q `prefix_of` parent dest)).
Proof.
  intros Hsrc Hclear.
  destruct (mkdir_parents_clear (parent dest) w Hclear)
    as (w1 & Hmk & Hadd & Hdir).
  pose proof (dirs_added_keeps _ _ _ _ _ Hadd Hsrc) as Hsrc1.
  destruct (safe_move_in_dir w1 src dest f Hsrc1 Hdir)
    as (final & Hrun & Hfree & Hpar).
  exists final, (set_fs (<[final := File f]> (delete src (fs w1))) w1).
  rewrite (safe_move_after_mkdir src dest w w1) by done.
  split; [done|]. split; [done|]. cbn [fs set_fs].
  assert (Hlook := moved_lookup (fs w1) src final).
  split; [|split; [|split; [|split]]].
  - rewrite (Hlook _ f) by done.
    rewrite decide_False by (intros E; rewrite E, Hfree in Hdir; done).
    rewrite decide_False by (intros E; rewrite E, Hsrc1 in Hdir; done).
    done.
  - rewrite (Hlook _ f) by done. by rewrite decide_True.
  - rewrite (Hlook _ f) by done.
    rewrite decide_False by (intros E; rewrite E, Hfree in Hsrc1; done).
    by rewrite decide_True.
  - intros q n Hq Hn. rewrite (Hlook _ f) by done.
    pose proof (dirs_added_keeps _ _ _ _ _ Hadd Hn) as Hn1.
    rewrite decide_False by (intros E; rewrite E, Hfree in Hn1; done).
    by rewrite decide_False.
  - intros q n Hnone. rewrite (Hlook _ f) by done.
    destruct (decide (q = final)) as [->|_].
    { intros [= <-]. by left. }
    destruct (decide (q = src)) as [->|_]; [done|].
    intros Hq. destruct Hadd as (_ & _ & Hadd).
    destruct (Hadd q) as [E|(_ & Hd & Hpre)]; [congruence|].
    right. split; [congruence|done].
Qed.

Lemma safe_move_makes_way_witness :
  exists w',
    safe_move ["d"; "b.jpg"] ["d"; "x"; "y"; "b.jpg"] sample_world
    = (Ok ["d"; "x"; "y"; "b.jpg"], w')
    /\ node_at (fs w') ["d"; "x"; "y"] = Some Dir.
Proof.
  destruct (safe_move_makes_way sample_world ["d"; "b.jpg"]
              ["d"; "x"; "y"; "b.jpg"] (plain "beta" 20))
    as (final & w' & Hrun & _ & Hdir & _).
  - vm_compute. reflexivity.
  - intros q [k Hk] Hf. simpl in Hk.
    destruct q as [|a [|b [|c [|d q]]]]; simplify_eq/=;
      vm_compute in Hf; done.
  - exists w'. split; [|exact Hdir].
    rewrite Hrun. f_equal. f_equal.
    assert (E : fst (safe_move ["d"; "b.jpg"] ["d"; "x"; "y"; "b.jpg"]
                       sample_world) = Ok ["d"; "x"; "y"; "b.jpg"])
      by (vm_compute; reflexivity).
    rewrite Hrun in E. simpl in E. by injection E.
Defined.

(** ** Moving a file that is not there *)

Lemma parent_prefix (p : path) : parent p `prefix_of` p.
Proof.
  destruct (decide (p = [])) as [->|Hne]; [done|].
  exists [List.last p EmptyString]. unfold parent.
  by apply app_removelast_last.
Qed.

Lemma os_rename_missing (src dst : path) (w : world) :
  node_at (fs w) src = None ->
  os_rename src dst w = (Raise (unreachable (fs w) src), w).
Proof. unfold os_rename. by intros ->. Qed.

Lemma dirs_added_clear (p q : path) (w w' : world) :
  dirs_added p w w' -> clear_way (fs w) q -> clear_way (fs w') q.
Proof.
  intros (_ & _ & Hadd) Hclear r Hr.
  destruct (Hadd r) as [->|(_ & -> & _)]; [by apply Hclear|].
  intros H. exact H.
Qed.

Lemma dirs_added_below (p q : path) (w w' : world) :
  dirs_added p w w' -> below_file (fs w) q -> below_file (fs w') q.
Proof.
  intros Hadd (r & Hpre & Hne & Hf & Hdirs).
  exists r. split; [done|]. split; [done|]. split.
  - destruct (node_at (fs w) r) as [n|] eqn:E; [|done].
    by rewrite (dirs_added_keeps _ _ _ _ _ Hadd E).
  - intros r' Hr' Hne'. eapply dirs_added_keeps; [done|]. by apply Hdirs.
Qed.

Lemma os_rename_into_itself (src dst : path) (w : world) :
  node_at (fs w) src = Some Dir ->
  src `prefix_of` parent dst ->
  node_at (fs w) dst = None ->
  node_at (fs w) (parent dst) = Some Dir ->
  os_rename src dst w = (Raise (OSError dst), w).
Proof.
  intros Hsrc Hpre Hdst Hpar. unfold os_rename. rewrite Hsrc.
  rewrite bool_decide_eq_false_2 by (intros E; rewrite E, Hdst in Hsrc; done).
  rewrite Hpar, Hdst.
  rewrite bool_decide_eq_true_2; [done|].
  etrans; [done|apply parent_prefix].
Qed.

Lemma dup_loop_fails (budget : nat) (src dest : path) (e : path -> exn)
    (i N : nat) (w : world) :
  (forall c, parent c = parent dest -> node_at (fs w) c = None ->
     os_rename src c w = (Raise (e c), w)) ->
  first_unused (fs w) (dup_name dest) i N ->
  N < i + budget ->
  dup_loop budget src dest (stem dest) (suffix dest) i w
  = (Raise (e (dup_name dest N)), w).
Proof.
  intros Hfail. revert i.
  induction budget as [|budget IH]; intros i HN Hlt.
  - destruct HN as [? _]. lia.
  - cbn [dup_loop]. unfold bind at 1. rewrite path_exists_run.
    fold (dup_name dest i).
    destruct (node_at (fs w) (dup_name dest i)) as [n|] eqn:Hc.
    + rewrite bool_decide_eq_true_2 by eauto. cbn [negb].
      apply IH; [|lia]. apply first_unused_next; [done|]. by rewrite Hc.
    + rewrite bool_decide_eq_false_2 by apply is_Some_None. cbn [negb].
      assert (N = i) by (by eapply first_unused_here). subst N.
      unfold bind. rewrite Hfail; [done| |done].
      unfold dup_name. by rewrite parent_joinpath.
Qed.

Lemma safe_move_fails (src dest : path) (e : path -> exn) (w : world) :
  node_at (fs w) (parent dest) = Some Dir ->
  (forall c, parent c = parent dest -> node_at (fs w) c = None ->
     os_rename src c w = (Raise (e c), w)) ->
  exists c, safe_move src dest w = (Raise (e c), w).
Proof.
  intros Hpar Hfail. unfold safe_move, bind at 1.
  rewrite mkdir_parents_dir by done.
  unfold bind at 1. rewrite path_exists_run.
  destruct (node_at (fs w) dest) as [n|] eqn:Hd.
  - rewrite bool_decide_eq_true_2 by eauto. cbn [negb].
    unfold bind at 1, gets.
    destruct (first_unused_exists (fs w) (dup_name dest) 1)
      as (N & HN & Hlt).
    { apply dup_name_inj. } { intros j. apply joinpath_ne_nil. }
    rewrite (dup_loop_fails _ src dest e 1 N w) by done. by eexists.
  - rewrite bool_decide_eq_false_2 by apply is_Some_None. cbn [negb].
    unfold bind. rewrite Hfail by done. by eexists.
Qed.

(** X3.  [safe_move] of a source that does not exist raises, and all it
    may have done before is to create directories on the way to the
    destination, which stay.  When the directory of the destination
    could be made and the source is not on the way to it, the exception
    is that of the rename: [FileNotFoundError] when no regular file
    stands above the source, [NotADirectoryError] when one does. *)
Theorem safe_move_missing_source (w : world) (src dest : path) :
  node_at (fs w) src = None ->
  exists e w',
    safe_move src dest w = (Raise e, w')
    /\ dirs_added (parent dest) w w'
    /\ (fst (mkdir_parents (parent dest) w) = Ok tt ->
        node_at (fs w') (parent dest) = Some Dir
        /\ (¬ src `prefix_of` parent dest ->
            (clear_way (fs w) src -> e = FileNotFoundError src)
            /\ (below_file (fs w) src -> e = NotADirectoryError src))).
Proof.
  intros Hsrc.
  destruct (mkdir_parents_spec (parent dest) w)
    as (r & w1 & Hmk & Hdiv & Hadd & Hdir).
  destruct r as [[]|e|]; [| |done].
  - specialize (Hdir eq_refl).
    rewrite (safe_move_after_mkdir src dest w w1) by done.
    destruct (node_at (fs w1) src) as [n|] eqn:Hsrc1.
    + pose proof Hadd as (Hu & Hc & Hadd').
      destruct (Hadd' src) as [E|(_ & Hd & Hpre)]; [congruence|].
      destruct (safe_move_fails src dest OSError w1 Hdir) as [c Hrun].
      { intros c Hpar Hfree. apply os_rename_into_itself; try done.
        - by rewrite Hpar.
        - by rewrite Hpar. }
      eexists _, w1. split; [exact Hrun|]. split; [done|].
      intros _. split; [done|]. by intros [].
    + destruct (safe_move_fails src dest (fun _ => unreachable (fs w1) src)
                  w1 Hdir) as [c Hrun].
      { intros c _ _. by apply os_rename_missing. }
      eexists _, w1. split; [exact Hrun|]. split; [done|].
      intros _. split; [done|]. intros _. split.
      * intros Hclear. apply unreachable_clear.
        by eapply dirs_added_clear.
      * intros Hbelow. apply unreachable_below.
        by eapply dirs_added_below.
  - exists e, w1. split.
    + unfold safe_move, bind. by rewrite Hmk.
    + split; [done|]. by rewrite Hmk.
Qed.

Lemma safe_move_missing_source_witness :
  exists w' w'',
    safe_move ["d"; "nope"] ["d"; "x"; "nope"] sample_world
    = (Raise (FileNotFoundError ["d"; "nope"]), w')
    /\ node_at (fs w') ["d"; "x"] = Some Dir
    /\ safe_move ["d"; "a.txt"; "nope"] ["d"; "x"; "nope"] sample_world
       = (Raise (NotADirectoryError ["d"; "a.txt"; "nope"]), w'').
Proof.
  destruct (safe_move_missing_source sample_world ["d"; "nope"]
              ["d"; "x"; "nope"]) as (e & w' & Hrun & _ & Hok);
    [vm_compute; reflexivity|].
  destruct (safe_move_missing_source sample_world ["d"; "a.txt"; "nope"]
              ["d"; "x"; "nope"]) as (e2 & w'' & Hrun2 & _ & Hok2);
    [vm_compute; reflexivity|].
  destruct Hok as [Hdir [He _]]; [vm_compute; reflexivity| |].
  { intros [k Hk]. simpl in Hk. by injection Hk. }
  destruct Hok2 as [_ [_ He2]]; [vm_compute; reflexivity| |].
  { intros [k Hk]. simpl in Hk. by injection Hk. }
  exists w', w''. split; [|split; [exact Hdir|]].
  - rewrite Hrun, He; [done|].
    intros q [k Hk] Hf.
    destruct q as [|a [|b [|c q]]]; simplify_eq/=; vm_compute in Hf; done.
  - rewrite Hrun2, He2; [done|].
    exists ["d"; "a.txt"]. split; [by exists ["nope"]|]. split; [done|].
    split; [vm_compute; done|].
    intros r [k Hk] Hne.
    destruct r as [|a [|b [|c r]]]; simplify_eq/=; try done.
Defined.

(** ** A folder that is not there, or holds no file *)

Section Nothing.
Context {py : Python}.
Variable config : list (string * list string).
Variable md5 : string -> string.

Lemma preview_counts_fails (w : world) (folder : path) :
  node_at (fs w) folder <> Some Dir ->
  preview_counts config folder w = (Ok (zero_counts config), w).
Proof.
  intros Hdir. rewrite preview_counts_start. unfold try_except, bind.
  by destruct (iterdir_fails folder w Hdir) as [e ->].
Qed.

(** X4.  On a path that is not a directory (nothing is there, or a
    regular file) [preview_counts], [find_duplicates] and [top_n_large]
    do not raise: the first returns the table with every category at 0,
    the second no group, the third the empty list whatever [n] is.
    [recent_files] returns the empty list too, unless [days * 86400] is
    too large for a double, in which case it raises [OverflowError].  The
    world is left as it was. *)
Theorem scans_of_no_directory (w : world) (folder : path) :
  node_at (fs w) folder <> Some Dir ->
  (exists counts,
     preview_counts config folder w = (Ok counts, w)
     /\ (forall cat, is_Some (counts !! cat) <-> cat ∈ (CATEGORIES config).*1)
     /\ (forall cat n, counts !! cat = Some n -> n = 0))
  /\ find_duplicates md5 folder w = (Ok ∅, w)
  /\ (forall n, top_n_large folder n w = (Ok [], w))
  /\ (forall days,
        (Z.abs (days * 86400) < 2 ^ 1024 - 2 ^ 970)%Z ->
        recent_files folder days w = (Ok [], w))
  /\ (forall days,
        (2 ^ 1024 - 2 ^ 970 <= Z.abs (days * 86400))%Z ->
        recent_files folder days w = (Raise OverflowError, w)).
Proof.
  intros Hdir. destruct (iterdir_fails folder w Hdir) as [e He].
  split; [|split; [|split; [|split]]].
  - exists (zero_counts config).
    split; [by apply preview_counts_fails|]. split.
    + intros cat. rewrite zero_counts_lookup. case_decide; [by split; eauto|].
      split; [by intros []|done].
    + intros cat n. rewrite zero_counts_lookup. case_decide; [|done].
      by intros [= <-].
  - unfold find_duplicates, try_except, bind. by rewrite He.
  - intros n. unfold top_n_large, bind at 1, try_except, bind at 1.
    rewrite He. unfold ret, slice_to.
    destruct (0 <=? n)%Z; by rewrite take_nil.
  - intros days Hdays.
    rewrite recent_files_in_range by (by apply float_range_bound).
    unfold try_except, bind. by rewrite He.
  - intros days Hdays. apply recent_files_overflow.
    rewrite float_range_bound. lia.
Qed.

(** X5.  [organize_folder] with nothing to do.  On a path where nothing
    exists, or where a regular file stands, it returns 0 and one error,
    that of the listing: [FileNotFoundError] where nothing exists and no
    regular file stands above, [NotADirectoryError] at or below a regular
    file.  On a directory with no regular file directly inside it returns
    0 and no error.  In every case the world, the journal included, is
    left as it was. *)
Theorem organize_folder_nothing_to_do (w : world) (folder : path) :
  (node_at (fs w) folder = None ->
   exists e,
     organize_folder config folder w = (Ok (0, [Error e]), w)
     /\ (clear_way (fs w) folder -> e = FileNotFoundError folder)
     /\ (below_file (fs w) folder -> e = NotADirectoryError folder))
  /\ (forall f, node_at (fs w) folder = Some (File f) ->
      organize_folder config folder w
      = (Ok (0, [Error (NotADirectoryError folder)]), w))
  /\ (node_at (fs w) folder = Some Dir ->
      file_children (fs w) folder = [] ->
      organize_folder config folder w = (Ok (0, []), w)).
Proof.
  split; [|split].
  - intros H. exists (unreachable (fs w) folder). split; [|split].
    + unfold organize_folder, bind, try_except, iterdir. by rewrite H.
    + apply unreachable_clear.
    + apply unreachable_below.
  - intros f H. unfold organize_folder, bind, try_except, iterdir.
    by rewrite H.
  - intros Hdir Hnone.
    unfold organize_folder, bind at 1, try_except, bind at 1.
    rewrite iterdir_run by done. unfold bind at 1. rewrite only_files_run.
    fold (file_children (fs w) folder). rewrite Hnone. done.
Qed.

End Nothing.

Lemma scans_of_no_directory_witness :
  find_duplicates toy_md5 ["d"; "a.txt"] sample_world = (Ok ∅, sample_world)
  /\ top_n_large ["nowhere"] 10 sample_world = (Ok [], sample_world)
  /\ recent_files ["nowhere"] 7 sample_world = (Ok [], sample_world)
  /\ recent_files ["nowhere"] (10 ^ 400) sample_world
     = (Raise OverflowError, sample_world).
Proof.
  split; [|split; [|split]].
  - apply (scans_of_no_directory sample_config toy_md5 sample_world
             ["d"; "a.txt"]). vm_compute. congruence.
  - apply (scans_of_no_directory sample_config toy_md5 sample_world
             ["nowhere"]). vm_compute. congruence.
  - apply (scans_of_no_directory sample_config toy_md5 sample_world
             ["nowhere"]); [vm_compute; congruence|].
    vm_compute. reflexivity.
  - apply (scans_of_no_directory sample_config toy_md5 sample_world
             ["nowhere"]); [vm_compute; congruence|].
    vm_compute. discriminate.
Defined.

Lemma organize_folder_nothing_to_do_witness :
  organize_folder sample_config ["nowhere"] blocked_world
  = (Ok (0, [Error (FileNotFoundError ["nowhere"])]), blocked_world)
  /\ organize_folder sample_config ["d"; "DOCS"; "a.txt"] sample_world
     = (Ok (0, [Error (NotADirectoryError ["d"; "DOCS"; "a.txt"])]),
        sample_world)
  /\ organize_folder sample_config ["d"; "a.txt"; "sub"] sample_world
     = (Ok (0, [Error (NotADirectoryError ["d"; "a.txt"; "sub"])]),
        sample_world).
Proof.
  split; [|split].
  - destruct (proj1 (organize_folder_nothing_to_do sample_config
                       blocked_world ["nowhere"])) as (e & Hrun & He & _);
      [reflexivity|].
    rewrite Hrun, He; [done|].
    intros q [k Hk] Hf.
    destruct q as [|a [|b q]]; simplify_eq/=; vm_compute in Hf; done.
  - apply (organize_folder_nothing_to_do sample_config sample_world
             ["d"; "DOCS"; "a.txt"] ) with (f := plain "older" 1).
    vm_compute. reflexivity.
  - destruct (proj1 (organize_folder_nothing_to_do sample_config
                       sample_world ["d"; "a.txt"; "sub"]))
      as (e & Hrun & _ & He); [vm_compute; reflexivity|].
    rewrite Hrun, He; [done|].
    exists ["d"; "a.txt"]. split; [by exists ["sub"]|]. split; [done|].
    split; [vm_compute; done|].
    intros r [k Hk] Hne.
    destruct r as [|a [|b [|c r]]]; simplify_eq/=; try done.
Defined.

(** ** Where the files go *)

Lemma safe_move_in_dir_name (w : world) (src dest : path) (f : file) :
  node_at (fs w) src = Some (File f) ->
  node_at (fs w) (parent dest) = Some Dir ->
  exists final w',
    safe_move src dest w = (Ok final, w')
    /\ (final = dest \/ exists N, 1 <= N /\ final = dup_name dest N).
Proof.
  intros Hsrc Hpar. unfold safe_move, bind at 1.
  rewrite mkdir_parents_dir by done.
  unfold bind at 1. rewrite path_exists_run.
  destruct (node_at (fs w) dest) as [n|] eqn:Hd.
  - rewrite bool_decide_eq_true_2 by eauto. cbn [negb].
    unfold bind at 1, gets.
    destruct (first_unused_exists (fs w) (dup_name dest) 1)
      as (N & HN & Hlt).
    { apply dup_name_inj. } { intros j. apply joinpath_ne_nil. }
    rewrite (dup_loop_spec _ src dest 1 N w f) by done.
    eexists _, _. split; [done|]. right. exists N.
    split; [by destruct HN|done].
  - rewrite bool_decide_eq_false_2 by apply is_Some_None. cbn [negb].
    unfold bind. rewrite (os_rename_file w src dest f) by done.
    eexists _, _. split; [done|]. by left.
Qed.

Section Placement.
Context {py : Python}.
Variable config : list (string * list string).
Variable folder : path.

Lemma organize_one_named (moves : list move) (errors : list error_desc)
    (p : path) (w : world) (f : file) :
  node_at (fs w) folder = Some Dir ->
  node_at (fs w) p = Some (File f) ->
  ~ is_file_node
      (node_at (fs w) (folder </> find_category config (suffix p))) ->
  exists final w',
    organize_one config folder (moves, errors) p w
    = (Ok (moves ++ [mkMove p final], errors), w')
    /\ placed config folder (mkMove p final).
Proof.
  set (dest_folder := folder </> find_category config (suffix p)).
  intros Hfolder Hp HD. unfold organize_one, try_except, bind at 1.
  fold dest_folder.
  assert (Hne : dest_folder <> []) by apply joinpath_ne_nil.
  assert (Hmk : mkdir_parents dest_folder w
                = (Ok tt, set_fs (<[dest_folder := Dir]> (fs w)) w)).
  { destruct (node_at (fs w) dest_folder) as [[g|]|] eqn:E.
    - by destruct HD.
    - rewrite mkdir_parents_dir by done.
      rewrite node_at_ne in E by done. rewrite insert_id by done.
      by destruct w.
    - apply mkdir_parents_new; [done|].
      unfold dest_folder. by rewrite parent_joinpath. }
  rewrite Hmk. unfold bind at 1.
  set (w1 := set_fs (<[dest_folder := Dir]> (fs w)) w).
  assert (Hp1 : node_at (fs w1) p = Some (File f)).
  { simpl. rewrite node_at_insert by done. case_decide as E; [|done].
    exfalso. apply HD. by rewrite E, Hp. }
  destruct (safe_move_in_dir_name w1 p (dest_folder </> name p) f)
    as (final & w' & -> & Hname); [done| |].
  { rewrite parent_joinpath. simpl. rewrite node_at_insert by done.
    by rewrite decide_True. }
  exists final, w'. split; [done|]. exact Hname.
Qed.

Lemma organize_loop_placed (items : list path) (w : world)
    (moves0 : list move) (errors0 : list error_desc) :
  pending (fs w) folder items ->
  forall moves errs w',
    for_each (organize_one config folder) items (moves0, errors0) w
    = (Ok (moves0 ++ moves, errs), w') ->
    Forall (placed config folder) moves.
Proof.
  revert w moves0 errors0.
  induction items as [|p items IH]; intros w moves0 errors0 Hpend
    moves errs w' Hrun.
  - cbn in Hrun. injection Hrun as Hm _ _.
    rewrite <- (app_nil_r moves0) in Hm at 1.
    apply app_inv_head in Hm. by subst moves.
  - cbn [for_each] in Hrun. unfold bind in Hrun.
    pose proof Hpend as (Hdir & Hnd & Hfiles).
    destruct (Hfiles p) as [Hpf Hpar]; [left|].
    destruct (node_at (fs w) p) as [[f|]|] eqn:Hp; try done.
    destruct (decide (is_file_node
                (node_at (fs w) (folder </> find_category config (suffix p)))))
      as [HD|HD].
    + destruct (node_at (fs w) (folder </> find_category config (suffix p)))
        as [[g|]|] eqn:HDg; try done.
      rewrite (organize_one_fails config folder moves0 errors0 p w g)
        in Hrun by done.
      eapply IH; [|exact Hrun].
      split; [done|]. apply NoDup_cons in Hnd as [_ Hnd].
      split; [done|]. intros r Hr. apply Hfiles. by right.
    + destruct (organize_one_moves config folder moves0 errors0 p w f)
        as (final & Hone & Hfree & Hfpar); [done..|].
      destruct (organize_one_named moves0 errors0 p w f)
        as (final' & w1 & Hone' & Hplaced); [done..|].
      rewrite Hone in Hone'. injection Hone' as Hf _.
      apply app_inv_head in Hf. injection Hf as <-.
      rewrite Hone in Hrun.
      destruct (organize_loop_run config folder items
                  (set_fs (<[final := File f]>
                     (delete p
                        (<[folder </> find_category config (suffix p) := Dir]>
                           (fs w)))) w) (moves0 ++ [mkMove p final]) errors0)
        as (moves1 & errs1 & m' & Hrun1 & _).
      { cbn [fs set_fs]. by eapply organize_step_pending. }
      pose proof Hrun as Hrun'. rewrite Hrun1 in Hrun'.
      injection Hrun' as Hm _ _. rewrite <- app_assoc in Hm.
      apply app_inv_head in Hm. subst moves.
      constructor; [done|].
      eapply (IH _ (moves0 ++ [mkMove p final]) errors0); [|exact Hrun1].
      cbn [fs set_fs]. by eapply organize_step_pending.
Qed.

End Placement.

(** ** Organising: more about the loop *)

Lemma joinpath_ne_self (p : path) (c : string) : p </> c <> p.
Proof.
  intros E. apply (f_equal length) in E. unfold joinpath in E.
  rewrite length_app in E. simpl in E. lia.
Qed.

Section OrganizedMore.
Context {py : Python}.
Variable config : list (string * list string).
Variable folder : path.

Lemma pending_tail (m : gmap path node) (p : path) (items : list path) :
  pending m folder (p :: items) -> pending m folder items.
Proof.
  intros (Hdir & Hnd & Hfiles). apply NoDup_cons in Hnd as [_ Hnd].
  split; [done|]. split; [done|]. intros r Hr. apply Hfiles. by right.
Qed.

(** A regular file directly inside the folder after the loop was there
    before it, and was not moved. *)
Lemma organized_leftover items m moves errs m' :
  pending m folder items ->
  organized config folder items m moves errs m' ->
  forall q f,
    parent q = folder -> node_at m' q = Some (File f) ->
    node_at m q = Some (File f) /\ q ∉ orig <$> moves.
Proof.
  intros Hpend Horg. revert Hpend.
  induction Horg as [m|p items m g moves errs m' HD Horg IH
                    |p items m f final moves errs m' Hp HD Hfree Hpar Horg IH];
    intros Hpend q f' Hq Hf.
  - split; [done|]. by intros ?%elem_of_nil.
  - apply IH; [by eapply pending_tail|done..].
  - pose proof (organize_step_pending config folder m p final items f
                  Hpend Hp HD Hfree) as Hpend'.
    destruct (IH Hpend' q f' Hq Hf) as [Hf1 Hnot].
    rewrite organize_step_lookup in Hf1;
      [|apply joinpath_ne_nil|by eapply node_at_File_ne
       |by eapply node_at_None_ne].
    destruct (decide (q = final)) as [->|Hqf].
    { exfalso. rewrite Hpar in Hq. by apply joinpath_ne_self in Hq. }
    destruct (decide (q = p)) as [->|Hqp]; [done|].
    destruct (decide (q = _)) as [->|HqD]; [done|].
    split; [done|]. rewrite fmap_cons. simpl.
    intros [?|?]%elem_of_cons; done.
Qed.

(** Where the loop changes the file system. *)
Lemma organized_frame items m moves errs m' :
  organized config folder items m moves errs m' ->
  forall q,
    node_at m' q = node_at m q
    \/ q ∈ orig <$> moves \/ q ∈ new <$> moves
    \/ (node_at m q = None /\ node_at m' q = Some Dir
        /\ exists r, r ∈ items
                     /\ q = folder </> find_category config (suffix r)).
Proof.
  induction 1 as [m|p items m g moves errs m' HD _ IH
                 |p items m f final moves errs m' Hp HD Hfree Hpar _ IH];
    intros q.
  - by left.
  - destruct (IH q) as [E|[Ho|[Hn|(Hnone & Hd & r & Hr & ->)]]].
    + by left.
    + by right; left.
    + by right; right; left.
    + right; right; right. split; [done|]. split; [done|].
      exists r. split; [by right|done].
  - rewrite !fmap_cons. simpl.
    destruct (decide (q = final)) as [->|Hqf].
    { right; right; left. left. }
    destruct (decide (q = p)) as [->|Hqp].
    { right; left. left. }
    assert (Hq1 : node_at (<[final := File f]>
                    (delete p
                       (<[folder </> find_category config (suffix p) := Dir]>
                          m))) q
                  = if decide (q = folder </> find_category config (suffix p))
                    then Some Dir else node_at m q).
    { rewrite organize_step_lookup;
        [|apply joinpath_ne_nil|by eapply node_at_File_ne
         |by eapply node_at_None_ne].
      by rewrite decide_False, decide_False. }
    destruct (IH q) as [E|[Ho|[Hn|(Hnone & Hd & r & Hr & Hqr)]]].
    + rewrite E, Hq1. case_decide as HqD; [|by left]. subst q.
      destruct (node_at m (folder </> find_category config (suffix p)))
        as [[g|]|] eqn:HDn.
      * by destruct HD.
      * by left.
      * right; right; right. split; [done|]. split; [done|].
        exists p. split; [left|done].
    + right; left. by right.
    + right; right; left. by right.
    + rewrite Hq1 in Hnone. case_decide as HqD; [done|].
      right; right; right. split; [done|]. split; [done|].
      exists r. split; [by right|done].
Qed.

(** When no category folder is barred by a regular file, every item is
    moved. *)
Lemma organized_all items m moves errs m' :
  pending m folder items ->
  (forall r, r ∈ items ->
     ~ is_file_node (node_at m (folder </> find_category config (suffix r)))) ->
  organized config folder items m moves errs m' ->
  errs = [] /\ orig <$> moves = items.
Proof.
  intros Hpend Hclear Horg. revert Hpend Hclear.
  induction Horg as [m|p items m g moves errs m' HD Horg IH
                    |p items m f final moves errs m' Hp HD Hfree Hpar Horg IH];
    intros Hpend Hclear.
  - done.
  - exfalso. apply (Hclear p); [left|]. by rewrite HD.
  - pose proof (organize_step_pending config folder m p final items f
                  Hpend Hp HD Hfree) as Hpend'.
    destruct IH as [-> <-]; [done| |done].
    intros r Hr. rewrite organize_step_lookup;
      [|apply joinpath_ne_nil|by eapply node_at_File_ne
       |by eapply node_at_None_ne].
    destruct (decide (_ = final)) as [E|_].
    { exfalso. rewrite <- E, parent_joinpath in Hpar.
      symmetry in Hpar. by apply joinpath_ne_self in Hpar. }
    destruct (decide (_ = p)) as [_|_]; [by intros []|].
    destruct (decide (_ = _)) as [_|_]; [by intros []|].
    apply Hclear. by right.
Qed.

(** The records into the folder of one category. *)
Lemma organized_into items m moves m' (cat : string) :
  organized config folder items m moves [] m' ->
  length (filter (fun mv => parent (new mv) = folder </> cat) moves)
  = length (filter (fun p => find_category config (suffix p) = cat) items).
Proof.
  intros Horg. remember [] as errs eqn:He. revert He.
  induction Horg as [m|p items m g moves errs m' HD Horg IH
                    |p items m f final moves errs m' Hp HD Hfree Hpar Horg IH];
    intros He; [done|done|].
  rewrite !filter_cons. simpl. rewrite Hpar.
  destruct (decide (find_category config (suffix p) = cat)) as [E|E].
  - rewrite decide_True by (by rewrite E). simpl. by rewrite IH.
  - rewrite decide_False by (by intros ?%joinpath_inj). by apply IH.
Qed.

End OrganizedMore.

Section NameClash.
Context {py : Python}.

Lemma no_name_clash_clear (config : list (string * list string))
    (m : gmap path node) (folder : path) :
  no_name_clash config m folder ->
  forall r, r ∈ file_children m folder ->
    ~ is_file_node (node_at m (folder </> find_category config (suffix r))).
Proof.
  intros Hclash r Hr Hf.
  destruct (node_at m (folder </> find_category config (suffix r)))
    as [[g|]|] eqn:E; try done.
  assert (Hin : folder </> find_category config (suffix r)
                ∈ file_children m folder).
  { apply elem_of_file_children. split; [|split].
    - exists g. by rewrite <- node_at_ne by apply joinpath_ne_nil.
    - apply joinpath_ne_nil.
    - apply parent_joinpath. }
  unfold no_name_clash in Hclash. rewrite Forall_forall in Hclash.
  specialize (Hclash _ Hin). rewrite Forall_forall in Hclash.
  by apply (Hclash r Hr).
Qed.

End NameClash.

(** ** Organising: the whole run *)

Section OrganizeMore.
Context {py : Python}.
Variable config : list (string * list string).

Lemma organize_folder_run_placed (w : world) (folder : path) :
  node_at (fs w) folder = Some Dir ->
  exists moves errs w',
    organize_folder config folder w = (Ok (length moves, errs), w')
    /\ organized config folder (file_children (fs w) folder) (fs w)
         moves errs (fs w')
    /\ Forall (placed config folder) moves
    /\ clock w' = clock w
    /\ (moves = [] -> undo_file w' = undo_file w)
    /\ (moves <> [] -> undo_file w' = Journal (clock w) moves).
Proof.
  intros Hdir.
  pose proof (file_children_pending (fs w) folder Hdir) as Hpend.
  destruct (organize_loop_run config folder (file_children (fs w) folder)
              w [] []) as (moves & errs & m' & Hrun & Horg); [done|].
  pose proof (organize_loop_placed config folder _ w [] [] Hpend
                moves _ _ Hrun) as Hplaced.
  exists moves, errs,
    (match moves with
     | [] => set_fs m' w
     | _ => set_undo_file (Journal (clock w) moves) (set_fs m' w)
     end).
  split.
  { unfold organize_folder, bind at 1, try_except, bind at 1.
    rewrite iterdir_run by done. unfold bind at 1. rewrite only_files_run.
    fold (file_children (fs w) folder). rewrite Hrun. simpl.
    unfold bind. by destruct moves. }
  split; [by destruct moves|]. split; [done|].
  split; [by destruct moves|]. split; [by intros ->|]. by destruct moves.
Qed.

Lemma organize_folder_no_files (w : world) (folder : path) :
  node_at (fs w) folder = Some Dir ->
  file_children (fs w) folder = [] ->
  organize_folder config folder w = (Ok (0, []), w).
Proof.
  intros Hdir Hnone.
  unfold organize_folder, bind at 1, try_except, bind at 1.
  rewrite iterdir_run by done. unfold bind at 1. rewrite only_files_run.
  fold (file_children (fs w) folder). rewrite Hnone. done.
Qed.

(** X6.  Where [organize_folder] puts the files, the category names
    being plain names.  The new path of every record is directly inside
    the folder of the category that the extension of the original name
    resolves to, and it is the original name there or one of its
    [_dup{N}] names, N at least 1.  No two records have the same new
    path. *)
Theorem organize_folder_placement (w : world) (folder : path) :
  plain_categories config ->
  node_at (fs w) folder = Some Dir ->
  exists moves errs w',
    organize_folder config folder w = (Ok (length moves, errs), w')
    /\ (moves <> [] -> undo_file w' = Journal (clock w) moves)
    /\ NoDup (new <$> moves)
    /\ forall mv, mv ∈ moves ->
         parent (new mv) = folder </> find_category config (suffix (orig mv))
         /\ (new mv = destination config folder (orig mv)
             \/ exists N,
                  1 <= N
                  /\ new mv
                     = dup_name (destination config folder (orig mv)) N).
Proof.
  intros _ Hdir.
  destruct (organize_folder_run_placed w folder Hdir)
    as (moves & errs & w' & Hrun & Horg & Hplaced & _ & _ & Hj).
  exists moves, errs, w'. split; [done|]. split; [done|].
  split.
  { eapply organized_new_NoDup; [|done]. by apply file_children_pending. }
  intros mv Hmv. rewrite Forall_forall in Hplaced.
  pose proof (Hplaced mv Hmv) as Hp. split; [|exact Hp].
  destruct Hp as [->|(N & _ & ->)]; unfold dup_name, destination;
    by rewrite !parent_joinpath.
Qed.

(** X7.  The category names being plain names, after [organize_folder]
    the regular files still directly inside the directory are exactly
    those reported as failed.  When no failure is reported none is left,
    and organising the directory again at once moves nothing, reports
    nothing and leaves the world, the journal of the first run included,
    as it is. *)
Theorem organize_folder_leaves_failures (w : world) (folder : path) :
  plain_categories config ->
  node_at (fs w) folder = Some Dir ->
  exists n errs w',
    organize_folder config folder w = (Ok (n, errs), w')
    /\ node_at (fs w') folder = Some Dir
    /\ (forall p, p ∈ file_children (fs w') folder
                  <-> exists e, Failed p e ∈ errs)
    /\ (errs = [] ->
        file_children (fs w') folder = []
        /\ organize_folder config folder w' = (Ok (0, []), w')).
Proof.
  intros _ Hdir.
  pose proof (file_children_pending (fs w) folder Hdir) as Hpend.
  destruct (organize_folder_run_placed w folder Hdir)
    as (moves & errs & w' & Hrun & Horg & _).
  assert (Hdir' : node_at (fs w') folder = Some Dir).
  { eapply organized_keeps; [done..|].
    intros Hin. destruct Hpend as (_ & _ & Hfiles).
    destruct (Hfiles _ Hin) as [Hf _]. by rewrite Hdir in Hf. }
  assert (Hleft : forall p, p ∈ file_children (fs w') folder
                            <-> exists e, Failed p e ∈ errs).
  { intros p. split.
    - intros ([f Hf] & Hne & Hpar)%elem_of_file_children.
      rewrite <- node_at_ne in Hf by done.
      destruct (organized_leftover config folder _ _ _ _ _ Hpend Horg
                  p f Hpar Hf) as [Hf0 Hnot].
      assert (Hin : p ∈ file_children (fs w) folder).
      { apply elem_of_file_children. split; [|done].
        exists f. by rewrite <- node_at_ne. }
      destruct (organized_covers config folder _ _ _ _ _ Horg p Hin)
        as [[final Hmv]|Hfail]; [|done].
      exfalso. apply Hnot. apply list_elem_of_fmap. by exists (mkMove p final).
    - intros [e He].
      destruct (organized_errors config folder _ _ _ _ _ Hpend Horg _ He)
        as (p' & e' & [= <- <-] & Hin & Hsame).
      apply elem_of_file_children in Hin as ([f Hf] & Hne & Hpar).
      apply elem_of_file_children. split; [|done].
      exists f. rewrite <- node_at_ne in * by done. by rewrite Hsame. }
  exists (length moves), errs, w'. split; [done|]. split; [done|].
  split; [done|]. intros ->.
  assert (Hnone : file_children (fs w') folder = []).
  { destruct (file_children (fs w') folder) as [|p l] eqn:E; [done|].
    destruct (proj1 (Hleft p)) as [e He]; [left|]. by apply elem_of_nil in He. }
  split; [done|].
  by apply organize_folder_no_files.
Qed.

(** X8.  The category names being plain names, [organize_folder]
    touches nothing but the files it moves and the category folders it
    creates.  A node that is not a regular file directly inside the
    directory is where it was, so the subdirectories and all they hold
    are; every regular file is where it was or at the new path of its
    record, with what it held; and a path whose node has changed is the
    original or the new path of a record, or a category folder created
    where nothing was. *)
Theorem organize_folder_touches_only (w : world) (folder : path) :
  plain_categories config ->
  node_at (fs w) folder = Some Dir ->
  exists moves errs w',
    organize_folder config folder w = (Ok (length moves, errs), w')
    /\ (moves <> [] -> undo_file w' = Journal (clock w) moves)
    /\ (forall q n,
          node_at (fs w) q = Some n -> q ∉ file_children (fs w) folder ->
          node_at (fs w') q = Some n)
    /\ (forall q f,
          node_at (fs w) q = Some (File f) ->
          node_at (fs w') q = Some (File f)
          \/ exists mv, mv ∈ moves /\ orig mv = q
                        /\ node_at (fs w') (new mv) = Some (File f))
    /\ (forall q,
          node_at (fs w') q = node_at (fs w) q
          \/ q ∈ orig <$> moves \/ q ∈ new <$> moves
          \/ (node_at (fs w) q = None /\ node_at (fs w') q = Some Dir
              /\ category_folder config (fs w) folder q)).
Proof.
  intros _ Hdir.
  pose proof (file_children_pending (fs w) folder Hdir) as Hpend.
  destruct (organize_folder_run_placed w folder Hdir)
    as (moves & errs & w' & Hrun & Horg & _ & _ & _ & Hj).
  exists moves, errs, w'. split; [done|]. split; [done|].
  split; [|split].
  - intros q n Hq Hin. by eapply organized_keeps.
  - intros q f Hq.
    destruct (decide (q ∈ file_children (fs w) folder)) as [Hin|Hin].
    + destruct (organized_covers config folder _ _ _ _ _ Horg q Hin)
        as [[final Hmv]|[e He]].
      * right. exists (mkMove q final). split; [done|]. split; [done|].
        destruct (organized_moves config folder _ _ _ _ _ Hpend Horg _ Hmv)
          as (_ & g & Hg & Hnew).
        simpl in Hg, Hnew. simpl. congruence.
      * left.
        destruct (organized_errors config folder _ _ _ _ _ Hpend Horg _ He)
          as (p' & e' & [= <- <-] & _ & Hsame).
        by rewrite Hsame.
    + left. by eapply organized_keeps.
  - intros q. apply (organized_frame config folder _ _ _ _ _ Horg q).
Qed.

(** X9.  When the category names are plain names and no regular file
    directly inside the directory bears the name of a category folder,
    [organize_folder] moves every regular file directly inside it, in
    listing order, and reports no error; none is left behind. *)
Theorem organize_folder_moves_all (w : world) (folder : path) :
  plain_categories config ->
  node_at (fs w) folder = Some Dir ->
  no_name_clash config (fs w) folder ->
  exists moves w',
    organize_folder config folder w
    = (Ok (length (file_children (fs w) folder), []), w')
    /\ orig <$> moves = file_children (fs w) folder
    /\ (moves <> [] -> undo_file w' = Journal (clock w) moves)
    /\ (forall mv, mv ∈ moves ->
          exists f, node_at (fs w) (orig mv) = Some (File f)
                    /\ node_at (fs w') (new mv) = Some (File f))
    /\ file_children (fs w') folder = [].
Proof.
  intros _ Hdir Hclash.
  pose proof (file_children_pending (fs w) folder Hdir) as Hpend.
  destruct (organize_folder_run_placed w folder Hdir)
    as (moves & errs & w' & Hrun & Horg & _ & _ & _ & Hj).
  destruct (organized_all config folder _ _ _ _ _ Hpend
              (no_name_clash_clear config (fs w) folder Hclash) Horg)
    as [-> Horig].
  exists moves, w'. rewrite <- Horig at 1. rewrite length_fmap.
  split; [done|]. split; [done|]. split; [done|]. split.
  - intros mv Hmv.
    destruct (organized_moves config folder _ _ _ _ _ Hpend Horg mv Hmv)
      as (Hin & f & Hf & Hnew).
    by exists f.
  - destruct (file_children (fs w') folder) as [|p l] eqn:E; [done|].
    exfalso.
    assert (Hp : p ∈ file_children (fs w') folder) by (rewrite E; left).
    apply elem_of_file_children in Hp as ([f Hf] & Hne & Hpar).
    rewrite <- node_at_ne in Hf by done.
    destruct (organized_leftover config folder _ _ _ _ _ Hpend Horg
                p f Hpar Hf) as [Hf0 Hnot].
    apply Hnot. rewrite Horig. apply elem_of_file_children.
    split; [|done]. exists f. by rewrite <- node_at_ne.
Qed.

End OrganizeMore.

Lemma organize_folder_placement_witness :
  exists moves w',
    organize_folder sample_config ["d"] sample_world = (Ok (3, []), w')
    /\ length moves = 3 /\ NoDup (new <$> moves).
Proof.
  destruct (organize_folder_placement sample_config sample_world ["d"]
              sample_config_plain)
    as (moves & errs & w' & Hrun & _ & Hnd & _).
  - vm_compute. reflexivity.
  - assert (E : fst (organize_folder sample_config ["d"] sample_world)
                = Ok (3, [])) by (vm_compute; reflexivity).
    rewrite Hrun in E. simpl in E. injection E as E1 E2.
    exists moves, w'. split; [by rewrite Hrun, E1, E2|]. by split.
Defined.

Lemma organize_folder_leaves_failures_witness :
  exists errs w',
    organize_folder sample_config ["b"] blocked_world = (Ok (1, errs), w')
    /\ forall p,
         p ∈ file_children (fs w') ["b"] <-> exists e, Failed p e ∈ errs.
Proof.
  destruct (organize_folder_leaves_failures sample_config blocked_world ["b"]
              sample_config_plain)
    as (n & errs & w' & Hrun & _ & Hleft & _).
  - vm_compute. reflexivity.
  - assert (E : match fst (organize_folder sample_config ["b"] blocked_world)
                with
                | Ok (k, _) => k
                | _ => 0
                end = 1) by (vm_compute; reflexivity).
    rewrite Hrun in E. simpl in E. subst n.
    exists errs, w'. split; [exact Hrun|exact Hleft].
Defined.

Lemma organize_folder_touches_only_witness :
  exists (moves : list move) errs w',
    organize_folder sample_config ["d"] sample_world
    = (Ok (length moves, errs), w')
    /\ node_at (fs w') ["d"; "DOCS"; "a.txt"]
       = Some (File (plain "older" 1)).
Proof.
  destruct (organize_folder_touches_only sample_config sample_world ["d"]
              sample_config_plain)
    as (moves & errs & w' & Hrun & _ & Hkeep & _).
  - vm_compute. reflexivity.
  - exists moves, errs, w'. split; [exact Hrun|]. apply Hkeep.
    + vm_compute. reflexivity.
    + intros (_ & _ & Hpar)%elem_of_file_children. by vm_compute in Hpar.
Defined.

Lemma organize_folder_moves_all_witness :
  exists w',
    organize_folder sample_config ["d"] sample_world = (Ok (3, []), w')
    /\ file_children (fs w') ["d"] = [].
Proof.
  destruct (organize_folder_moves_all sample_config sample_world ["d"]
              sample_config_plain)
    as (moves & w' & Hrun & _ & _ & _ & Hnone).
  - vm_compute. reflexivity.
  - unfold no_name_clash. refine (bool_decide_eq_true_1 _ _).
    vm_compute. reflexivity.
  - assert (E : length (file_children (fs sample_world) ["d"]) = 3)
      by (vm_compute; reflexivity).
    rewrite E in Hrun. exists w'. split; [exact Hrun|exact Hnone].
Defined.

(** ** Preview and organise *)

Section PreviewMore.
Context {py : Python}.
Variable config : list (string * list string).

Lemma preview_counts_run (w : world) (folder : path) :
  node_at (fs w) folder = Some Dir ->
  exists counts,
    preview_counts config folder w = (Ok counts, w)
    /\ (forall cat,
          counts !! cat
          = if decide (cat ∈ (CATEGORIES config).*1)
            then Some (length (filter
                         (fun p => find_category config (suffix p) = cat)
                         (file_children (fs w) folder)))
            else None)
    /\ total counts = length (file_children (fs w) folder).
Proof.
  intros Hdir. rewrite preview_counts_start.
  destruct (preview_loop config (children (fs w) folder)
              (zero_counts config) w) as (counts & Hrun & Hper & Htot).
  { intros ext. rewrite zero_counts_lookup.
    rewrite decide_True; [by eexists|apply find_category_in_keys]. }
  exists counts. unfold try_except, bind at 1. rewrite iterdir_run by done.
  rewrite Hrun. split; [done|]. split.
  - intros cat. rewrite Hper, zero_counts_lookup. case_decide; [|done].
    simpl. f_equal. unfold file_children.
    rewrite list_filter_filter. f_equal. apply list_filter_iff.
    intros p. tauto.
  - rewrite Htot. unfold file_children. rewrite total_zero; [done|].
    intros cat n. rewrite zero_counts_lookup. case_decide; [|done].
    by intros [= <-].
Qed.

Lemma organize_folder_clear_run (w : world) (folder : path) :
  node_at (fs w) folder = Some Dir ->
  no_name_clash config (fs w) folder ->
  exists moves w',
    organize_folder config folder w = (Ok (length moves, []), w')
    /\ organized config folder (file_children (fs w) folder) (fs w)
         moves [] (fs w')
    /\ orig <$> moves = file_children (fs w) folder
    /\ (moves <> [] -> undo_file w' = Journal (clock w) moves)
    /\ node_at (fs w') folder = Some Dir
    /\ file_children (fs w') folder = [].
Proof.
  intros Hdir Hclash.
  pose proof (file_children_pending (fs w) folder Hdir) as Hpend.
  destruct (organize_folder_run_placed config w folder Hdir)
    as (moves & errs & w' & Hrun & Horg & _ & _ & _ & Hj).
  destruct (organized_all config folder _ _ _ _ _ Hpend
              (no_name_clash_clear config (fs w) folder Hclash) Horg)
    as [-> Horig].
  exists moves, w'. do 4 (split; [done|]). split.
  - eapply organized_keeps; [done..|].
    intros Hin. destruct Hpend as (_ & _ & Hfiles).
    destruct (Hfiles _ Hin) as [Hf _]. by rewrite Hdir in Hf.
  - destruct (file_children (fs w') folder) as [|p l] eqn:E; [done|].
    exfalso.
    assert (Hp : p ∈ file_children (fs w') folder) by (rewrite E; left).
    apply elem_of_file_children in Hp as ([f Hf] & Hne & Hpar).
    rewrite <- node_at_ne in Hf by done.
    destruct (organized_leftover config folder _ _ _ _ _ Hpend Horg
                p f Hpar Hf) as [Hf0 Hnot].
    apply Hnot. rewrite Horig. apply elem_of_file_children.
    split; [|done]. exists f. by rewrite <- node_at_ne.
Qed.

(** X10.  [preview_counts] forecasts [organize_folder].  When the
    category names are plain names and no regular file directly inside
    the directory bears the name of a category folder, the count
    previewed for a category is the number of files that organising then
    moves into the folder of that category, and the counts add up to the
    number of files moved.  A preview taken right after that run counts
    nothing. *)
Theorem preview_forecasts_organize (w : world) (folder : path) :
  plain_categories config ->
  node_at (fs w) folder = Some Dir ->
  no_name_clash config (fs w) folder ->
  exists counts moves w' counts',
    preview_counts config folder w = (Ok counts, w)
    /\ organize_folder config folder w = (Ok (length moves, []), w')
    /\ (moves <> [] -> undo_file w' = Journal (clock w) moves)
    /\ (forall cat n,
          counts !! cat = Some n ->
          n = length (filter
                (fun mv => parent (new mv) = folder </> cat) moves))
    /\ total counts = length moves
    /\ preview_counts config folder w' = (Ok counts', w')
    /\ (forall cat n, counts' !! cat = Some n -> n = 0).
Proof.
  intros _ Hdir Hclash.
  destruct (organize_folder_clear_run w folder Hdir Hclash)
    as (moves & w' & Hrun & Horg & Horig & Hj & Hdir' & Hnone).
  destruct (preview_counts_run w folder Hdir) as (counts & Hprev & Hper & Htot).
  destruct (preview_counts_run w' folder Hdir')
    as (counts' & Hprev' & Hper' & _).
  exists counts, moves, w', counts'. do 3 (split; [done|]).
  split; [|split; [|split; [done|]]].
  - intros cat n. rewrite Hper. case_decide; [|done]. intros [= <-].
    symmetry. by eapply organized_into.
  - by rewrite Htot, <- Horig, length_fmap.
  - intros cat n. rewrite Hper', Hnone. case_decide; [|done].
    by intros [= <-].
Qed.

End PreviewMore.

Lemma preview_forecasts_organize_witness :
  exists counts w',
    preview_counts sample_config ["d"] sample_world = (Ok counts, sample_world)
    /\ total counts = 3
    /\ organize_folder sample_config ["d"] sample_world = (Ok (3, []), w').
Proof.
  destruct (preview_forecasts_organize sample_config sample_world ["d"]
              sample_config_plain)
    as (counts & moves & w' & counts' & Hprev & Hrun & _ & _ & Htot & _).
  - vm_compute. reflexivity.
  - unfold no_name_clash. refine (bool_decide_eq_true_1 _ _).
    vm_compute. reflexivity.
  - assert (E : fst (organize_folder sample_config ["d"] sample_world)
                = Ok (3, [])) by (vm_compute; reflexivity).
    rewrite Hrun in E. simpl in E. injection E as E.
    exists counts, w'. split; [exact Hprev|].
    split; [by rewrite Htot|]. by rewrite Hrun, E.
Defined.

(** ** Undo: restorations that fail, and what undo leaves alone *)

Lemma os_rename_file_cases (src dst : path) (w : world) (f : file) :
  node_at (fs w) src = Some (File f) ->
  node_at (fs w) dst = None ->
  (node_at (fs w) (parent dst) = Some Dir
   /\ os_rename src dst w
      = (Ok tt, set_fs (<[dst := File f]> (delete src (fs w))) w))
  \/ (node_at (fs w) (parent dst) <> Some Dir
      /\ os_rename src dst w = (Raise (unreachable (fs w) dst), w)).
Proof.
  intros Hsrc Hdst. unfold os_rename. rewrite Hsrc.
  rewrite bool_decide_eq_false_2 by (intros E; rewrite E, Hdst in Hsrc; done).
  destruct (node_at (fs w) (parent dst)) as [[g|]|].
  - by right.
  - left. by rewrite Hdst.
  - by right.
Qed.

(** One step of undo on a record whose new path holds no directory: the
    world is as before, or the file at the new path has gone to a path
    that was unused. *)
Lemma undo_one_cases (restored : nat) (errors : list error_desc) (m : move)
    (w : world) :
  node_at (fs w) (new m) <> Some Dir ->
  exists restored' errors' w',
    undo_one (restored, errors) m w = (Ok (restored', errors'), w')
    /\ undo_file w' = undo_file w /\ clock w' = clock w
    /\ ((restored' = restored /\ w' = w)
        \/ (restored' = S restored /\ errors' = errors
            /\ exists f t,
                 node_at (fs w) (new m) = Some (File f)
                 /\ node_at (fs w) t = None
                 /\ fs w' = <[t := File f]> (delete (new m) (fs w)))).
Proof.
  intros Hnd.
  unfold undo_one, undo_body, try_except, bind at 1. rewrite path_exists_run.
  destruct (node_at (fs w) (new m)) as [[f|]|] eqn:Hnew; [|done|].
  2:{ rewrite bool_decide_eq_false_2 by apply is_Some_None.
      eexists _, _, _. split; [reflexivity|]. naive_solver. }
  rewrite bool_decide_eq_true_2 by eauto.
  unfold bind at 1, bind at 1. rewrite path_exists_run.
  destruct (node_at (fs w) (orig m)) as [n'|] eqn:Horig.
  - rewrite bool_decide_eq_true_2 by eauto.
    destruct (decide (orig m = [])) as [He|Hne].
    + rewrite He. simpl. eexists _, _, _. split; [reflexivity|]. naive_solver.
    + unfold bind at 1. rewrite with_name_run by done.
      unfold bind at 1, gets. unfold bind at 1.
      fold (restored_name (orig m) 1).
      destruct (first_unused_exists (fs w) (restored_name (orig m)) 1
                  (restored_name_inj (orig m))
                  (fun j => joinpath_ne_nil _ _)) as (N & HN & Hlt).
      rewrite (restored_loop_spec _ (orig m) 1 N) by done.
      assert (Hfree : node_at (fs w) (restored_name (orig m) N) = None)
        by (by destruct HN as (_ & ? & _)).
      destruct (os_rename_file_cases (new m) (restored_name (orig m) N) w f
                  Hnew Hfree) as [[_ ->]|[_ ->]];
        unfold ret; eexists _, _, _; (split; [reflexivity|]).
      * split; [done|]. split; [done|]. right. do 2 (split; [done|]).
        by exists f, (restored_name (orig m) N).
      * naive_solver.
  - rewrite bool_decide_eq_false_2 by apply is_Some_None.
    destruct (os_rename_file_cases (new m) (orig m) w f Hnew Horig)
      as [[_ ->]|[_ ->]];
      unfold ret; eexists _, _, _; (split; [reflexivity|]).
    + split; [done|]. split; [done|]. right. do 2 (split; [done|]).
      by exists f, (orig m).
    + naive_solver.
Qed.

Lemma undo_loop_keeps (l : list move) :
  forall (st : nat * list error_desc) (w : world),
    (forall m, m ∈ l -> node_at (fs w) (new m) <> Some Dir) ->
    exists st' w',
      for_each undo_one l st w = (Ok st', w')
      /\ undo_file w' = undo_file w /\ clock w' = clock w
      /\ fst st <= fst st' <= fst st + length l
      /\ size (fs w') = size (fs w)
      /\ (forall q n, node_at (fs w) q = Some n -> q ∉ new <$> l ->
            node_at (fs w') q = Some n)
      /\ (forall q, node_at (fs w') q = Some Dir
                    <-> node_at (fs w) q = Some Dir)
      /\ (forall q f, node_at (fs w) q = Some (File f) ->
            exists q', node_at (fs w') q' = Some (File f)).
Proof.
  induction l as [|m l IH]; intros [restored errors] w Hnd.
  - exists (restored, errors), w. simpl. split; [done|].
    do 2 (split; [done|]). split; [lia|]. split; [done|].
    split; [done|]. split; [done|]. eauto.
  - cbn [for_each]. unfold bind.
    destruct (undo_one_cases restored errors m w) as
      (r1 & e1 & w1 & -> & Hu & Hc
       & [[-> ->]|(-> & -> & f & t & Hnew & Hfree & Hfs)]).
    { apply Hnd. left. }
    + destruct (IH (restored, e1) w) as
        (st' & w' & Hrun & Hu' & Hc' & Hcount & Hsize & Hkeep & Hdirs & Hsome).
      { intros m' Hm'. apply Hnd. by right. }
      exists st', w'. split; [done|]. do 2 (split; [done|]).
      cbn [fst length] in *. split; [lia|]. split; [done|]. split; [|done].
      intros q n Hq Hin. apply Hkeep; [done|].
      intros ?. apply Hin. rewrite fmap_cons. by right.
    + assert (Hlook : forall q,
                node_at (fs w1) q
                = if decide (q = t) then Some (File f)
                  else if decide (q = new m) then None else node_at (fs w) q).
      { intros q. rewrite Hfs. by apply moved_lookup. }
      destruct (IH (S restored, errors) w1) as
        (st' & w' & Hrun & Hu' & Hc' & Hcount & Hsize & Hkeep & Hdirs & Hsome).
      { intros m' Hm'. rewrite Hlook. repeat case_decide; try done.
        apply Hnd. by right. }
      exists st', w'. split; [done|].
      split; [congruence|]. split; [congruence|].
      cbn [fst length] in *. split; [lia|]. split; [|split; [|split]].
      * rewrite Hsize, Hfs.
        assert (Hne : new m <> []) by (by eapply node_at_File_ne).
        assert (Htne : t <> []) by (by eapply node_at_None_ne).
        rewrite node_at_ne in Hnew, Hfree by done.
        rewrite map_size_insert_None.
        -- rewrite map_size_delete_Some by eauto.
           assert (size (fs w) <> 0); [|lia].
           intros E%map_size_empty_inv. by rewrite E, lookup_empty in Hnew.
        -- rewrite lookup_delete_ne; [done|]. intros E. congruence.
      * intros q n Hq Hin. apply Hkeep.
        -- rewrite Hlook.
           rewrite decide_False by (intros ->; congruence).
           rewrite decide_False; [done|].
           intros ->. apply Hin. rewrite fmap_cons. left.
        -- intros ?. apply Hin. rewrite fmap_cons. by right.
      * intros q. rewrite Hdirs, Hlook. repeat case_decide; subst; try done.
        -- split; [done|congruence].
        -- split; [done|congruence].
      * intros q g Hq. destruct (decide (q = new m)) as [->|Hqn].
        -- assert (g = f) by congruence. subst g.
           apply (Hsome t). rewrite Hlook. by rewrite decide_True.
        -- apply (Hsome q). rewrite Hlook.
           rewrite decide_False by (intros ->; congruence).
           by rewrite decide_False.
Qed.

Lemma elem_of_rev {A} (x : A) (l : list A) : x ∈ rev l <-> x ∈ l.
Proof. rewrite !list_elem_of_In. symmetry. apply in_rev. Qed.

Section UndoKeeps.
Context {py : Python}.

(** X11.  Undo leaves alone what the journal does not name.  Whatever the
    records of the journal are, provided none of their new paths is a
    directory, undo returns, having restored at most as many files as
    there are records; a node at a path that is no record's new path is
    where it was; the directories are the same; there are as many nodes
    as before, and every regular file is still somewhere, with what it
    held. *)
Theorem undo_keeps_other_files (w : world) (t : Z) (moves : list move) :
  undo_file w = Journal t moves ->
  (forall m, m ∈ moves -> node_at (fs w) (new m) <> Some Dir) ->
  exists restored msg w',
    undo_last_operation w = (Ok (restored, msg), w')
    /\ restored <= length moves
    /\ size (fs w') = size (fs w)
    /\ (forall q n,
          node_at (fs w) q = Some n -> q ∉ new <$> moves ->
          node_at (fs w') q = Some n)
    /\ (forall q, node_at (fs w') q = Some Dir <-> node_at (fs w) q = Some Dir)
    /\ (forall q f,
          node_at (fs w) q = Some (File f) ->
          exists q', node_at (fs w') q' = Some (File f)).
Proof.
  intros Hj Hnd.
  destruct (undo_loop_keeps (rev moves) (0, []) w) as
    ([restored errors] & w' & Hrun & Hu & Hc & Hcount & Hsize & Hkeep
     & Hdirs & Hsome).
  { intros m Hm. apply Hnd. by apply elem_of_rev. }
  exists restored, (undo_message restored errors), (set_undo_file Absent w').
  split.
  { unfold undo_last_operation, bind at 1, load_undo, gets. rewrite Hj.
    unfold bind at 1, undo_records. by rewrite Hrun. }
  cbn [fs set_undo_file fst] in *. rewrite length_rev in Hcount.
  split; [lia|]. split; [done|]. split; [|done].
  intros q n Hq Hin. apply Hkeep; [done|].
  rewrite fmap_rev. intros Hq'. apply Hin. by apply elem_of_rev.
Qed.

End UndoKeeps.

Lemma undo_keeps_other_files_witness :
  exists restored msg w',
    undo_last_operation moved_world = (Ok (restored, msg), w')
    /\ node_at (fs w') ["d"; "keep.txt"] = Some (File (plain "kept" 5)).
Proof.
  destruct (undo_keeps_other_files moved_world 5
              [mkMove ["d"; "c.xyz"] ["d"; "OTHERS"; "c.xyz"];
               mkMove ["old"; "k.xyz"] ["d"; "OTHERS"; "k.xyz"]])
    as (restored & msg & w' & Hrun & _ & _ & Hkeep & _).
  - reflexivity.
  - intros m Hm. repeat (apply elem_of_cons in Hm as [->|Hm]);
      [vm_compute; congruence..|by apply elem_of_nil in Hm].
  - exists restored, msg, w'. split; [exact Hrun|]. apply Hkeep.
    + vm_compute. reflexivity.
    + intros Hin. repeat (apply elem_of_cons in Hin as [Hin|Hin]);
        [by vm_compute in Hin..|by apply elem_of_nil in Hin].
Defined.

(** ** Undo when the directory of origin is gone *)

Lemma undo_one_no_directory (restored : nat) (errors : list error_desc)
    (m : move) (w : world) :
  is_file_node (node_at (fs w) (new m)) ->
  node_at (fs w) (orig m) = None ->
  node_at (fs w) (parent (orig m)) <> Some Dir ->
  undo_one (restored, errors) m w
  = (Ok (restored,
         errors ++ [FailedRestore m (unreachable (fs w) (orig m))]), w).
Proof.
  intros Hnew Horig Hpar.
  destruct (node_at (fs w) (new m)) as [[f|]|] eqn:Hf; try done.
  unfold undo_one, undo_body, try_except, bind. rewrite path_exists_run, Hf.
  rewrite bool_decide_eq_true_2 by eauto. cbn beta iota.
  rewrite path_exists_run, Horig.
  rewrite bool_decide_eq_false_2 by apply is_Some_None. cbn beta iota.
  destruct (os_rename_file_cases (new m) (orig m) w f Hf Horig)
    as [[E _]|[_ ->]]; [congruence|done].
Qed.

Lemma undo_loop_no_directory (l : list move) (restored : nat)
    (errors : list error_desc) (w : world) :
  (forall m, m ∈ l ->
     is_file_node (node_at (fs w) (new m))
     /\ node_at (fs w) (orig m) = None
     /\ node_at (fs w) (parent (orig m)) <> Some Dir) ->
  for_each undo_one l (restored, errors) w
  = (Ok (restored,
         errors
         ++ ((fun m => FailedRestore m (unreachable (fs w) (orig m)))
               <$> l)),
     w).
Proof.
  revert errors. induction l as [|m l IH]; intros errors Hall.
  - simpl. by rewrite app_nil_r.
  - cbn [for_each]. unfold bind.
    destruct (Hall m) as (Hnew & Horig & Hpar); [left|].
    rewrite undo_one_no_directory by done.
    rewrite IH by (intros m' Hm'; apply Hall; by right).
    by rewrite fmap_cons, <- app_assoc.
Qed.

Section LostDirectories.
Context {py : Python}.

(** X12.  When the directory of origin of every record is gone, undo
    restores nothing: every record is put on the error list with the
    error of its rename, last record first, the files stay at their new
    paths, and the message carries the note about errors.  The error is
    the [FileNotFoundError] when no regular file stands above the
    original path and the [NotADirectoryError] when one does.  The
    journal is removed all the same, so that a second undo finds no undo
    data. *)
Theorem undo_reports_lost_directories (w : world) (t : Z)
    (moves : list move) :
  undo_file w = Journal t moves ->
  moves <> [] ->
  (forall m, m ∈ moves ->
     is_file_node (node_at (fs w) (new m))
     /\ node_at (fs w) (orig m) = None
     /\ node_at (fs w) (parent (orig m)) <> Some Dir) ->
  exists errors,
    undo_records moves w = (Ok (0, errors), w)
    /\ Forall2
         (fun m err =>
            exists e,
              err = FailedRestore m e
              /\ (clear_way (fs w) (orig m) -> e = FileNotFoundError (orig m))
              /\ (below_file (fs w) (orig m)
                  -> e = NotADirectoryError (orig m)))
         (rev moves) errors
    /\ undo_last_operation w
       = (Ok (0, "Restored 0 files. Some errors occurred; check error.log."),
          set_undo_file Absent w)
    /\ undo_last_operation (set_undo_file Absent w)
       = (Ok (0, "No undo data found."), set_undo_file Absent w).
Proof.
  intros Hj Hne Hall.
  set (errors := (fun m => FailedRestore m (unreachable (fs w) (orig m)))
                   <$> rev moves).
  assert (Hrun : undo_records moves w = (Ok (0, errors), w)).
  { unfold undo_records. rewrite undo_loop_no_directory; [done|].
    intros m Hm. apply Hall. by apply elem_of_rev. }
  exists errors. split; [done|]. split; [|split; [|done]].
  - unfold errors. apply Forall2_fmap_r, Forall_Forall2_diag, Forall_forall.
    intros m _. eexists. split; [done|]. split.
    + apply unreachable_clear.
    + apply unreachable_below.
  - unfold undo_last_operation, bind at 1, load_undo, gets. rewrite Hj.
    unfold bind at 1. rewrite Hrun. unfold bind, modify, ret.
    f_equal. f_equal. f_equal. unfold undo_message, errors.
    destruct (rev moves) as [|m l] eqn:E; [|done].
    exfalso. apply Hne. apply (f_equal (@rev _)) in E.
    by rewrite rev_involutive in E.
Qed.

End LostDirectories.

Lemma undo_reports_lost_directories_witness :
  undo_last_operation orphan_world
  = (Ok (0, "Restored 0 files. Some errors occurred; check error.log."),
     set_undo_file Absent orphan_world)
  /\ undo_records [mkMove ["old"; "k.xyz"] ["d"; "OTHERS"; "k.xyz"]]
       orphan_world
     = (Ok (0, [FailedRestore (mkMove ["old"; "k.xyz"] ["d"; "OTHERS"; "k.xyz"])
                  (FileNotFoundError ["old"; "k.xyz"])]), orphan_world).
Proof.
  destruct (undo_reports_lost_directories orphan_world 5
              [mkMove ["old"; "k.xyz"] ["d"; "OTHERS"; "k.xyz"]])
    as (errors & Hrun & Herr & Hundo & _).
  - reflexivity.
  - done.
  - intros m Hm. apply list_elem_of_singleton in Hm as ->.
    vm_compute. split; [done|]. split; [done|]. congruence.
  - split; [exact Hundo|]. rewrite Hrun.
    simpl in Herr. apply Forall2_cons_inv_l in Herr
      as (err & errs' & (e & -> & He & _) & Hnil & ->).
    apply Forall2_nil_inv_l in Hnil as ->.
    rewrite He; [done|].
    intros q [k Hk] Hf.
    destruct q as [|a [|b [|c q]]]; simplify_eq/=; vm_compute in Hf; done.
Defined.

(** ** The category folders after undo *)

Section FoldersStay.
Context {py : Python}.
Variable config : list (string * list string).

Lemma organized_folders (folder : path) items m moves errs m' :
  pending m folder items ->
  organized config folder items m moves errs m' ->
  forall mv, mv ∈ moves -> node_at m' (parent (new mv)) = Some Dir.
Proof.
  intros Hpend Horg. revert Hpend.
  induction Horg as [m|p items m g moves errs m' HD Horg IH
                    |p items m f final moves errs m' Hp HD Hfree Hpar Horg IH];
    intros Hpend mv Hmv.
  - by apply elem_of_nil in Hmv.
  - apply IH; [by eapply pending_tail|done].
  - pose proof (organize_step_pending config folder m p final items f
                  Hpend Hp HD Hfree) as Hpend'.
    apply elem_of_cons in Hmv as [->|Hmv]; [|by apply IH].
    simpl. rewrite Hpar.
    eapply organized_keeps; [done| |].
    + rewrite organize_step_lookup;
        [|apply joinpath_ne_nil|by eapply node_at_File_ne
         |by eapply node_at_None_ne].
      rewrite node_at_insert in Hfree by apply joinpath_ne_nil.
      rewrite decide_False.
      2:{ intros E. rewrite <- E in Hfree. by rewrite decide_True in Hfree. }
      rewrite decide_False.
      2:{ intros E. apply HD. by rewrite E, Hp. }
      by rewrite decide_True.
    + intros Hin. destruct Hpend' as (_ & _ & Hfiles).
      destruct (Hfiles _ Hin) as [Hf _].
      rewrite organize_step_lookup in Hf;
        [|apply joinpath_ne_nil|by eapply node_at_File_ne
         |by eapply node_at_None_ne].
      rewrite node_at_insert in Hfree by apply joinpath_ne_nil.
      rewrite decide_False in Hf.
      2:{ intros E. rewrite <- E in Hfree. by rewrite decide_True in Hfree. }
      rewrite decide_False in Hf.
      2:{ intros E. apply HD. by rewrite E, Hp. }
      by rewrite decide_True in Hf.
Qed.

(** X13.  Undo does not remove the category folders.  The category
    names being plain names, after an organise run that moved something
    the journal holds the records of the run; the new path of every
    record is directly inside the folder of its category, which is a
    directory then, and still is one after the undo that follows, which
    restores every record. *)
Theorem undo_leaves_category_folders (w : world) (folder : path) :
  plain_categories config ->
  node_at (fs w) folder = Some Dir ->
  exists moves errs w1,
    organize_folder config folder w = (Ok (length moves, errs), w1)
    /\ (moves <> [] ->
        undo_file w1 = Journal (clock w) moves
        /\ exists w2,
             undo_last_operation w1
             = (Ok (length moves,
                    "Restored " +:+ pretty (length moves) +:+ " files."), w2)
             /\ forall mv, mv ∈ moves ->
                  parent (new mv)
                  = folder </> find_category config (suffix (orig mv))
                  /\ node_at (fs w1) (parent (new mv)) = Some Dir
                  /\ node_at (fs w2) (parent (new mv)) = Some Dir).
Proof.
  intros _ Hdir.
  pose proof (file_children_pending (fs w) folder Hdir) as Hpend.
  destruct (organize_folder_run_placed config w folder Hdir)
    as (moves & errs & w1 & Hrun & Horg & Hplaced & _ & _ & Hj).
  exists moves, errs, w1. split; [done|]. intros Hne.
  specialize (Hj Hne). split; [done|].
  destruct (organize_then_undo_all config w folder Hdir _ _ _ Hrun)
    as (moves' & w2 & Hj' & Hlen & Hundo & _).
  { destruct moves; [done|simpl; lia]. }
  exists w2. split; [done|].
  destruct (undo_loop_keeps (rev moves) (0, []) w1) as
    ([restored errors] & w2' & Hloop & _ & _ & _ & _ & _ & Hdirs & _).
  { intros mv Hmv. apply (proj1 (elem_of_rev _ _)) in Hmv.
    destruct (organized_moves config folder _ _ _ _ _ Hpend Horg mv Hmv)
      as (_ & f & _ & Hnew).
    by rewrite Hnew. }
  assert (Hfs : fs w2 = fs w2').
  { unfold undo_last_operation, bind at 1, load_undo, gets in Hundo.
    rewrite Hj in Hundo. unfold bind at 1, undo_records in Hundo.
    rewrite Hloop in Hundo. injection Hundo as _ _ <-. done. }
  intros mv Hmv. rewrite Forall_forall in Hplaced.
  assert (Hpar : parent (new mv)
                 = folder </> find_category config (suffix (orig mv))).
  { destruct (Hplaced mv Hmv) as [->|(N & _ & ->)];
      unfold dup_name, destination; by rewrite !parent_joinpath. }
  split; [done|].
  assert (Hd1 : node_at (fs w1) (parent (new mv)) = Some Dir)
    by (by eapply organized_folders).
  split; [done|]. rewrite Hfs. by apply Hdirs.
Qed.

End FoldersStay.

Lemma undo_leaves_category_folders_witness :
  exists w1 w2,
    organize_folder sample_config ["d"] sample_world = (Ok (3, []), w1)
    /\ undo_last_operation w1 = (Ok (3, "Restored 3 files."), w2)
    /\ node_at (fs sample_world) ["d"; "IMAGES"] = None
    /\ node_at (fs w2) ["d"; "IMAGES"] = Some Dir.
Proof.
  destruct (undo_leaves_category_folders sample_config sample_world ["d"]
              sample_config_plain)
    as (moves & errs & w1 & Hrun & Hundo).
  - vm_compute. reflexivity.
  - assert (E : fst (organize_folder sample_config ["d"] sample_world)
                = Ok (3, [])) by (vm_compute; reflexivity).
    rewrite Hrun in E. simpl in E. injection E as E1 E2.
    destruct Hundo as (_ & w2 & Hu & Hdirs).
    { intros ->. simpl in E1. lia. }
    rewrite E1, E2 in Hrun. rewrite E1 in Hu.
    exists w1, w2. split; [exact Hrun|]. split; [exact Hu|].
    split; [vm_compute; reflexivity|].
    assert (Hw2 : fs w2 = fs (snd (undo_last_operation
                        (snd (organize_folder sample_config ["d"]
                                sample_world))))).
    { rewrite Hrun. simpl. by rewrite Hu. }
    rewrite Hw2. vm_compute. reflexivity.
Defined.

(** ** Duplicates: files with the same bytes *)

Lemma two_members {A} (l : list A) (x y : A) :
  x ∈ l -> y ∈ l -> x <> y -> 2 <= length l.
Proof.
  intros Hx Hy Hne. destruct l as [|a [|b l]]; simpl; [| |lia].
  - by apply elem_of_nil in Hx.
  - apply list_elem_of_singleton in Hx, Hy. congruence.
Qed.

Section DuplicatesMore.
Variable md5 : string -> string.

Lemma find_duplicates_run (w : world) (folder : path) :
  node_at (fs w) folder = Some Dir ->
  exists dup,
    find_duplicates md5 folder w = (Ok dup, w)
    /\ forall h,
         dup !! h
         = if decide (2 <= length (with_digest md5 (fs w) h
                                     (children (fs w) folder)))
           then Some (with_digest md5 (fs w) h (children (fs w) folder))
           else None.
Proof.
  intros Hdir. unfold find_duplicates, try_except, bind at 1.
  rewrite iterdir_run by done. unfold bind.
  destruct (dup_loop_invariant md5 [] (children (fs w) folder) ∅ ∅ w)
    as (mh & dup & -> & Hinv).
  { apply NoDup_children. } { intros h. by rewrite lookup_empty. }
  { intros h. by rewrite lookup_empty. }
  exists dup. split; [done|]. exact Hinv.
Qed.

Lemma digest_of_file (m : gmap path node) (p : path) (f : file) :
  node_at m p = Some (File f) -> readable f = true ->
  md5 (content f) <> EmptyString ->
  digest_of md5 m p = Some (md5 (content f)).
Proof.
  intros Hp Hr Hne. unfold digest_of. rewrite Hp, Hr.
  by rewrite bool_decide_eq_false_2.
Qed.

(** X14.  On a directory, two distinct readable regular files with the
    same bytes, whose digest is not the empty string, are in one group,
    that of their digest; no path is in two groups; and a file whose
    digest no other readable regular file of the directory has is in no
    group. *)
Theorem find_duplicates_same_bytes (w : world) (folder : path) :
  node_at (fs w) folder = Some Dir ->
  exists dup,
    find_duplicates md5 folder w = (Ok dup, w)
    /\ (forall p q f g,
          p ∈ children (fs w) folder -> q ∈ children (fs w) folder ->
          p <> q ->
          node_at (fs w) p = Some (File f) ->
          node_at (fs w) q = Some (File g) ->
          readable f = true -> readable g = true ->
          content f = content g ->
          md5 (content f) <> EmptyString ->
          exists group,
            dup !! md5 (content f) = Some group /\ p ∈ group /\ q ∈ group)
    /\ (forall h1 h2 g1 g2 p,
          dup !! h1 = Some g1 -> dup !! h2 = Some g2 ->
          p ∈ g1 -> p ∈ g2 -> h1 = h2)
    /\ (forall p f,
          node_at (fs w) p = Some (File f) ->
          (forall q g,
             q ∈ children (fs w) folder -> q <> p ->
             node_at (fs w) q = Some (File g) -> readable g = true ->
             md5 (content g) <> md5 (content f)) ->
          forall h group, dup !! h = Some group -> p ∉ group).
Proof.
  intros Hdir. destruct (find_duplicates_run w folder Hdir) as (dup & Hrun & Hd).
  exists dup. split; [done|]. split; [|split].
  - intros p q f g Hp Hq Hne Hf Hg Hrf Hrg Hsame Hmd.
    assert (Hdp : digest_of md5 (fs w) p = Some (md5 (content f)))
      by (by apply digest_of_file).
    assert (Hdq : digest_of md5 (fs w) q = Some (md5 (content f))).
    { rewrite Hsame. apply digest_of_file; try done. by rewrite <- Hsame. }
    assert (Hpin : p ∈ with_digest md5 (fs w) (md5 (content f))
                         (children (fs w) folder))
      by (by apply elem_of_with_digest).
    assert (Hqin : q ∈ with_digest md5 (fs w) (md5 (content f))
                         (children (fs w) folder))
      by (by apply elem_of_with_digest).
    eexists. rewrite Hd. rewrite decide_True by (by apply (two_members _ p q)).
    done.
  - intros h1 h2 g1 g2 p. rewrite !Hd.
    case_decide; [|done]. case_decide; [|done].
    intros [= <-] [= <-] [H1 _]%elem_of_with_digest [H2 _]%elem_of_with_digest.
    congruence.
  - intros p f Hp Huniq h group. rewrite Hd. case_decide as Hlen; [|done].
    intros [= <-] Hin.
    pose proof Hin as [Hdp _]%elem_of_with_digest.
    apply digest_of_Some in Hdp as (f' & Hf' & _ & <-).
    assert (f' = f) by congruence. subst f'.
    assert (Hother : exists q, q ∈ with_digest md5 (fs w) (md5 (content f))
                                    (children (fs w) folder) /\ q <> p).
    { destruct (with_digest md5 (fs w) (md5 (content f))
                  (children (fs w) folder)) as [|a [|b l]] eqn:E;
        simpl in Hlen; [lia|lia|].
      assert (Hnd : NoDup (a :: b :: l)).
      { rewrite <- E. apply NoDup_filter, NoDup_children. }
      destruct (decide (a = p)) as [->|Ha].
      - exists b. split; [right; left|].
        intros ->. apply NoDup_cons in Hnd as [Hnd _]. apply Hnd. left.
      - exists a. split; [left|done]. }
    destruct Hother as (q & [Hdq Hq]%elem_of_with_digest & Hqp).
    apply digest_of_Some in Hdq as (g & Hg & Hrg & Hmd).
    by apply (Huniq q g).
Qed.

End DuplicatesMore.

Lemma find_duplicates_same_bytes_witness :
  exists dup group,
    find_duplicates toy_md5 ["q"] twin_world = (Ok dup, twin_world)
    /\ dup !! "md5:same" = Some group
    /\ ["q"; "a.txt"] ∈ group /\ ["q"; "b.txt"] ∈ group.
Proof.
  destruct (find_duplicates_same_bytes toy_md5 twin_world ["q"])
    as (dup & Hrun & Hsame & _).
  - vm_compute. reflexivity.
  - destruct (Hsame ["q"; "a.txt"] ["q"; "b.txt"]
                (plain "same" 0) (plain "same" 0))
      as (group & Hg & Ha & Hb).
    + apply elem_of_children. split; [|split]; [|discriminate|reflexivity].
      vm_compute. eauto.
    + apply elem_of_children. split; [|split]; [|discriminate|reflexivity].
      vm_compute. eauto.
    + discriminate.
    + vm_compute. reflexivity.
    + vm_compute. reflexivity.
    + reflexivity.
    + reflexivity.
    + reflexivity.
    + discriminate.
    + exists dup, group.
      split; [exact Hrun|]. split; [exact Hg|]. split; [exact Ha|exact Hb].
Defined.

(** ** Deleting duplicates *)

Lemma filter_ext_in {A} (P Q : A -> Prop) `{!forall x, Decision (P x)}
    `{!forall x, Decision (Q x)} (l : list A) :
  (forall x, x ∈ l -> P x <-> Q x) -> filter P l = filter Q l.
Proof.
  induction l as [|a l IH]; intros Hext; [done|].
  rewrite !filter_cons.
  rewrite IH by (intros x Hx; apply Hext; by right).
  destruct (decide (P a)) as [Ha|Ha], (decide (Q a)) as [Hb|Hb]; try done.
  - exfalso. apply Hb. by apply (Hext a); [left|].
  - exfalso. apply Ha. by apply (Hext a); [left|].
Qed.

Lemma delete_one_run (deleted : nat) (p : path) (w : world) :
  delete_one deleted p w
  = match node_at (fs w) p with
    | Some (File _) => (Ok (S deleted), set_fs (delete p (fs w)) w)
    | _ => (Ok deleted, w)
    end.
Proof.
  unfold delete_one, try_except, bind, unlink.
  by destruct (node_at (fs w) p) as [[f|]|].
Qed.

Lemma delete_loop (l : list path) :
  forall (deleted : nat) (w : world),
  exists deleted' w',
    for_each delete_one l deleted w = (Ok deleted', w')
    /\ undo_file w' = undo_file w /\ clock w' = clock w
    /\ (forall q,
          node_at (fs w') q
          = if decide (q ∈ l /\ is_file_node (node_at (fs w) q)) then None
            else node_at (fs w) q)
    /\ deleted <= deleted' <= deleted + length l
    /\ (NoDup l ->
        deleted'
        = deleted
          + length (filter (fun p => is_file_node (node_at (fs w) p)) l)).
Proof.
  induction l as [|p l IH]; intros deleted w.
  - exists deleted, w. split; [done|]. do 2 (split; [done|]). split.
    + intros q. rewrite decide_False; [done|]. by intros [?%elem_of_nil _].
    + simpl. split; [lia|]. intros _. lia.
  - cbn [for_each]. unfold bind. rewrite delete_one_run.
    destruct (node_at (fs w) p) as [[f|]|] eqn:Hp.
    + destruct (IH (S deleted) (set_fs (delete p (fs w)) w))
        as (d' & w' & -> & Hu & Hc & Hfs & Hle & Hcount).
      exists d', w'. split; [done|]. do 2 (split; [done|]).
      cbn [fs set_fs] in *.
      assert (Hne : p <> []) by (by eapply node_at_File_ne).
      split; [|split].
      * intros q. rewrite Hfs, node_at_delete by done.
        destruct (decide (p = q)) as [<-|Hpq].
        -- destruct (decide (p ∈ p :: l /\ is_file_node (node_at (fs w) p)))
             as [_|Hn].
           ++ by case_decide.
           ++ exfalso. apply Hn. split; [left|by rewrite Hp].
        -- destruct (decide (q ∈ l /\ is_file_node (node_at (fs w) q)))
             as [[Hq Hf]|Hn].
           ++ destruct (decide (q ∈ p :: l
                                /\ is_file_node (node_at (fs w) q)))
                as [_|Hn']; [done|].
              exfalso. apply Hn'. split; [by right|done].
           ++ destruct (decide (q ∈ p :: l
                                /\ is_file_node (node_at (fs w) q)))
                as [[[E|Hq]%elem_of_cons Hf]|_]; [congruence| |done].
              exfalso. by apply Hn.
      * simpl. lia.
      * intros [Hpl Hnd]%NoDup_cons. rewrite Hcount by done.
        rewrite filter_cons, decide_True by (by rewrite Hp). simpl.
        assert (E : filter (fun q => is_file_node
                            (node_at (delete p (fs w)) q)) l
                    = filter (fun q => is_file_node (node_at (fs w) q)) l).
        { apply filter_ext_in. intros q Hq.
          rewrite node_at_delete by done.
          rewrite decide_False; [done|]. by intros ->. }
        rewrite E. lia.
    + destruct (IH deleted w) as (d' & w' & -> & Hu & Hc & Hfs & Hle & Hcount).
      exists d', w'. split; [done|]. do 2 (split; [done|]). split; [|split].
      * intros q. rewrite Hfs.
        destruct (decide (q ∈ l /\ is_file_node (node_at (fs w) q)))
          as [[Hq Hf]|Hn].
        -- by rewrite decide_True by (split; [by right|done]).
        -- rewrite decide_False; [done|].
           intros [[->|Hq]%elem_of_cons Hf]; [by rewrite Hp in Hf|].
           by apply Hn.
      * simpl. lia.
      * intros [Hpl Hnd]%NoDup_cons. rewrite Hcount by done.
        rewrite filter_cons, decide_False by (rewrite Hp; by intros []). done.
    + destruct (IH deleted w) as (d' & w' & -> & Hu & Hc & Hfs & Hle & Hcount).
      exists d', w'. split; [done|]. do 2 (split; [done|]). split; [|split].
      * intros q. rewrite Hfs.
        destruct (decide (q ∈ l /\ is_file_node (node_at (fs w) q)))
          as [[Hq Hf]|Hn].
        -- by rewrite decide_True by (split; [by right|done]).
        -- rewrite decide_False; [done|].
           intros [[->|Hq]%elem_of_cons Hf]; [by rewrite Hp in Hf|].
           by apply Hn.
      * simpl. lia.
      * intros [Hpl Hnd]%NoDup_cons. rewrite Hcount by done.
        rewrite filter_cons, decide_False by (rewrite Hp; by intros []). done.
Qed.

(** X15.  [delete_selected] deletes nothing unless rows are selected and
    the user confirms.  It then removes the selected paths that are
    regular files, and those only: every other node is where it was, and
    so is the journal.  The count it reports is at most the number of
    rows and, when the rows name distinct paths, is the number of them
    that were regular files. *)
Theorem delete_selected_only_selected (w : world) (sel : list path) :
  delete_selected [] true w = (Ok None, w)
  /\ delete_selected sel false w = (Ok None, w)
  /\ (sel <> [] ->
      exists deleted w',
        delete_selected sel true w = (Ok (Some deleted), w')
        /\ undo_file w' = undo_file w
        /\ (forall q,
              node_at (fs w') q
              = if decide (q ∈ sel /\ is_file_node (node_at (fs w) q))
                then None else node_at (fs w) q)
        /\ deleted <= length sel
        /\ (NoDup sel ->
            deleted
            = length (filter (fun p => is_file_node (node_at (fs w) p))
                        sel))).
Proof.
  split; [done|]. split; [by destruct sel|]. intros Hne.
  destruct (delete_loop sel 0 w) as (d & w' & Hrun & Hu & _ & Hfs & Hle & Hn).
  exists d, w'. split.
  { unfold delete_selected. destruct sel; [done|].
    unfold bind. by rewrite Hrun. }
  split; [done|]. split; [done|]. split; [lia|]. intros Hnd.
  by rewrite Hn.
Qed.

Lemma NoDup_all_equal {A} (l : list A) (a : A) :
  NoDup l -> (forall x, x ∈ l -> x = a) -> length l <= 1.
Proof.
  intros Hnd Hall. destruct l as [|x [|y l]]; simpl; [lia|lia|].
  exfalso. apply NoDup_cons in Hnd as [Hx _]. apply Hx.
  rewrite (Hall x) by left. rewrite <- (Hall y) by (right; left). left.
Qed.

Lemma filter_all {A} (P : A -> Prop) `{!forall x, Decision (P x)}
    (l : list A) :
  (forall x, x ∈ l -> P x) -> filter P l = l.
Proof.
  induction l as [|a l IH]; intros Hall; [done|].
  rewrite filter_cons, decide_True by (apply Hall; left).
  f_equal. apply IH. intros x Hx. apply Hall. by right.
Qed.

Lemma elem_of_tail {A} (l : list A) (x : A) : x ∈ tail l -> x ∈ l.
Proof. destruct l; [done|]. simpl. by right. Qed.

Section DeleteDuplicates.
Variable md5 : string -> string.

Lemma digest_of_ext (m m' : gmap path node) (p : path) :
  node_at m' p = node_at m p -> digest_of md5 m' p = digest_of md5 m p.
Proof. unfold digest_of. by intros ->. Qed.

(** X16.  Deleting all but the first file of every group leaves one copy
    of each and no duplicate.  When the selection is made of the members
    of the groups found by [find_duplicates] other than the first of
    each, [delete_selected] deletes them all; the first file of every
    group is still there, with what it held; nothing else has changed;
    and the scan that follows finds no duplicate. *)
Theorem delete_selected_clears_duplicates (w : world) (folder : path)
    (dup : gmap string (list path)) (sel : list path) :
  node_at (fs w) folder = Some Dir ->
  find_duplicates md5 folder w = (Ok dup, w) ->
  sel <> [] ->
  (forall p, p ∈ sel <-> exists h g, dup !! h = Some g /\ p ∈ tail g) ->
  exists deleted w',
    delete_selected sel true w = (Ok (Some deleted), w')
    /\ (NoDup sel -> deleted = length sel)
    /\ find_duplicates md5 folder w' = (Ok ∅, w')
    /\ (forall h g,
          dup !! h = Some g ->
          exists p f,
            head g = Some p /\ node_at (fs w) p = Some (File f)
            /\ node_at (fs w') p = Some (File f))
    /\ (forall q, q ∉ sel -> node_at (fs w') q = node_at (fs w) q).
Proof.
  intros Hdir Hrun Hne Hsel.
  destruct (find_duplicates_run md5 w folder Hdir) as (dup0 & Hrun0 & Hd).
  rewrite Hrun in Hrun0. injection Hrun0 as <-.
  set (G := fun h => with_digest md5 (fs w) h (children (fs w) folder)) in *.
  assert (HG : forall h p, p ∈ G h ->
            exists f, node_at (fs w) p = Some (File f)).
  { intros h p [Hp _]%elem_of_with_digest.
    apply digest_of_Some in Hp as (f & Hf & _). by exists f. }
  assert (Hgroup : forall h g, dup !! h = Some g -> g = G h /\ 2 <= length g).
  { intros h g. rewrite Hd. case_decide; [|done]. by intros [= <-]. }
  assert (Hfiles : forall p, p ∈ sel -> is_file_node (node_at (fs w) p)).
  { intros p (h & g & Hg & Hp)%Hsel.
    destruct (Hgroup h g Hg) as [-> _].
    destruct (HG h p) as [f ->]; [by apply elem_of_tail|done]. }
  destruct (delete_loop sel 0 w)
    as (d & w' & Hloop & Hu & Hc & Hfs & Hle & Hcount).
  assert (Hkept : forall q, q ∉ sel -> node_at (fs w') q = node_at (fs w) q).
  { intros q Hq. rewrite Hfs. rewrite decide_False; [done|]. by intros [? _]. }
  assert (Hgone : forall q f,
            node_at (fs w') q = Some (File f) ->
            node_at (fs w) q = Some (File f) /\ q ∉ sel).
  { intros q f. rewrite Hfs. case_decide as Hq; [done|]. intros Hf.
    split; [done|]. intros Hin. apply Hq. split; [done|]. by rewrite Hf. }
  assert (Hfirst : forall h a t, G h = a :: t -> a ∉ sel).
  { intros h a t HGh (h' & g' & Hg' & Ha)%Hsel.
    destruct (Hgroup h' g' Hg') as [-> _].
    assert (h' = h).
    { apply elem_of_tail in Ha. apply elem_of_with_digest in Ha as [Ha _].
      assert (Ha' : a ∈ G h) by (rewrite HGh; left).
      apply elem_of_with_digest in Ha' as [Ha' _]. congruence. }
    subst h'. rewrite HGh in Ha. simpl in Ha.
    assert (Hnd : NoDup (a :: t)).
    { rewrite <- HGh. apply NoDup_filter, NoDup_children. }
    by apply NoDup_cons in Hnd as [? _]. }
  exists d, w'. split.
  { unfold delete_selected. destruct sel; [done|].
    unfold bind. by rewrite Hloop. }
  split.
  { intros Hnd. rewrite Hcount by done. simpl. f_equal.
    by rewrite filter_all. }
  assert (Hdir' : node_at (fs w') folder = Some Dir).
  { rewrite Hfs. rewrite decide_False; [done|]. rewrite Hdir. by intros [_ []]. }
  split; [|split; [|done]].
  - destruct (find_duplicates_run md5 w' folder Hdir') as (dup' & -> & Hd').
    f_equal. f_equal. apply map_eq. intros h. rewrite Hd', lookup_empty.
    rewrite decide_False; [done|].
    set (G' := with_digest md5 (fs w') h (children (fs w') folder)).
    assert (Hsub : forall p, p ∈ G' -> p ∈ G h /\ p ∉ sel).
    { intros p [Hp Hc']%elem_of_with_digest.
      pose proof Hp as (f & Hf & _)%digest_of_Some.
      destruct (Hgone p f Hf) as [Hf0 Hns]. split; [|done].
      apply elem_of_with_digest. split.
      - rewrite <- Hp. symmetry. apply digest_of_ext. congruence.
      - apply elem_of_children in Hc' as (_ & Hpne & Hpar).
        apply elem_of_children. split; [|done].
        rewrite <- node_at_ne by done. by rewrite Hf0. }
    assert (Hnd' : NoDup G') by apply NoDup_filter, NoDup_children.
    destruct (G h) as [|a t] eqn:HGh.
    { destruct G' as [|p l]; [simpl; lia|].
      destruct (Hsub p) as [Hp _]; [left|]. by apply elem_of_nil in Hp. }
    assert (length G' <= 1); [|lia].
    apply (NoDup_all_equal _ a); [done|]. intros p Hp.
    destruct (Hsub p Hp) as [[->|Ht]%elem_of_cons Hns]; [done|].
    exfalso. apply Hns. apply Hsel.
    destruct t as [|b t]; [by apply elem_of_nil in Ht|].
    exists h, (a :: b :: t). split; [|done].
    rewrite Hd. fold (G h). rewrite HGh. by rewrite decide_True by (simpl; lia).
  - intros h g Hg. destruct (Hgroup h g Hg) as [-> Hlen].
    destruct (G h) as [|a t] eqn:HGh; [simpl in Hlen; lia|].
    destruct (HG h a) as [f Hf]; [rewrite HGh; left|].
    exists a, f. split; [done|]. split; [done|].
    rewrite Hkept; [done|]. by eapply Hfirst.
Qed.

End DeleteDuplicates.

Lemma delete_selected_only_selected_witness :
  exists w',
    delete_selected [["q"; "a.txt"]; ["q"; "nope"]] true twin_world
    = (Ok (Some 1), w')
    /\ node_at (fs w') ["q"; "a.txt"] = None
    /\ node_at (fs w') ["q"; "b.txt"] = Some (File (plain "same" 0)).
Proof.
  destruct (proj2 (proj2 (delete_selected_only_selected twin_world
                            [["q"; "a.txt"]; ["q"; "nope"]])))
    as (deleted & w' & Hrun & _ & Hfs & _ & Hcount); [done|].
  assert (E : deleted = 1).
  { rewrite Hcount; [vm_compute; reflexivity|].
    refine (bool_decide_eq_true_1 _ _). vm_compute. reflexivity. }
  rewrite E in Hrun. exists w'. split; [|split].
  - exact Hrun.
  - rewrite Hfs. rewrite decide_True; [done|]. split; [left|].
    vm_compute. done.
  - rewrite Hfs. rewrite decide_False; [vm_compute; reflexivity|].
    intros [Hin _]. repeat (apply elem_of_cons in Hin as [Hin|Hin]);
      [discriminate..|by apply elem_of_nil in Hin].
Defined.

Lemma delete_selected_clears_duplicates_witness :
  exists w',
    delete_selected [["q"; "a.txt"]] true twin_world = (Ok (Some 1), w')
    /\ find_duplicates toy_md5 ["q"] w' = (Ok ∅, w')
    /\ node_at (fs w') ["q"; "b.txt"] = Some (File (plain "same" 0)).
Proof.
  destruct (delete_selected_clears_duplicates toy_md5 twin_world ["q"]
              {["md5:same" := [["q"; "b.txt"]; ["q"; "a.txt"]]]}
              [["q"; "a.txt"]])
    as (deleted & w' & Hrun & Hcount & Hscan & _ & Hkept).
  - vm_compute. reflexivity.
  - vm_compute. reflexivity.
  - done.
  - intros p. split.
    + intros ->%list_elem_of_singleton.
      exists "md5:same", [["q"; "b.txt"]; ["q"; "a.txt"]].
      split; [apply lookup_singleton_eq|]. simpl. left.
    + intros (h & g & [_ <-]%lookup_singleton_Some & Hp). exact Hp.
  - rewrite Hcount in Hrun by (apply NoDup_singleton).
    exists w'. split; [exact Hrun|]. split; [exact Hscan|].
    rewrite Hkept; [vm_compute; reflexivity|].
    intros Hin%list_elem_of_singleton. discriminate.
Defined.

(** ** Numbered names keep the extension *)

Lemma string_app_cons (c : ascii) (s t : string) :
  String c s +:+ t = String c (s +:+ t).
Proof. reflexivity. Qed.

Lemma string_app_assoc (a b c : string) : (a +:+ b) +:+ c = a +:+ (b +:+ c).
Proof.
  induction a as [|x a IH]; [done|]. rewrite !string_app_cons. by rewrite IH.
Qed.

Lemma rfind_dot_app (a s : string) (j : nat) :
  rfind_dot s = Some j -> rfind_dot (a +:+ s) = Some (String.length a + j).
Proof.
  intros Hs. induction a as [|c a IH]; [done|].
  rewrite string_app_cons. simpl. by rewrite IH.
Qed.

Lemma rfind_dot_lt (s : string) (i : nat) :
  rfind_dot s = Some i -> i < String.length s.
Proof.
  revert i. induction s as [|c s IH]; intros i; [done|]. simpl.
  destruct (rfind_dot s) as [j|].
  - intros [= <-]. specialize (IH j eq_refl). lia.
  - destruct (Ascii.eqb c "."); [|done]. intros [= <-]. lia.
Qed.

Lemma substring_all (s : string) : String.substring 0 (String.length s) s = s.
Proof. induction s as [|c s IH]; [done|]. simpl. by rewrite IH. Qed.

Lemma substring_app_skip (a s : string) (n : nat) :
  String.substring (String.length a) n (a +:+ s) = String.substring 0 n s.
Proof.
  induction a as [|c a IH]; [done|]. rewrite string_app_cons. simpl.
  by rewrite IH.
Qed.

Lemma substring_app_head (a s : string) :
  String.substring 0 (String.length a) (a +:+ s) = a.
Proof.
  induction a as [|c a IH]; [by destruct s|]. rewrite string_app_cons. simpl.
  by rewrite IH.
Qed.

Lemma substring_length (s : string) (i : nat) :
  i <= String.length s ->
  String.length (String.substring i (String.length s - i) s)
  = String.length s - i.
Proof.
  revert i. induction s as [|c s IH]; intros i Hi.
  - by destruct i.
  - destruct i as [|i].
    + rewrite Nat.sub_0_r, substring_all. done.
    + simpl in *. apply IH. lia.
Qed.

Lemma rfind_dot_suffix (s : string) (i : nat) :
  rfind_dot s = Some i ->
  rfind_dot (String.substring i (String.length s - i) s) = Some 0.
Proof.
  revert i. induction s as [|c s IH]; intros i Hi; [done|].
  cbn [rfind_dot] in Hi. destruct (rfind_dot s) as [j|] eqn:Hs.
  - injection Hi as <-.
    change (rfind_dot (String.substring j (String.length s - j) s) = Some 0).
    by apply IH.
  - destruct (Ascii.eqb c ".") eqn:Hc; [|done]. injection Hi as <-.
    rewrite Nat.sub_0_r, substring_all. cbn [rfind_dot]. by rewrite Hs, Hc.
Qed.

(** A name with an extension is its stem followed by the extension; the
    extension starts with the last dot of the name and is at least two
    characters long. *)
Lemma name_suffix_facts (nm : string) :
  name_suffix nm <> EmptyString ->
  rfind_dot (name_suffix nm) = Some 0
  /\ 2 <= String.length (name_suffix nm).
Proof.
  unfold name_suffix. destruct (rfind_dot nm) as [i|] eqn:Hi; [|done].
  destruct ((0 <? i) && (S i <? String.length nm)) eqn:Hc; [|done].
  intros _. apply andb_true_iff in Hc as [H0 H1].
  apply Nat.ltb_lt in H0, H1. split; [by apply rfind_dot_suffix|].
  rewrite substring_length by lia. lia.
Qed.

Lemma numbered_name_suffix (base tag suf : string) :
  rfind_dot suf = Some 0 -> 2 <= String.length suf -> tag <> EmptyString ->
  name_suffix (base +:+ tag +:+ suf) = suf
  /\ name_stem (base +:+ tag +:+ suf) = base +:+ tag.
Proof.
  intros Hdot Hlen Htag.
  assert (Hpos : 0 < String.length (base +:+ tag)).
  { rewrite string_app_length. destruct tag; [done|]. simpl. lia. }
  rewrite <- string_app_assoc. unfold name_suffix, name_stem.
  rewrite (rfind_dot_app _ suf 0) by done. rewrite Nat.add_0_r.
  rewrite (string_app_length (base +:+ tag) suf).
  assert (Hc : (0 <? String.length (base +:+ tag))
               && (S (String.length (base +:+ tag))
                   <? String.length (base +:+ tag) + String.length suf)
               = true).
  { apply andb_true_iff. split; apply Nat.ltb_lt; lia. }
  rewrite Hc. split.
  - rewrite substring_app_skip.
    replace (String.length (base +:+ tag) + String.length suf
             - String.length (base +:+ tag)) with (String.length suf) by lia.
    apply substring_all.
  - apply substring_app_head.
Qed.

Lemma dup_name_suffix (dest : path) (N : nat) :
  suffix dest <> EmptyString ->
  suffix (dup_name dest N) = suffix dest
  /\ stem (dup_name dest N) = stem dest +:+ "_dup" +:+ pretty N.
Proof.
  intros Hs. destruct (name_suffix_facts (name dest) Hs) as [Hdot Hlen].
  unfold suffix, stem, dup_name. rewrite name_joinpath.
  fold (suffix dest) (stem dest).
  rewrite <- (string_app_assoc "_dup" (pretty N) (suffix dest)).
  by apply numbered_name_suffix.
Qed.

Lemma restored_name_suffix (orig : path) (N : nat) :
  suffix orig <> EmptyString ->
  suffix (restored_name orig N) = suffix orig
  /\ stem (restored_name orig N) = stem orig +:+ "_restored" +:+ pretty N.
Proof.
  intros Hs. destruct (name_suffix_facts (name orig) Hs) as [Hdot Hlen].
  unfold suffix, stem, restored_name. rewrite name_joinpath.
  fold (suffix orig) (stem orig).
  rewrite <- (string_app_assoc "_restored" (pretty N) (suffix orig)).
  by apply numbered_name_suffix.
Qed.

(** X17.  Numbered names keep the extension.  When the destination has
    an extension, the path that [safe_move] returns has the same one, its
    stem being that of the destination, followed by [_dup{N}] if need be.
    When the original path of a record has an extension, the path to
    which undo restores the file has the same one, its stem being that of
    the original path, followed by [_restored{N}] if need be. *)
Theorem numbered_names_keep_extension :
  (forall w src dest f,
     node_at (fs w) src = Some (File f) ->
     node_at (fs w) (parent dest) = Some Dir ->
     suffix dest <> EmptyString ->
     exists final w',
       safe_move src dest w = (Ok final, w')
       /\ suffix final = suffix dest
       /\ (stem final = stem dest
           \/ exists N, 1 <= N
                /\ stem final = stem dest +:+ "_dup" +:+ pretty N))
  /\ (forall w mv restored errors f,
        node_at (fs w) (new mv) = Some (File f) ->
        orig mv <> [] ->
        node_at (fs w) (parent (orig mv)) = Some Dir ->
        suffix (orig mv) <> EmptyString ->
        exists t w',
          undo_one (restored, errors) mv w = (Ok (S restored, errors), w')
          /\ node_at (fs w') t = Some (File f)
          /\ suffix t = suffix (orig mv)
          /\ (stem t = stem (orig mv)
              \/ exists N, 1 <= N
                   /\ stem t = stem (orig mv) +:+ "_restored" +:+ pretty N)).
Proof.
  split.
  - intros w src dest f Hsrc Hpar Hs.
    destruct (safe_move_in_dir_name w src dest f Hsrc Hpar)
      as (final & w' & Hrun & [->|(N & HN & ->)]).
    + exists dest, w'. split; [done|]. split; [done|]. by left.
    + destruct (dup_name_suffix dest N Hs) as [E1 E2].
      exists (dup_name dest N), w'. split; [done|]. split; [done|].
      right. by exists N.
  - intros w mv restored errors f Hnew Hne Hpar Hs.
    destruct (undo_one_restores (fs w) w mv restored errors f Hnew Hne Hpar)
      as (t & Hrun & Hfree & Ht).
    assert (Hw : set_fs (fs w) w = w) by (by destruct w).
    rewrite Hw in Hrun. exists t. eexists. split; [exact Hrun|].
    cbn [fs set_fs]. split.
    { rewrite node_at_insert by (by eapply node_at_None_ne).
      by rewrite decide_True. }
    destruct Ht as [->|(N & HN & ->)].
    + split; [done|]. by left.
    + destruct (restored_name_suffix (orig mv) N Hs) as [E1 E2].
      split; [done|]. right. by exists N.
Qed.

Lemma numbered_names_keep_extension_witness :
  exists final w',
    safe_move ["d"; "a.txt"] ["d"; "DOCS"; "a.txt"] sample_world
    = (Ok final, w')
    /\ suffix final = ".txt".
Proof.
  destruct (proj1 numbered_names_keep_extension sample_world
              ["d"; "a.txt"] ["d"; "DOCS"; "a.txt"] (plain "alpha" 10))
    as (final & w' & Hrun & Hs & _).
  - vm_compute. reflexivity.
  - vm_compute. reflexivity.
  - vm_compute. discriminate.
  - exists final, w'. split; [exact Hrun|]. rewrite Hs.
    vm_compute. reflexivity.
Defined.

(** A name that ends with a dot has no extension, and its numbered name
    acquires one. *)
Example trailing_dot_gains_extension :
  suffix ["d"; "a."] = EmptyString
  /\ suffix (dup_name ["d"; "a."] 1) = "._dup1".
Proof. split; vm_compute; reflexivity. Qed.

(** ** The history of folders *)

Lemma remove_first_absent (x : string) (l : list string) :
  x ∉ l -> remove_first x l = l.
Proof.
  induction l as [|y l IH]; [done|]. intros Hin. simpl.
  rewrite bool_decide_eq_false_2.
  - f_equal. apply IH. intros ?. apply Hin. by right.
  - intros ->. apply Hin. left.
Qed.

Lemma remove_first_sublist (x : string) (l : list string) :
  sublist (remove_first x l) l.
Proof.
  induction l as [|y l IH]; [done|]. simpl. case_bool_decide.
  - by apply sublist_cons.
  - by apply sublist_skip.
Qed.

Lemma remove_first_other (x y : string) (l : list string) :
  y ∈ l -> y <> x -> y ∈ remove_first x l.
Proof.
  induction l as [|z l IH]; [done|]. intros Hy Hne. simpl.
  apply elem_of_cons in Hy as [->|Hy].
  - rewrite bool_decide_eq_false_2 by done. left.
  - case_bool_decide; [done|]. right. by apply IH.
Qed.

Lemma remove_first_filter (x : string) (l : list string) :
  NoDup l -> remove_first x l = filter (fun y => y <> x) l.
Proof.
  induction 1 as [|y l Hy Hnd IH]; [done|]. simpl. rewrite filter_cons.
  case_bool_decide as E.
  - subst y. rewrite decide_False by (by intros ?).
    rewrite <- IH. symmetry. by apply remove_first_absent.
  - rewrite decide_True by done. by rewrite IH.
Qed.

Lemma take_remove_first (x : string) (l : list string) (n : nat) :
  take n (remove_first x (take (S n) l)) = take n (remove_first x l).
Proof.
  revert n. induction l as [|y l IH]; intros n; [done|].
  cbn [take remove_first]. case_bool_decide.
  - by rewrite take_take, Nat.min_id.
  - destruct n as [|n]; [done|]. cbn [take]. by rewrite IH.
Qed.

Lemma saved_history (folder : string) (h : history_file) :
  load_history (save_history folder h)
  = folder :: take 5 (remove_first folder (load_history h)).
Proof.
  unfold save_history.
  assert (E : (if bool_decide (folder ∈ load_history h)
               then remove_first folder (load_history h)
               else load_history h)
              = remove_first folder (load_history h)).
  { case_bool_decide; [done|]. symmetry. by apply remove_first_absent. }
  destruct h; simpl in *; try done.
  rewrite E. done.
Qed.

Lemma remove_dups_snoc (l : list string) (x : string) :
  remove_dups (l ++ [x]) = filter (fun y => y <> x) (remove_dups l) ++ [x].
Proof.
  induction l as [|y l IH]; [done|].
  cbn [app remove_dups].
  destruct (decide_rel elem_of y (l ++ [x])) as [Hin|Hin];
    destruct (decide_rel elem_of y l) as [Hin'|Hin'].
  - done.
  - rewrite IH. f_equal. rewrite filter_cons, decide_False; [done|].
    intros Hne. apply Hin'.
    apply elem_of_app in Hin as [?|Hx%list_elem_of_singleton]; done.
  - exfalso. apply Hin, elem_of_app. by left.
  - rewrite filter_cons, decide_True.
    + simpl. by rewrite IH.
    + intros ->. apply Hin, elem_of_app. right. left.
Qed.

(** X18.  [save_history] on a history file that is absent, that cannot
    be parsed, or that holds a list of strings.  In the first two cases
    the new history is the folder alone.  In the third the folder comes
    first and at most six entries are kept; the entries after the first
    are entries of the former list, in their former order; a list
    without repetition stays so; and when the former list had fewer than
    six entries none of them is dropped. *)
Theorem save_history_puts_first (folder : string) (hist : list string) :
  save_history folder NoHistory = History [folder]
  /\ save_history folder BadHistory = History [folder]
  /\ exists l,
       save_history folder (History hist) = History l
       /\ head l = Some folder
       /\ length l <= 6
       /\ sublist (tail l) hist
       /\ (NoDup hist -> NoDup l)
       /\ (length hist < 6 -> forall x, x ∈ hist -> x ∈ l).
Proof.
  split; [done|]. split; [done|].
  exists (load_history (save_history folder (History hist))).
  split; [done|].
  rewrite saved_history. simpl.
  split; [done|]. split; [rewrite length_take; lia|].
  assert (Hsub : sublist (take 5 (remove_first folder hist)) hist).
  { etrans; [apply sublist_take|apply remove_first_sublist]. }
  split; [done|]. split.
  - intros Hnd. apply NoDup_cons. split.
    + rewrite remove_first_filter by done.
      intros Hin%elem_of_take. destruct Hin as (i & Hi & _).
      apply list_elem_of_lookup_2, list_elem_of_filter in Hi.
      destruct Hi as [Hi _]. by apply Hi.
    + by eapply sublist_NoDup.
  - intros Hlen x Hx. destruct (decide (x = folder)) as [->|Hne]; [left|].
    right. rewrite take_ge.
    + by apply remove_first_other.
    + pose proof (sublist_length _ _ (remove_first_sublist folder hist)).
      lia.
Qed.

(** X19.  Saving the same folder twice in a row is the same as saving it
    once. *)
Theorem save_history_twice (folder : string) (h : history_file) :
  save_history folder (save_history folder h) = save_history folder h.
Proof.
  assert (E : forall h', exists l, save_history folder h' = History l).
  { intros h'. unfold save_history. by eexists. }
  destruct (E h) as [l Hl]. destruct (E (save_history folder h)) as [l' Hl'].
  rewrite Hl', Hl. f_equal.
  pose proof (saved_history folder (save_history folder h)) as H2.
  pose proof (saved_history folder h) as H1.
  rewrite Hl' in H2. rewrite Hl in H1, H2. simpl in H1, H2.
  rewrite H2, H1. f_equal. simpl. rewrite bool_decide_eq_true_2 by done.
  rewrite take_take. f_equal.
Qed.

(** X20.  Starting from no history (no file, an unparseable one, or an
    empty list), once the folders of a list have been saved one after the
    other, the history is the six most recently saved distinct folders,
    the most recent first. *)
Theorem history_most_recent_first (h : history_file) (folders : list string) :
  load_history h = [] ->
  load_history (foldl (fun h f => save_history f h) h folders)
  = take 6 (reverse (remove_dups folders)).
Proof.
  intros Hempty. induction folders as [|f l IH] using rev_ind; [done|].
  rewrite foldl_app. cbn [foldl]. rewrite saved_history, IH.
  rewrite remove_dups_snoc, reverse_snoc. cbn [take]. f_equal.
  rewrite <- filter_reverse.
  rewrite take_remove_first.
  rewrite remove_first_filter; [done|].
  rewrite reverse_Permutation. apply NoDup_remove_dups.
Qed.

Lemma history_most_recent_first_witness :
  load_history
    (foldl (fun h f => save_history f h) BadHistory
       ["a"; "b"; "a"; "c"; "d"; "e"; "f"; "g"])
  = ["g"; "f"; "e"; "d"; "c"; "a"].
Proof. apply (history_most_recent_first BadHistory); reflexivity. Defined.
